(** * Landing page cart, checkout submission and organization registry

    A shallow embedding of the cart state kept by the [Landing] component
    (add / remove / update quantity, total, cart submission) and of the
    in-memory organization handlers, with the properties stated about them.

    Conventions of the embedding:
    - a React state variable is a field of [State]; [setX(f)] is a function
      on [State];
    - a JavaScript [number] is a binary64 double.  In [Landing] a quantity
      is an integer ([Z]) and a price an exact rational ([Q]): the two agree
      with the doubles of the code as long as no operation rounds, that is,
      for integers below 2^53 and for multiples of 0.25 (as every catalogue
      price is) below 2^51.  A statement that depends on [quantity + 1],
      [quantity - 1] or on the sums carries these bounds as hypotheses.
      [Doubles] has the same cart functions on binary64 itself, for the
      inputs on which the two differ;
    - [toast(...)] and [fetch(...)] are recorded in the lists of toasts and
      requests returned with the new state; the outcome of [fetch] and the
      clock are inputs of the handler. *)

From Stdlib Require Import List String Ascii ZArith QArith Lia Bool.
From Stdlib Require Import DecimalString DecimalPos DecimalZ.
From Stdlib Require Import PrimFloat FloatOps SpecFloat Permutation.
Import ListNotations.

Local Open Scope string_scope.

(** ** The page component: cart and checkout *)

Module Landing.

(** [interface Product] *)
Record Product := mkProduct {
  id : string;
  name : string;
  price : Q;
  image : string;
  category : string;
  description : string;
  inStock : bool
}.

(** [interface CartItem extends Product { quantity: number }] *)
Record CartItem := mkCartItem {
  product_of :> Product;
  quantity : Z
}.

(** [const PLUMBING_PRODUCTS: Product[]] *)
Definition PLUMBING_PRODUCTS : list Product := [
  {| id := "1";
     name := "Professional Pipe Wrench Set";
     price := 450.00;
     image := "https://images.pexels.com/photos/162553/keys-workshop-mechanic-tools-162553.jpeg";
     category := "Tools";
     description := "Heavy-duty pipe wrench set for professional plumbers";
     inStock := true |};
  {| id := "2";
     name := "Copper Pipe Fittings Kit";
     price := 285.50;
     image := "https://images.pexels.com/photos/1093038/pexels-photo-1093038.jpeg";
     category := "Fittings";
     description := "Complete copper pipe fitting kit with joints and connections";
     inStock := true |};
  {| id := "3";
     name := "High-Pressure Water Pump";
     price := 1250.00;
     image := "https://images.pexels.com/photos/159160/gear-machine-mechanical-engine-159160.jpeg";
     category := "Pumps";
     description := "Industrial grade water pump for high-pressure applications";
     inStock := true |};
  {| id := "4";
     name := "PVC Pipe Bundle - 4 inch";
     price := 185.75;
     image := "https://images.pexels.com/photos/1108572/pexels-photo-1108572.jpeg";
     category := "Pipes";
     description := "4-inch PVC pipes, 6-meter length bundle";
     inStock := true |};
  {| id := "5";
     name := "Emergency Leak Repair Kit";
     price := 95.00;
     image := "https://images.pexels.com/photos/1249611/pexels-photo-1249611.jpeg";
     category := "Repair";
     description := "Emergency leak repair kit with sealants and patches";
     inStock := true |};
  {| id := "6";
     name := "Digital Water Flow Meter";
     price := 320.00;
     image := "https://images.pexels.com/photos/257736/pexels-photo-257736.jpeg";
     category := "Meters";
     description := "Digital water flow meter with LCD display";
     inStock := true |};
  {| id := "7";
     name := "Toilet Installation Kit";
     price := 145.25;
     image := "https://images.pexels.com/photos/6419121/pexels-photo-6419121.jpeg";
     category := "Installation";
     description := "Complete toilet installation kit with all hardware";
     inStock := true |};
  {| id := "8";
     name := "Professional Drain Snake";
     price := 275.00;
     image := "https://images.pexels.com/photos/8101965/pexels-photo-8101965.jpeg";
     category := "Tools";
     description := "50-foot professional drain snake for blockage removal";
     inStock := true |}
].

(** The [n]-th entry of the catalogue, counting from 0. *)
Definition catalogue_item (n : nat) : Product :=
  nth n PLUMBING_PRODUCTS (mkProduct "" "" 0 "" "" "" false).

(** The object held by [customerInfo]. *)
Module CustomerInfo.

Record t := mk {
  name : string;
  email : string;
  phone : string;
  address : string
}.

(** [{ name: '', email: '', phone: '', address: '' }] *)
Definition empty : t :=
  {| name := ""; email := ""; phone := ""; address := "" |}.

End CustomerInfo.

(** The three [useState] cells of the component. *)
Record State := mkState {
  cart : list CartItem;
  isCartOpen : bool;
  customerInfo : CustomerInfo.t
}.

(** The state after the first render. *)
Definition initialState : State :=
  {| cart := []; isCartOpen := false; customerInfo := CustomerInfo.empty |}.

Definition setCart (f : list CartItem -> list CartItem) (st : State) : State :=
  {| cart := f (cart st);
     isCartOpen := isCartOpen st;
     customerInfo := customerInfo st |}.

Definition setCustomerInfo (info : CustomerInfo.t) (st : State) : State :=
  {| cart := cart st; isCartOpen := isCartOpen st; customerInfo := info |}.

Definition setIsCartOpen (b : bool) (st : State) : State :=
  {| cart := cart st; isCartOpen := b; customerInfo := customerInfo st |}.

(** The argument of a [toast(...)] call; [variant] is [None] where the call
    leaves it out. *)
Module Toast.

Record t := mk {
  title : string;
  description : string;
  variant : option string
}.

End Toast.

(** [{ ...item, quantity: q }] *)
Definition with_quantity (item : CartItem) (q : Z) : CartItem :=
  {| product_of := product_of item; quantity := q |}.

(** [addToCart]: the updater given to [setCart], then the toast. *)
Definition addToCart (product : Product) (st : State)
  : State * list Toast.t :=
  (setCart (fun prevCart =>
      let existingItem :=
        find (fun item : CartItem => String.eqb (id item) (id product))
             prevCart in
      match existingItem with
      | Some _ =>
          map (fun item : CartItem =>
                 if String.eqb (id item) (id product)
                 then with_quantity item (quantity item + 1)%Z
                 else item) prevCart
      | None =>
          (prevCart ++ [ {| product_of := product; quantity := 1 |} ])%list
      end) st,
   [ {| Toast.title := "Added to cart";
        Toast.description := name product ++ " has been added to your cart.";
        Toast.variant := None |} ]).

(** [removeFromCart] *)
Definition removeFromCart (productId : string) (st : State) : State :=
  setCart (fun prevCart =>
    filter (fun item : CartItem => negb (String.eqb (id item) productId))
           prevCart) st.

(** [updateQuantity] *)
Definition updateQuantity (productId : string) (quantity' : Z) (st : State)
  : State :=
  if (quantity' <=? 0)%Z then removeFromCart productId st
  else
    setCart (fun prevCart =>
      map (fun item : CartItem =>
             if String.eqb (id item) productId
             then with_quantity item quantity'
             else item) prevCart) st.

(** [getTotalPrice]: [cart.reduce((total, item) => total + item.price *
    item.quantity, 0)] *)
Definition getTotalPrice (st : State) : Q :=
  fold_left (fun (total : Q) (item : CartItem) =>
               (total + price item * inject_Z (quantity item))%Q)
            (cart st) 0%Q.

(** The same reduction on IEEE doubles, over (price, quantity) pairs. *)
Definition total_in_doubles (lines : list (float * float)) : float :=
  fold_left (fun (total : float) (line : float * float) =>
               (total + fst line * snd line)%float)
            lines 0%float.

(** *** Cart submission *)

(** [cartData], the object built at lines 226-231. *)
Record CartData := mkCartData {
  customer : CustomerInfo.t;
  items : list CartItem;
  total : Q;
  timestamp : string
}.

(** The argument of [JSON.stringify] in the request. *)
Record EmailBody := mkEmailBody {
  to : string;
  subject : string;
  cartData : CartData
}.

(** The arguments of the [fetch] call. *)
Record Request := mkRequest {
  url : string;
  method : string;
  headers : list (string * string);
  body : EmailBody
}.

(** What [submitCart] reads of a response: [response.ok], which the Fetch
    API defines as a status in the range 200-299. *)
Record Response := mkResponse { status : Z }.

Definition ok (response : Response) : bool :=
  ((200 <=? status response) && (status response <=? 299))%Z.

(** The promise returned by [fetch] either resolves with a response or
    rejects (network failure); [await] throws in the second case. *)
Inductive FetchResult :=
| Resolved (response : Response)
| Rejected.

(** The four ways out of [submitCart]: the two early [return]s, the end of
    the [if (response.ok)] branch and the [catch] block.  They carry the
    names under which the specification lists them. *)
Inductive SubmitPath :=
| EmptyCartError            (* return at line 212 *)
| MissingContactInfoError   (* return at line 221 *)
| Succeeded                 (* lines 246-253 *)
| SubmissionFailed.         (* catch, lines 257-263 *)

(** One call of [submitCart]: the way out, the component state afterwards,
    the toasts shown and the requests sent, in order. *)
Record SubmitResult := mkSubmitResult {
  path : SubmitPath;
  state : State;
  toasts : list Toast.t;
  requests : list Request
}.

(** [!s] on a string: only the empty string is falsy. *)
Definition not_string (s : string) : bool := String.eqb s "".

Definition cart_empty_toast : Toast.t :=
  {| Toast.title := "Cart is empty";
     Toast.description := "Please add items to your cart before submitting.";
     Toast.variant := Some "destructive" |}.

Definition missing_information_toast : Toast.t :=
  {| Toast.title := "Missing information";
     Toast.description := "Please fill in your name and email address.";
     Toast.variant := Some "destructive" |}.

Definition cart_submitted_toast : Toast.t :=
  {| Toast.title := "Cart submitted!";
     Toast.description :=
       "Your cart has been sent to our team. We'll contact you soon.";
     Toast.variant := None |}.

Definition submission_failed_toast : Toast.t :=
  {| Toast.title := "Submission failed";
     Toast.description :=
       "There was an error submitting your cart. Please try again.";
     Toast.variant := Some "destructive" |}.

(** The request of lines 234-244 for the cart and customer of [st]. *)
Definition cart_email_request (now : string) (st : State) : Request :=
  let cartData :=
    {| customer := customerInfo st;
       items := cart st;
       total := getTotalPrice st;
       timestamp := now |} in
  {| url := "/api/send-cart-email";
     method := "POST";
     headers := [("Content-Type", "application/json")];
     body := {| to := "admin@bbplumbing.co.za";
                subject := "New Cart Submission - BlockBusters Plumbing";
                cartData := cartData |} |}.

(** [submitCart].  [now] is [new Date().toISOString()] and [fetch] the
    outcome of the network call.  The [try] block yields [None] where the
    source throws; the [catch] block then runs on the state of the call. *)
Definition submitCart (now : string) (fetch : Request -> FetchResult)
  (st : State) : SubmitResult :=
  if (List.length (cart st) =? 0)%nat then
    {| path := EmptyCartError; state := st;
       toasts := [cart_empty_toast]; requests := [] |}
  else if not_string (CustomerInfo.name (customerInfo st))
          || not_string (CustomerInfo.email (customerInfo st)) then
    {| path := MissingContactInfoError; state := st;
       toasts := [missing_information_toast]; requests := [] |}
  else
    let request := cart_email_request now st in
    let attempt : option SubmitResult :=
      match fetch request with
      | Resolved response =>
          if ok response then
            Some {| path := Succeeded;
                    state := setIsCartOpen false
                               (setCustomerInfo CustomerInfo.empty
                                  (setCart (fun _ => []) st));
                    toasts := [cart_submitted_toast];
                    requests := [request] |}
          else None
      | Rejected => None
      end in
    match attempt with
    | Some finished => finished
    | None =>
        {| path := SubmissionFailed; state := st;
           toasts := [submission_failed_toast]; requests := [request] |}
    end.

(** *** The cart operations as a sequence of user actions *)

(** One click on a cart control: [addToCart(product)],
    [removeFromCart(id)] or [updateQuantity(id, quantity)]. *)
Inductive CartOp :=
| AddItem (product : Product)
| RemoveItem (productId : string)
| SetQuantity (productId : string) (quantity' : Z).

Definition apply_op (st : State) (op : CartOp) : State :=
  match op with
  | AddItem product => fst (addToCart product st)
  | RemoveItem productId => removeFromCart productId st
  | SetQuantity productId q => updateQuantity productId q st
  end.

Definition run_ops (ops : list CartOp) (st : State) : State :=
  fold_left apply_op ops st.

(** The sum of [price * quantity] over the lines, as the data model of the
    specification writes it. *)
Definition line_total (item : CartItem) : Q :=
  (price item * inject_Z (quantity item))%Q.

Fixpoint sum_of_line_totals (lines : list CartItem) : Q :=
  match lines with
  | [] => 0%Q
  | item :: rest => (line_total item + sum_of_line_totals rest)%Q
  end.

(** The identifiers of the lines, in cart order. *)
Definition ids (lines : list CartItem) : list string :=
  map (fun item : CartItem => id item) lines.

(** The invariant of the data model: every quantity is at least 1 and no
    identifier occurs on two lines. *)
Definition cart_ok (lines : list CartItem) : Prop :=
  Forall (fun item => (1 <= quantity item)%Z) lines /\ NoDup (ids lines).

(** No line of [lines] is for [productId]. *)
Definition absent (productId : string) (lines : list CartItem) : Prop :=
  forall item, In item lines -> id item <> productId.

(** The two fields whose presence [submitCart] checks. *)
Inductive Field := NameField | EmailField.

(** The fields of [info] that the check of line 215 finds missing. *)
Definition missing_fields (info : CustomerInfo.t) : list Field :=
  ((if not_string (CustomerInfo.name info) then [NameField] else []) ++
   (if not_string (CustomerInfo.email info) then [EmailField] else []))%list.

(** The missing-information notification names the specific missing fields
    when some reading [named] of a toast gives, on every rejected
    submission, exactly the fields that were missing. *)
Definition names_the_missing_fields (named : Toast.t -> list Field) : Prop :=
  forall now fetch st,
    cart st <> [] ->
    missing_fields (customerInfo st) <> [] ->
    exists t,
      toasts (submitCart now fetch st) = [t] /\
      named t = missing_fields (customerInfo st).

(** *** The scenarios of the specification *)

(** A component whose cart holds [lines] and whose form holds [info]. *)
Definition page (lines : list CartItem) (info : CustomerInfo.t) : State :=
  setCustomerInfo info (setCart (fun _ => lines) initialState).

(** One wrench set and three pipe bundles, nothing typed in the form. *)
Definition two_line_page : State :=
  page [mkCartItem (catalogue_item 0) 1; mkCartItem (catalogue_item 3) 3]
       CustomerInfo.empty.

(** Scenario B: one wrench set, the form empty. *)
Definition scenario_B : State :=
  page [mkCartItem (catalogue_item 0) 1] CustomerInfo.empty.

(** Scenarios C and D: two wrench sets (450.00 each) and one pipe bundle
    (185.75), name and e-mail typed in. *)
Definition scenario_C : State :=
  page [mkCartItem (catalogue_item 0) 2; mkCartItem (catalogue_item 3) 1]
       (CustomerInfo.mk "Jane" "jane@x.com" "" "").

(** A network that answers every request with [status]. *)
Definition answering (status : Z) : Request -> FetchResult :=
  fun _ => Resolved {| status := status |}.

(** A network on which every request fails. *)
Definition unreachable : Request -> FetchResult := fun _ => Rejected.

(** *** What the page shows and the controls it offers *)

(** [cart.length], the count in the label of the cart button (line 299). *)
Definition cartLength (st : State) : nat := List.length (cart st).

(** [cart.reduce((sum, item) => sum + item.quantity, 0)], the number in the
    badge of the cart button (line 302). *)
Definition badge (st : State) : Z :=
  fold_left (fun (sum : Z) (item : CartItem) => (sum + quantity item)%Z)
            (cart st) 0%Z.

(** The [onChange] handlers of the four inputs (lines 660-681):
    [setCustomerInfo({...customerInfo, name: e.target.value})] and the
    like; [value] is [e.target.value]. *)
Definition onChangeName (value : string) (st : State) : State :=
  setCustomerInfo
    {| CustomerInfo.name := value;
       CustomerInfo.email := CustomerInfo.email (customerInfo st);
       CustomerInfo.phone := CustomerInfo.phone (customerInfo st);
       CustomerInfo.address := CustomerInfo.address (customerInfo st) |} st.

Definition onChangeEmail (value : string) (st : State) : State :=
  setCustomerInfo
    {| CustomerInfo.name := CustomerInfo.name (customerInfo st);
       CustomerInfo.email := value;
       CustomerInfo.phone := CustomerInfo.phone (customerInfo st);
       CustomerInfo.address := CustomerInfo.address (customerInfo st) |} st.

Definition onChangePhone (value : string) (st : State) : State :=
  setCustomerInfo
    {| CustomerInfo.name := CustomerInfo.name (customerInfo st);
       CustomerInfo.email := CustomerInfo.email (customerInfo st);
       CustomerInfo.phone := value;
       CustomerInfo.address := CustomerInfo.address (customerInfo st) |} st.

Definition onChangeAddress (value : string) (st : State) : State :=
  setCustomerInfo
    {| CustomerInfo.name := CustomerInfo.name (customerInfo st);
       CustomerInfo.email := CustomerInfo.email (customerInfo st);
       CustomerInfo.phone := CustomerInfo.phone (customerInfo st);
       CustomerInfo.address := value |} st.

(** The controls of the page that have a handler. *)
Inductive Control :=
| AddToCartButton (product : Product)   (* line 454 *)
| ViewCartButton                        (* lines 293 and 545 *)
| CloseCartButton                       (* lines 582, 588 and 603 *)
| MinusButton (item : CartItem)         (* line 621 *)
| PlusButton (item : CartItem)          (* line 628 *)
| RemoveButton (item : CartItem)        (* line 635 *)
| NameInput (value : string)            (* line 660 *)
| EmailInput (value : string)           (* line 667 *)
| PhoneInput (value : string)           (* line 675 *)
| AddressInput (value : string)         (* line 681 *)
| SubmitButton (now : string) (fetch : Request -> FetchResult).
                                        (* line 687 *)

(** The control is on the page rendered from [st]: one "Add to Cart" button
    per catalogue entry; the cart panel under [isCartOpen &&]; in the panel
    the line buttons, the form and the submit button on the
    [cart.length === 0 ? ... : ...] branch of a non-empty cart, one group of
    line buttons per element of [cart.map]. *)
Definition rendered (st : State) (c : Control) : Prop :=
  match c with
  | AddToCartButton product => In product PLUMBING_PRODUCTS
  | ViewCartButton => True
  | CloseCartButton => isCartOpen st = true
  | MinusButton item | PlusButton item | RemoveButton item =>
      isCartOpen st = true /\ In item (cart st)
  | NameInput _ | EmailInput _ | PhoneInput _ | AddressInput _
  | SubmitButton _ _ =>
      isCartOpen st = true /\ cart st <> []
  end.

(** The state after the handler of the control has run. *)
Definition use (st : State) (c : Control) : State :=
  match c with
  | AddToCartButton product => fst (addToCart product st)
  | ViewCartButton => setIsCartOpen true st
  | CloseCartButton => setIsCartOpen false st
  | MinusButton item => updateQuantity (id item) (quantity item - 1) st
  | PlusButton item => updateQuantity (id item) (quantity item + 1) st
  | RemoveButton item => removeFromCart (id item) st
  | NameInput value => onChangeName value st
  | EmailInput value => onChangeEmail value st
  | PhoneInput value => onChangePhone value st
  | AddressInput value => onChangeAddress value st
  | SubmitButton now fetch => state (submitCart now fetch st)
  end.

(** The toasts that the handler of the control shows. *)
Definition toasts_of (st : State) (c : Control) : list Toast.t :=
  match c with
  | AddToCartButton product => snd (addToCart product st)
  | SubmitButton now fetch => toasts (submitCart now fetch st)
  | _ => []
  end.

(** A visit: from [st], the visitor uses one after the other controls that
    are on the page at that moment, and ends in [st']. *)
Inductive visit : State -> list Control -> State -> Prop :=
| visit_done (st : State) : visit st [] st
| visit_step (st : State) (c : Control) (cs : list Control) (st' : State) :
    rendered st c -> visit (use st c) cs st' -> visit st (c :: cs) st'.

(** Every line is an entry of the catalogue. *)
Definition from_catalogue (lines : list CartItem) : Prop :=
  Forall (fun item : CartItem => In (product_of item) PLUMBING_PRODUCTS)
         lines.

(** The sum of the quantities of [lines]. *)
Fixpoint sum_of_quantities (lines : list CartItem) : Z :=
  match lines with
  | [] => 0%Z
  | item :: rest => (quantity item + sum_of_quantities rest)%Z
  end.

(** *** Where the doubles of the code are exact *)

(** The price is a whole, non-negative number of quarters. *)
Definition quarter_priced (x : Product) : Prop :=
  exists k : Z, (0 <= k)%Z /\ (price x == k # 4)%Q.

(** Every quantity of [lines] is below 2^53 in magnitude: [quantity + 1] and
    [quantity - 1] are then exact in binary64. *)
Definition exact_quantities (lines : list CartItem) : Prop :=
  Forall (fun item => (Z.abs (quantity item) < 2 ^ 53)%Z) lines.

(** The quantities stay in that range all along the operations [ops]
    applied from [st] on. *)
Fixpoint quantities_stay_exact (ops : list CartOp) (st : State) : Prop :=
  exact_quantities (cart st) /\
  match ops with
  | [] => True
  | op :: rest => quantities_stay_exact rest (apply_op st op)
  end.

(** *** Typing in the form *)

(** One [onChange] event of the form. *)
Inductive Keystroke :=
| TypeName (value : string)
| TypeEmail (value : string)
| TypePhone (value : string)
| TypeAddress (value : string).

Definition type (st : State) (k : Keystroke) : State :=
  match k with
  | TypeName value => onChangeName value st
  | TypeEmail value => onChangeEmail value st
  | TypePhone value => onChangePhone value st
  | TypeAddress value => onChangeAddress value st
  end.

Definition type_all (ks : list Keystroke) (st : State) : State :=
  fold_left type ks st.

End Landing.

(** ** The cart functions on binary64 *)

(** The updaters of [addToCart], [removeFromCart] and [updateQuantity] and
    the reduction of [getTotalPrice], with [number] as the binary64 double
    it is. *)
Module Doubles.

Record Product := mkProduct {
  id : string;
  name : string;
  price : float;
  image : string;
  category : string;
  description : string;
  inStock : bool
}.

Record CartItem := mkCartItem {
  product_of :> Product;
  quantity : float
}.

(** The fourth entry of [PLUMBING_PRODUCTS]. *)
Definition pipe_bundle : Product :=
  {| id := "4";
     name := "PVC Pipe Bundle - 4 inch";
     price := 185.75;
     image := "https://images.pexels.com/photos/1108572/pexels-photo-1108572.jpeg";
     category := "Pipes";
     description := "4-inch PVC pipes, 6-meter length bundle";
     inStock := true |}.

Definition with_quantity (item : CartItem) (q : float) : CartItem :=
  {| product_of := product_of item; quantity := q |}.

Definition addToCart (product : Product) (prevCart : list CartItem)
  : list CartItem :=
  let existingItem :=
    find (fun item : CartItem => String.eqb (id item) (id product))
         prevCart in
  match existingItem with
  | Some _ =>
      map (fun item : CartItem =>
             if String.eqb (id item) (id product)
             then with_quantity item (quantity item + 1)%float
             else item) prevCart
  | None =>
      (prevCart ++ [ {| product_of := product; quantity := 1 |} ])%list
  end.

Definition removeFromCart (productId : string) (prevCart : list CartItem)
  : list CartItem :=
  filter (fun item : CartItem => negb (String.eqb (id item) productId))
         prevCart.

Definition updateQuantity (productId : string) (quantity' : float)
  (prevCart : list CartItem) : list CartItem :=
  if (quantity' <=? 0)%float then removeFromCart productId prevCart
  else
    map (fun item : CartItem =>
           if String.eqb (id item) productId
           then with_quantity item quantity'
           else item) prevCart.

Definition getTotalPrice (cart : list CartItem) : float :=
  fold_left (fun (total : float) (item : CartItem) =>
               (total + price item * quantity item)%float)
            cart 0%float.

Inductive CartOp :=
| AddItem (product : Product)
| RemoveItem (productId : string)
| SetQuantity (productId : string) (quantity' : float).

Definition apply_op (cart : list CartItem) (op : CartOp) : list CartItem :=
  match op with
  | AddItem product => addToCart product cart
  | RemoveItem productId => removeFromCart productId cart
  | SetQuantity productId q => updateQuantity productId q cart
  end.

Definition run_ops (ops : list CartOp) (cart : list CartItem)
  : list CartItem :=
  fold_left apply_op ops cart.

(** The number a finite double stands for. *)
Definition exact (x : float) : option Q :=
  match Prim2SF x with
  | S754_zero _ => Some 0%Q
  | S754_finite negative m e =>
      let magnitude := (inject_Z (Z.pos m) * 2 ^ e)%Q in
      Some (if negative then (- magnitude)%Q else magnitude)
  | _ => None
  end.

(** The sum of price times quantity over the lines, in exact arithmetic. *)
Fixpoint exact_sum (lines : list CartItem) : option Q :=
  match lines with
  | [] => Some 0%Q
  | item :: rest =>
      match exact (price item), exact (quantity item), exact_sum rest with
      | Some p, Some q, Some rest' => Some (p * q + rest')%Q
      | _, _, _ => None
      end
  end.

(** [total()] is the sum of price times quantity over the lines. *)
Definition total_is_the_sum (lines : list CartItem) : Prop :=
  match exact (getTotalPrice lines), exact_sum lines with
  | Some total, Some sum => (total == sum)%Q
  | _, _ => False
  end.

(** The line [after] is the line [before] with exactly one unit more. *)
Definition one_more (before after : CartItem) : Prop :=
  product_of after = product_of before /\
  match exact (quantity after), exact (quantity before) with
  | Some a, Some b => (a == b + 1)%Q
  | _, _ => False
  end.

End Doubles.

(** ** The organization handlers *)

Module Organizations.

#[local] Set Warnings "-register-all".

(** A value parsed from a JSON request body.  Numbers are the integers among
    the JSON numbers. *)
Inductive Json :=
| JNull
| JBool (b : bool)
| JNumber (n : Z)
| JString (s : string)
| JArray (elements : list Json)
| JObject (properties : list (string * Json)).

(** A JavaScript expression that may be [undefined]. *)
Definition Value := option Json.

(** ToBoolean: [undefined], [null], [false], [0] and the empty string are
    falsy; every array and object is truthy. *)
Definition truthy (v : Value) : bool :=
  match v with
  | None => false
  | Some JNull => false
  | Some (JBool b) => b
  | Some (JNumber n) => negb (n =? 0)%Z
  | Some (JString s) => negb (String.eqb s "")
  | Some (JArray _) => true
  | Some (JObject _) => true
  end.

(** Number to string, for integers (decimal digits, which is what JavaScript
    prints for an integer of magnitude below 10^21; [Date.now()] is at most
    8.64 * 10^15 in magnitude and the counter is exact below 2^53). *)
Definition string_of_Z (n : Z) : string :=
  NilZero.string_of_int (Z.to_int n).

(** The object has a key [k] of its own. *)
Fixpoint has_key (k : string) (properties : list (string * Json)) : bool :=
  match properties with
  | [] => false
  | (k', _) :: rest => String.eqb k' k || has_key k rest
  end.

(** [String(v)] for a defined value; [None] where it throws a [TypeError].
    An array is the join by commas of its elements, [null] elements giving
    the empty string.  An object is ["[object Object]"], unless it has a
    [toString] key of its own: a parsed value is never a function, so that
    neither it nor [valueOf] gives a primitive, and the conversion throws;
    so does the conversion of an array that holds such an object. *)
Fixpoint String_ (v : Json) : option string :=
  match v with
  | JNull => Some "null"
  | JBool true => Some "true"
  | JBool false => Some "false"
  | JNumber n => Some (string_of_Z n)
  | JString s => Some s
  | JArray elements =>
      option_map (String.concat ",")
        ((fix each (l : list Json) : option (list string) :=
            match l with
            | [] => Some []
            | e :: rest =>
                match (match e with JNull => Some "" | _ => String_ e end),
                      each rest with
                | Some str, Some strs => Some (str :: strs)
                | _, _ => None
                end
            end) elements)
  | JObject properties =>
      if has_key "toString" properties then None
      else Some "[object Object]"
  end.

(** [String(v)]; [None] where it throws. *)
Definition String_value (v : Value) : option string :=
  match v with
  | Some j => String_ j
  | None => Some "undefined"
  end.

(** [o.k] for the keys read by the handlers ([name], [logoUrl],
    [settings]): defined only on an object that has the key.  A parsed
    object holds each key once. *)
Fixpoint lookup (k : string) (properties : list (string * Json)) : Value :=
  match properties with
  | [] => None
  | (k', v) :: rest => if String.eqb k' k then Some v else lookup k rest
  end.

Definition get (k : string) (o : Json) : Value :=
  match o with
  | JObject properties => lookup k properties
  | _ => None
  end.

(** [req.body || {}] *)
Definition body_or_empty (body : Value) : Json :=
  match body with
  | Some b => if truthy body then b else JObject []
  | None => JObject []
  end.

(** [Organization] of the shared types, with the fields the handlers and the
    interface description give it. *)
Record Organization := mkOrganization {
  id : string;
  name : string;
  createdAt : string;
  logoUrl : option string;
  settings : option Json
}.

(** The module-level variables [organizations] and [orgCounter]. *)
Record Store := mkStore {
  organizations : list Organization;
  orgCounter : Z
}.

(** The module as loaded. *)
Definition initialStore : Store := {| organizations := []; orgCounter := 1 |}.

(** What a handler sends: [res.status(s).json(...)] or [res.status(s).send()];
    [res.json(...)] alone sends status 200. *)
Inductive Payload :=
| OrganizationList (orgs : list Organization)
| OrganizationBody (org : Organization)
| ErrorBody (error : string)
| NoBody.

Record Response := mkResponse {
  status : Z;
  payload : Payload
}.

(** [req.user] as [handleGetOrganizations] reads it: [organizations] is
    [None] where [Array.isArray] fails. *)
Record User := mkUser {
  role : string;
  user_organizations : option (list string)
}.

(** [handleCreateOrganization].  [dateNow] is [Date.now()] and [isoNow] is
    [new Date().toISOString()].  The object literal of lines 281-287 is
    evaluated field by field: the template literal of [id], with
    [orgCounter++], comes first, so that a [String(...)] that throws leaves
    the counter moved; the [catch] block then answers 500 and nothing is
    pushed. *)
Definition handleCreateOrganization (dateNow : Z) (isoNow : string)
  (body : Value) (s : Store) : Store * Response :=
  let b := body_or_empty body in
  let name := get "name" b in
  let logoUrl := get "logoUrl" b in
  let settings := get "settings" b in
  if negb (truthy name) then
    (s, {| status := 400;
           payload := ErrorBody "Organization name is required" |})
  else
    let newOrg : option Organization :=
      match String_value name with
      | Some name' =>
          match (if truthy logoUrl
                 then option_map Some (String_value logoUrl)
                 else Some None) with
          | Some logoUrl' =>
              Some {| id := "org-" ++ string_of_Z dateNow ++ "-"
                            ++ string_of_Z (orgCounter s);
                      name := name';
                      createdAt := isoNow;
                      logoUrl := logoUrl';
                      settings := if truthy settings then settings
                                  else None |}
          | None => None
          end
      | None => None
      end in
    match newOrg with
    | Some newOrg =>
        ({| organizations := (organizations s ++ [newOrg])%list;
            orgCounter := (orgCounter s + 1)%Z |},
         {| status := 201; payload := OrganizationBody newOrg |})
    | None =>
        ({| organizations := organizations s;
            orgCounter := (orgCounter s + 1)%Z |},
         {| status := 500; payload := ErrorBody "Internal server error" |})
    end.

(** [uOrgs.includes(x)] *)
Definition includes (l : list string) (x : string) : bool :=
  existsb (fun y => String.eqb y x) l.

(** [handleGetOrganizations]; [user] is [req.user]. *)
Definition handleGetOrganizations (user : option User) (s : Store)
  : Store * Response :=
  let currentUser := user in
  if match currentUser with
     | Some u => String.eqb (role u) "super_admin"
     | None => false
     end
  then (s, {| status := 200; payload := OrganizationList (organizations s) |})
  else
    let uOrgs : list string :=
      match currentUser with
      | Some u => match user_organizations u with
                  | Some l => l
                  | None => []
                  end
      | None => []
      end in
    let scoped :=
      filter (fun org => includes uOrgs (id org)) (organizations s) in
    (s, {| status := 200; payload := OrganizationList scoped |}).

(** [organizations.findIndex(o => o.id === id)]; [None] is -1. *)
Fixpoint findIndex (id' : string) (orgs : list Organization) : option nat :=
  match orgs with
  | [] => None
  | o :: rest =>
      if String.eqb (id o) id' then Some 0%nat
      else option_map S (findIndex id' rest)
  end.

(** [organizations[idx] = updated], for [idx] within the array. *)
Fixpoint assign (idx : nat) (updated : Organization)
  (orgs : list Organization) : list Organization :=
  match orgs, idx with
  | [], _ => []
  | _ :: rest, O => updated :: rest
  | o :: rest, S i => o :: assign i updated rest
  end.

(** [organizations.splice(idx, 1)] *)
Fixpoint splice1 (idx : nat) (orgs : list Organization)
  : list Organization :=
  match orgs, idx with
  | [], _ => []
  | _ :: rest, O => rest
  | o :: rest, S i => o :: splice1 i rest
  end.

(** The object spread of lines 316-321; [None] where a [String(...)] in it
    throws. *)
Definition merge_updates (org : Organization) (updates : Json)
  : option Organization :=
  let uname := get "name" updates in
  let ulogo := get "logoUrl" updates in
  let usettings := get "settings" updates in
  match (if truthy uname then String_value uname else Some (name org)) with
  | Some name' =>
      match (if truthy ulogo then option_map Some (String_value ulogo)
             else Some (logoUrl org)) with
      | Some logoUrl' =>
          Some {| id := id org;
                  name := name';
                  createdAt := createdAt org;
                  logoUrl := logoUrl';
                  settings := if truthy usettings then usettings
                              else settings org |}
      | None => None
      end
  | None => None
  end.

(** [handleUpdateOrganization]; [id'] is [req.params.id].  Where the spread
    throws, the [catch] block answers 500 and the array is not assigned. *)
Definition handleUpdateOrganization (id' : string) (body : Value) (s : Store)
  : Store * Response :=
  let updates := body_or_empty body in
  match findIndex id' (organizations s) with
  | None => (s, {| status := 404;
                   payload := ErrorBody "Organization not found" |})
  | Some idx =>
      match merge_updates (nth idx (organizations s)
                               (mkOrganization "" "" "" None None))
                          updates with
      | Some updated =>
          ({| organizations := assign idx updated (organizations s);
              orgCounter := orgCounter s |},
           {| status := 200; payload := OrganizationBody updated |})
      | None =>
          (s, {| status := 500;
                 payload := ErrorBody "Internal server error" |})
      end
  end.

(** [handleDeleteOrganization] *)
Definition handleDeleteOrganization (id' : string) (s : Store)
  : Store * Response :=
  match findIndex id' (organizations s) with
  | None => (s, {| status := 404;
                   payload := ErrorBody "Organization not found" |})
  | Some idx =>
      ({| organizations := splice1 idx (organizations s);
          orgCounter := orgCounter s |},
       {| status := 204; payload := NoBody |})
  end.

(** The invariant under study: every record has a non-empty name. *)
Definition names_nonempty (s : Store) : Prop :=
  Forall (fun o => name o <> "") (organizations s).

(** The [name] of a request body is a string, or the body has none. *)
Definition name_is_string (body : Value) : Prop :=
  match get "name" (body_or_empty body) with
  | None | Some (JString _) => True
  | Some _ => False
  end.

(** The organizations a caller may see: [req.user.organizations] when it is
    an array, no organization otherwise. *)
Definition permitted (user : option User) : list string :=
  match user with
  | Some u => match user_organizations u with
              | Some l => l
              | None => []
              end
  | None => []
  end.

(** The caller has the elevated role. *)
Definition is_super_admin (user : option User) : Prop :=
  exists u, user = Some u /\ role u = "super_admin".

(** A store of two organizations and a caller allowed to see the second. *)
Definition acme : Organization :=
  mkOrganization "org-1730000000000-1" "Acme" "2024-10-27T03:33:20.000Z"
                 None None.

Definition bolt : Organization :=
  mkOrganization "org-1730000000500-2" "Bolt" "2024-10-27T03:33:20.500Z"
                 (Some "https://example.org/bolt.png") None.

Definition two_orgs : Store :=
  {| organizations := [acme; bolt]; orgCounter := 3 |}.

Definition staff_of_bolt : User :=
  {| role := "staff"; user_organizations := Some ["org-1730000000500-2"] |}.

(** *** Requests in sequence *)

(** The identifier built at line 282: [`org-${Date.now()}-${orgCounter++}`]. *)
Definition org_id (dateNow counter : Z) : string :=
  "org-" ++ string_of_Z dateNow ++ "-" ++ string_of_Z counter.

(** One request to the organization routes, with what the handler reads of
    it and of the clock. *)
Inductive Request :=
| CreateOrganization (dateNow : Z) (isoNow : string) (body : Value)
| GetOrganizations (user : option User)
| UpdateOrganization (id' : string) (body : Value)
| DeleteOrganization (id' : string).

Definition handle (s : Store) (r : Request) : Store * Response :=
  match r with
  | CreateOrganization dateNow isoNow body =>
      handleCreateOrganization dateNow isoNow body s
  | GetOrganizations user => handleGetOrganizations user s
  | UpdateOrganization id' body => handleUpdateOrganization id' body s
  | DeleteOrganization id' => handleDeleteOrganization id' s
  end.

(** The store after serving [requests] one after the other. *)
Definition serve (requests : list Request) (s : Store) : Store :=
  fold_left (fun s r => fst (handle s r)) requests s.

(** The identifiers of the registry, in order. *)
Definition org_ids (s : Store) : list string :=
  map id (organizations s).

(** [s] holds a hyphen. *)
Fixpoint has_dash (s : string) : bool :=
  match s with
  | EmptyString => false
  | String c rest => Ascii.eqb c "-" || has_dash rest
  end.

(** The text after the last hyphen of [s]; [s] itself when it has none. *)
Fixpoint last_segment (s : string) : string :=
  match s with
  | EmptyString => EmptyString
  | String c rest =>
      if has_dash rest then last_segment rest
      else if Ascii.eqb c "-" then rest
      else s
  end.

(** Every identifier of [s] was built by [org_id] from a counter value
    already used, and the counter started at 1. *)
Definition ids_from_counter (s : Store) : Prop :=
  (1 <= orgCounter s)%Z /\
  Forall (fun o => exists dateNow c,
                     id o = org_id dateNow c /\ (1 <= c < orgCounter s)%Z)
         (organizations s).

(** [v] is truthy and [String(v)] throws. *)
Definition throws (v : Value) : bool :=
  truthy v && match String_value v with Some _ => false | None => true end.

(** A caller with the elevated role. *)
Definition admin : User :=
  {| role := "super_admin"; user_organizations := None |}.

End Organizations.

(** ** The page with the model picker *)

(** The [Landing] component with the 3D model picker.  The outcome of an
    IndexedDB request and the address returned by [URL.createObjectURL] are
    inputs.  In [mount] and [handleFile] a request to IndexedDB settles
    before anything else happens; [start], [happen] and [live], further
    down, keep it under way until it settles, whatever happens in
    between. *)
Module Showcase.

(** The content of a file or of a stored blob. *)
Definition Blob := string.

(** [localStorage] *)
Definition Storage := string -> option string.

Definition setItem (k v : string) (ls : Storage) : Storage :=
  fun k' => if String.eqb k' k then Some v else ls k'.

(** [v || d] for a string or [null]. *)
Definition or_else (v : option string) (d : string) : string :=
  match v with
  | Some s => if String.eqb s "" then d else s
  | None => d
  end.

(** The object store ["models"] of the database, by key. *)
Definition Models := string -> option Blob.

(** The state cells of the component, the ref [objectUrlRef], and what the
    browser holds for the page: [localStorage], the object store and the
    object addresses created and not yet revoked, each with its blob. *)
Record World := mkWorld {
  model : string;
  color : string;
  customUrl : string;
  customUrlInput : string;
  objectUrlRef : option string;
  localStorage : Storage;
  models : Models;
  objectUrls : list (string * Blob)
}.

(** [setModel(m)], with the effect of line 65, which runs after the render
    when [model] has changed. *)
Definition setModel (m : string) (w : World) : World :=
  {| model := m;
     color := color w;
     customUrl := customUrl w;
     customUrlInput := customUrlInput w;
     objectUrlRef := objectUrlRef w;
     localStorage := if String.eqb (model w) m then localStorage w
                     else setItem "landing.model" m (localStorage w);
     models := models w;
     objectUrls := objectUrls w |}.

(** [setColor(c)], with the effect of line 66. *)
Definition setColor (c : string) (w : World) : World :=
  {| model := model w;
     color := c;
     customUrl := customUrl w;
     customUrlInput := customUrlInput w;
     objectUrlRef := objectUrlRef w;
     localStorage := if String.eqb (color w) c then localStorage w
                     else setItem "landing.color" c (localStorage w);
     models := models w;
     objectUrls := objectUrls w |}.

Definition setCustomUrl (url : string) (w : World) : World :=
  {| model := model w; color := color w; customUrl := url;
     customUrlInput := customUrlInput w; objectUrlRef := objectUrlRef w;
     localStorage := localStorage w; models := models w;
     objectUrls := objectUrls w |}.

Definition setCustomUrlInput (v : string) (w : World) : World :=
  {| model := model w; color := color w; customUrl := customUrl w;
     customUrlInput := v; objectUrlRef := objectUrlRef w;
     localStorage := localStorage w; models := models w;
     objectUrls := objectUrls w |}.

(** [localStorage.setItem(k, v)] *)
Definition storeItem (k v : string) (w : World) : World :=
  {| model := model w; color := color w; customUrl := customUrl w;
     customUrlInput := customUrlInput w; objectUrlRef := objectUrlRef w;
     localStorage := setItem k v (localStorage w); models := models w;
     objectUrls := objectUrls w |}.

(** [if (objectUrlRef.current) URL.revokeObjectURL(objectUrlRef.current)] *)
Definition revokeCurrent (w : World) : World :=
  match objectUrlRef w with
  | Some old =>
      {| model := model w; color := color w; customUrl := customUrl w;
         customUrlInput := customUrlInput w; objectUrlRef := objectUrlRef w;
         localStorage := localStorage w; models := models w;
         objectUrls :=
           filter (fun entry => negb (String.eqb (fst entry) old))
                  (objectUrls w) |}
  | None => w
  end.

(** [const url = URL.createObjectURL(blob)], [url] being the address the
    browser hands out. *)
Definition createObjectURL (url : string) (blob : Blob) (w : World) : World :=
  {| model := model w; color := color w; customUrl := customUrl w;
     customUrlInput := customUrlInput w; objectUrlRef := objectUrlRef w;
     localStorage := localStorage w; models := models w;
     objectUrls := (url, blob) :: objectUrls w |}.

(** [objectUrlRef.current = url] *)
Definition setObjectUrlRef (url : string) (w : World) : World :=
  {| model := model w; color := color w; customUrl := customUrl w;
     customUrlInput := customUrlInput w; objectUrlRef := Some url;
     localStorage := localStorage w; models := models w;
     objectUrls := objectUrls w |}.

(** [store.put({ id, blob })] *)
Definition putBlob (key : string) (blob : Blob) (w : World) : World :=
  {| model := model w; color := color w; customUrl := customUrl w;
     customUrlInput := customUrlInput w; objectUrlRef := objectUrlRef w;
     localStorage := localStorage w;
     models := fun k => if String.eqb k key then Some blob else models w k;
     objectUrls := objectUrls w |}.

(** The first render and the three effects, on a browser holding [ls] and
    [idb] (lines 59-66 and 103-121).  [readOk] tells whether the request of
    [idbGetBlob] succeeds and [fresh] is the address [createObjectURL]
    returns if it is called. *)
Definition mount (readOk : bool) (fresh : string) (ls : Storage)
  (idb : Models) : World :=
  let model0 := or_else (ls "landing.model") "torus" in
  let color0 := or_else (ls "landing.color") "#3b82f6" in
  let w :=
    {| model := model0; color := color0; customUrl := "";
       customUrlInput := ""; objectUrlRef := None;
       localStorage :=
         setItem "landing.color" color0 (setItem "landing.model" model0 ls);
       models := idb; objectUrls := [] |} in
  match localStorage w "landing.custom.type" with
  | Some type =>
      if String.eqb type "url" then
        let url := or_else (localStorage w "landing.custom.url") "" in
        if negb (String.eqb url "")
        then setModel "custom" (setCustomUrl url w)
        else w
      else if String.eqb type "blob" then
        let key :=
          or_else (localStorage w "landing.custom.blobId") "customModel" in
        match (if readOk then models w key else None) with
        | Some blob =>
            setModel "custom"
              (setCustomUrl fresh
                 (setObjectUrlRef fresh
                    (revokeCurrent (createObjectURL fresh blob w))))
        | None => w
        end
      else w
  | None => w
  end.

(** [handleFile(file)] (lines 125-137).  [putOk] tells whether
    [idbPutBlob] succeeds; where it fails the two [setItem] calls of the
    [try] block are skipped. *)
Definition handleFile (file : option Blob) (putOk : bool) (fresh : string)
  (w : World) : World :=
  match file with
  | None => w
  | Some blob =>
      let w1 :=
        if putOk then
          storeItem "landing.custom.blobId" "customModel"
            (storeItem "landing.custom.type" "blob"
               (putBlob "customModel" blob w))
        else w in
      setModel "custom"
        (setCustomUrl fresh
           (setObjectUrlRef fresh
              (createObjectURL fresh blob (revokeCurrent w1))))
  end.

(** The handler of the "Load" button (lines 219-226). *)
Definition loadUrl (w : World) : World :=
  if negb (String.eqb (customUrlInput w) "") then
    setModel "custom"
      (storeItem "landing.custom.url" (customUrlInput w)
         (storeItem "landing.custom.type" "url"
            (setCustomUrl (customUrlInput w) w)))
  else w.

(** The models and colours of the two rows of buttons (lines 173, 191). *)
Definition primitives : list string :=
  ["torus"; "box"; "sphere"; "cone"; "dodeca"].

Definition palette : list string :=
  ["#3b82f6"; "#16a34a"; "#e11d48"; "#0ea5e9"; "#9333ea"].

(** What a visitor can do on the page. *)
Inductive Action :=
| SelectModel (m : string)       (* line 176, [m] among [primitives] *)
| SelectCustom                   (* line 183 *)
| SelectColor (c : string)       (* line 194, [c] among [palette] *)
| Upload (file : option Blob) (putOk : bool) (fresh : string)
                                 (* line 207 *)
| TypeUrl (v : string)           (* line 215 *)
| LoadUrl.                       (* line 219 *)

Definition offered (a : Action) : Prop :=
  match a with
  | SelectModel m => In m primitives
  | SelectColor c => In c palette
  | _ => True
  end.

Definition act (w : World) (a : Action) : World :=
  match a with
  | SelectModel m => setModel m w
  | SelectCustom => setModel "custom" w
  | SelectColor c => setColor c w
  | Upload file putOk fresh => handleFile file putOk fresh w
  | TypeUrl v => setCustomUrlInput v w
  | LoadUrl => loadUrl w
  end.

(** The world after the actions, one after the other. *)
Definition run (actions : list Action) (w : World) : World :=
  fold_left act actions w.

(** Reloading the page: the component is mounted again on what the browser
    kept, the storage and the database. *)
Definition reload (readOk : bool) (fresh : string) (w : World) : World :=
  mount readOk fresh (localStorage w) (models w).

(** The cleanup of the mount effect (line 120): the addresses still live
    once the component is gone. *)
Definition unmount (w : World) : list (string * Blob) :=
  objectUrls (revokeCurrent w).

(** What the canvas draws (lines 153-157 and 26-30): the loaded model, or
    the geometry of the primitive, if [model] names one, in [color]. *)
Inductive Drawn :=
| Gltf (url : string)
| Primitive (geometry : option string) (color : string).

Definition drawn (w : World) : Drawn :=
  if String.eqb (model w) "custom" && negb (String.eqb (customUrl w) "")
  then Gltf (customUrl w)
  else Primitive
         (if String.eqb (model w) "torus" then Some "torusKnotGeometry"
          else if String.eqb (model w) "box" then Some "boxGeometry"
          else if String.eqb (model w) "sphere" then Some "sphereGeometry"
          else if String.eqb (model w) "cone" then Some "coneGeometry"
          else if String.eqb (model w) "dodeca"
               then Some "dodecahedronGeometry"
          else None)
         (color w).

(** The storage records no custom model. *)
Definition no_custom_recorded (ls : Storage) : Prop :=
  ls "landing.custom.type" <> Some "url" /\
  ls "landing.custom.type" <> Some "blob".

(** The action records no custom model: it is neither a click on "Load" nor
    an upload. *)
Definition selection_only (a : Action) : Prop :=
  match a with
  | Upload _ _ _ | LoadUrl => False
  | _ => True
  end.

(** The selection is written down: the two keys hold the model and the
    colour of the page, and neither is empty. *)
Definition synced (w : World) : Prop :=
  localStorage w "landing.model" = Some (model w) /\
  localStorage w "landing.color" = Some (color w) /\
  model w <> "" /\ color w <> "".

(** A browser that has never shown the page. *)
Definition empty_storage : Storage := fun _ => None.
Definition empty_models : Models := fun _ => None.

(** *** A visit with reloads *)

(** The visitor does something on the page, or reloads it. *)
Inductive Event :=
| Acts (a : Action)
| Reloads (readOk : bool) (fresh : string).

Definition occur (w : World) (e : Event) : World :=
  match e with
  | Acts a => act w a
  | Reloads readOk fresh => reload readOk fresh w
  end.

Definition history (events : list Event) (w : World) : World :=
  fold_left occur events w.

(** The event records no custom model: a reload, or an action that is
    neither a click on "Load" nor an upload. *)
Definition quiet (e : Event) : Prop :=
  match e with
  | Acts a => selection_only a
  | Reloads _ _ => True
  end.

(** The storage has the address [url] on record. *)
Definition url_recorded (url : string) (w : World) : Prop :=
  localStorage w "landing.custom.type" = Some "url" /\
  localStorage w "landing.custom.url" = Some url.

(** *** The page with its requests to IndexedDB under way *)

(** [mount] and [handleFile] above run a request to IndexedDB and what
    follows it in one step.  Here the request stays under way until it
    settles, and anything can happen in between: other clicks, other
    requests settling, the component being unmounted. *)
Inductive Task :=
| Reading                  (* line 110: [idbGetBlob(id)], [.then] not run yet *)
| Putting (blob : Blob).   (* line 128: [handleFile] at [await idbPutBlob] *)

Record Page := mkPage {
  world : World;
  mounted : bool;
  tasks : list Task
}.

(** The first render and the synchronous part of the three effects (lines
    59-66 and 103-119). *)
Definition start (ls : Storage) (idb : Models) : Page :=
  let model0 := or_else (ls "landing.model") "torus" in
  let color0 := or_else (ls "landing.color") "#3b82f6" in
  let w :=
    {| model := model0; color := color0; customUrl := "";
       customUrlInput := ""; objectUrlRef := None;
       localStorage :=
         setItem "landing.color" color0 (setItem "landing.model" model0 ls);
       models := idb; objectUrls := [] |} in
  match localStorage w "landing.custom.type" with
  | Some type =>
      if String.eqb type "url" then
        let url := or_else (localStorage w "landing.custom.url") "" in
        {| world := if negb (String.eqb url "")
                    then setModel "custom" (setCustomUrl url w)
                    else w;
           mounted := true; tasks := [] |}
      else if String.eqb type "blob" then
        {| world := w; mounted := true; tasks := [Reading] |}
      else {| world := w; mounted := true; tasks := [] |}
  | None => {| world := w; mounted := true; tasks := [] |}
  end.

(** The function given to [.then] (lines 111-117), on the [result] of the
    read: the blob, or nothing where the read gave [null] or failed.  The
    two state setters do nothing once the component is unmounted. *)
Definition readThen (result : option Blob) (fresh : string)
  (isMounted : bool) (w : World) : World :=
  match result with
  | Some blob =>
      let w1 :=
        setObjectUrlRef fresh
          (revokeCurrent (createObjectURL fresh blob w)) in
      if isMounted then setModel "custom" (setCustomUrl fresh w1) else w1
  | None => w
  end.

(** [handleFile] from the settling of [idbPutBlob] on (lines 128-136). *)
Definition putThen (blob : Blob) (putOk : bool) (fresh : string)
  (isMounted : bool) (w : World) : World :=
  let w1 :=
    if putOk then
      storeItem "landing.custom.blobId" "customModel"
        (storeItem "landing.custom.type" "blob"
           (putBlob "customModel" blob w))
    else w in
  let w2 :=
    setObjectUrlRef fresh (createObjectURL fresh blob (revokeCurrent w1)) in
  if isMounted then setModel "custom" (setCustomUrl fresh w2) else w2.

Definition remove_nth (n : nat) (ts : list Task) : list Task :=
  (firstn n ts ++ skipn (S n) ts)%list.

(** What can happen next: the visitor uses a control (an upload used this
    way settles at once), picks a file, the [n]-th request under way
    settles, or the component is unmounted (line 120). *)
Inductive Moment :=
| Uses (a : Action)
| PicksFile (file : option Blob)
| ReadSettles (n : nat) (result : option Blob) (fresh : string)
| PutSettles (n : nat) (putOk : bool) (fresh : string)
| Leaves.

Definition happen (p : Page) (m : Moment) : Page :=
  match m with
  | Uses a =>
      if mounted p
      then {| world := act (world p) a; mounted := true; tasks := tasks p |}
      else p
  | PicksFile file =>
      match file with
      | Some blob =>
          if mounted p
          then {| world := world p; mounted := true;
                  tasks := (tasks p ++ [Putting blob])%list |}
          else p
      | None => p
      end
  | ReadSettles n result fresh =>
      match nth_error (tasks p) n with
      | Some Reading =>
          {| world := readThen result fresh (mounted p) (world p);
             mounted := mounted p;
             tasks := remove_nth n (tasks p) |}
      | _ => p
      end
  | PutSettles n putOk fresh =>
      match nth_error (tasks p) n with
      | Some (Putting blob) =>
          {| world := putThen blob putOk fresh (mounted p) (world p);
             mounted := mounted p;
             tasks := remove_nth n (tasks p) |}
      | _ => p
      end
  | Leaves =>
      if mounted p
      then {| world := revokeCurrent (world p); mounted := false;
              tasks := tasks p |}
      else p
  end.

Definition live (moments : list Moment) (p : Page) : Page :=
  fold_left happen moments p.

(** No object address is live but the one the ref holds. *)
Definition held (w : World) : Prop :=
  objectUrls w = [] \/
  (exists url blob,
      objectUrlRef w = Some url /\ objectUrls w = [(url, blob)]).

End Showcase.

(** * Properties of the cart *)

Section CartFacts.
Import Landing.

Local Open Scope Z_scope.

(** ** Identifiers under the three updaters *)

Lemma ids_map_quantity (productId : string) (f : CartItem -> Z)
  (lines : list CartItem) :
  ids (map (fun item : CartItem =>
              if String.eqb (id item) productId
              then with_quantity item (f item) else item) lines)
  = ids lines.
Proof.
  unfold ids. rewrite map_map. apply map_ext. intros item.
  destruct (String.eqb (id item) productId); reflexivity.
Qed.

Lemma find_none_absent (productId : string) (lines : list CartItem) :
  find (fun item : CartItem => String.eqb (id item) productId) lines = None
  <-> absent productId lines.
Proof.
  unfold absent. split.
  - intros Hfind item Hin Heq.
    apply (find_none _ _ Hfind) in Hin. simpl in Hin.
    rewrite Heq, String.eqb_refl in Hin. discriminate.
  - intros Habs. induction lines as [|item rest IH]; simpl; [reflexivity|].
    destruct (String.eqb_spec (id item) productId) as [Heq|Hne].
    + exfalso. apply (Habs item); [now left | exact Heq].
    + apply IH. intros i Hi. apply Habs. now right.
Qed.

Lemma absent_not_in_ids (productId : string) (lines : list CartItem) :
  absent productId lines <-> ~ In productId (ids lines).
Proof.
  unfold absent, ids. rewrite in_map_iff. split.
  - intros Habs (item & Heq & Hin). exact (Habs item Hin Heq).
  - intros Hnot item Hin Heq. apply Hnot. now exists item.
Qed.

Lemma ids_filter_incl (keep : CartItem -> bool) (lines : list CartItem) :
  incl (ids (filter keep lines)) (ids lines).
Proof.
  unfold ids. intros x Hx. apply in_map_iff in Hx as (item & Heq & Hin).
  apply filter_In in Hin as [Hin _]. apply in_map_iff. now exists item.
Qed.

Lemma NoDup_snoc (x : string) (l : list string) :
  NoDup l -> ~ In x l -> NoDup (l ++ [x]).
Proof.
  induction l as [|y l IH]; simpl; intros Hnd Hnot.
  - constructor; [intros []|constructor].
  - inversion Hnd as [|? ? Hy Hl]; subst. constructor.
    + rewrite in_app_iff. simpl. intros [Hin|[Heq|[]]]; [tauto|].
      apply Hnot. now left.
    + apply IH; [exact Hl|]. intros Hin. apply Hnot. now right.
Qed.

Lemma NoDup_ids_filter (keep : CartItem -> bool) (lines : list CartItem) :
  NoDup (ids lines) -> NoDup (ids (filter keep lines)).
Proof.
  induction lines as [|item rest IH]; simpl; intros Hnd; [constructor|].
  inversion Hnd as [|? ? Hnotin Hrest]; subst.
  destruct (keep item); simpl; [constructor|]; auto.
  intros Hin. apply Hnotin. exact (ids_filter_incl keep rest _ Hin).
Qed.

(** ** The updaters on a cart with exactly one line for the identifier *)

Lemma map_quantity_absent (productId : string) (f : CartItem -> Z)
  (lines : list CartItem) :
  absent productId lines ->
  map (fun item : CartItem =>
         if String.eqb (id item) productId
         then with_quantity item (f item) else item) lines = lines.
Proof.
  intros Habs. induction lines as [|item rest IH]; simpl; [reflexivity|].
  destruct (String.eqb_spec (id item) productId) as [Heq|Hne].
  - exfalso. apply (Habs item); [now left | exact Heq].
  - f_equal. apply IH. intros i Hi. apply Habs. now right.
Qed.

Lemma map_quantity_single (productId : string) (f : CartItem -> Z)
  (before after : list CartItem) (line : CartItem) :
  id line = productId -> absent productId before -> absent productId after ->
  map (fun item : CartItem =>
         if String.eqb (id item) productId
         then with_quantity item (f item) else item)
      (before ++ line :: after)
  = (before ++ with_quantity line (f line) :: after)%list.
Proof.
  intros Hid Hb Ha. rewrite map_app. simpl.
  rewrite (map_quantity_absent _ _ _ Hb), (map_quantity_absent _ _ _ Ha).
  rewrite Hid, String.eqb_refl. reflexivity.
Qed.

Lemma filter_absent (productId : string) (lines : list CartItem) :
  absent productId lines ->
  filter (fun item : CartItem => negb (String.eqb (id item) productId)) lines
  = lines.
Proof.
  intros Habs. induction lines as [|item rest IH]; simpl; [reflexivity|].
  destruct (String.eqb_spec (id item) productId) as [Heq|Hne]; simpl.
  - exfalso. apply (Habs item); [now left | exact Heq].
  - f_equal. apply IH. intros i Hi. apply Habs. now right.
Qed.

Lemma setCart_same (f : list CartItem -> list CartItem) (st : State) :
  f (cart st) = cart st -> setCart f st = st.
Proof.
  intros H. destruct st as [c o i]. unfold setCart. simpl in *.
  now rewrite H.
Qed.

(** ** The invariant is kept by every operation *)

Lemma addToCart_ok (product : Product) (st : State) :
  cart_ok (cart st) -> cart_ok (cart (fst (addToCart product st))).
Proof.
  intros [Hq Hnd]. simpl.
  destruct (find _ (cart st)) as [found|] eqn:Hfind.
  - split.
    + apply Forall_map. revert Hq. apply Forall_impl. intros item Hitem.
      destruct (String.eqb (id item) (id product)); simpl; lia.
    + rewrite (ids_map_quantity (id product) (fun item => quantity item + 1)).
      exact Hnd.
  - split.
    + apply Forall_app. split; [exact Hq|]. repeat constructor. simpl. lia.
    + apply find_none_absent, absent_not_in_ids in Hfind.
      unfold ids in *. rewrite map_app. simpl.
      apply NoDup_snoc; assumption.
Qed.

Lemma removeFromCart_ok (productId : string) (st : State) :
  cart_ok (cart st) -> cart_ok (cart (removeFromCart productId st)).
Proof.
  intros [Hq Hnd]. simpl. split.
  - apply Forall_forall. intros item Hin. apply filter_In in Hin as [Hin _].
    exact (proj1 (Forall_forall _ _) Hq item Hin).
  - now apply NoDup_ids_filter.
Qed.

Lemma updateQuantity_ok (productId : string) (q : Z) (st : State) :
  cart_ok (cart st) -> cart_ok (cart (updateQuantity productId q st)).
Proof.
  intros Hok. unfold updateQuantity.
  destruct (Z.leb_spec q 0) as [Hle|Hgt].
  - now apply removeFromCart_ok.
  - destruct Hok as [Hq Hnd]. simpl. split.
    + apply Forall_map. revert Hq. apply Forall_impl. intros item Hitem.
      destruct (String.eqb (id item) productId); simpl; lia.
    + rewrite (ids_map_quantity productId (fun _ => q)). exact Hnd.
Qed.

Lemma apply_op_ok (op : CartOp) (st : State) :
  cart_ok (cart st) -> cart_ok (cart (apply_op st op)).
Proof.
  destruct op; simpl.
  - apply addToCart_ok.
  - apply removeFromCart_ok.
  - apply updateQuantity_ok.
Qed.

Lemma run_ops_ok (ops : list CartOp) :
  forall st, cart_ok (cart st) -> cart_ok (cart (run_ops ops st)).
Proof.
  unfold run_ops. induction ops as [|op ops IH]; intros st Hok; simpl.
  - exact Hok.
  - apply IH, apply_op_ok, Hok.
Qed.

(** ** The total *)

Lemma fold_total_from (lines : list CartItem) :
  forall start : Q,
    (fold_left (fun (total : Q) (item : CartItem) =>
                  total + price item * inject_Z (quantity item))
               lines start
     == start + sum_of_line_totals lines)%Q.
Proof.
  induction lines as [|item rest IH]; intros start; simpl.
  - ring.
  - rewrite IH. unfold line_total. ring.
Qed.

Lemma getTotalPrice_is_sum (st : State) :
  (getTotalPrice st == sum_of_line_totals (cart st))%Q.
Proof.
  unfold getTotalPrice. rewrite fold_total_from. ring.
Qed.

Lemma quarters_sum (lines : list CartItem) :
  Forall (fun item => 1 <= quantity item) lines ->
  Forall (fun item : CartItem => quarter_priced item) lines ->
  exists n : Z, 0 <= n /\ (sum_of_line_totals lines == n # 4)%Q.
Proof.
  induction 1 as [|item rest Hitem _ IH]; intros Hcat.
  - exists 0. split; [lia|reflexivity].
  - inversion Hcat as [|? ? (k & Hk & Hprice) Hrest]; subst.
    destruct (IH Hrest) as (n & Hn & Hsum).
    exists (k * quantity item + n). split; [nia|].
    simpl. unfold line_total. rewrite Hsum, Hprice.
    unfold Qeq, Qplus, Qmult, inject_Z. simpl. lia.
Qed.

(** Within the range, the doubles give what the exact numbers give: three
    pipe bundles cost 557.25, and one more makes four. *)
Lemma doubles_of_three_bundles :
  Doubles.total_is_the_sum
    (Doubles.run_ops [Doubles.AddItem Doubles.pipe_bundle;
                      Doubles.SetQuantity "4" 3%float] []) /\
  option_map Qred
    (Doubles.exact
       (Doubles.getTotalPrice
          (Doubles.run_ops [Doubles.AddItem Doubles.pipe_bundle;
                            Doubles.SetQuantity "4" 3%float] [])))
  = Some (2229 # 4)%Q /\
  Doubles.one_more
    (Doubles.mkCartItem Doubles.pipe_bundle 3%float)
    (Doubles.mkCartItem Doubles.pipe_bundle 4%float) /\
  Doubles.addToCart Doubles.pipe_bundle
    [Doubles.mkCartItem Doubles.pipe_bundle 3%float]
  = [Doubles.mkCartItem Doubles.pipe_bundle 4%float].
Proof. repeat split; vm_compute; reflexivity. Qed.

(** Outside of it they do not: 2^53 - 1 pipe bundles. *)
Lemma doubles_of_2_53_bundles :
  option_map Qred
    (Doubles.exact
       (Doubles.getTotalPrice
          (Doubles.run_ops
             [Doubles.AddItem Doubles.pipe_bundle;
              Doubles.SetQuantity "4" 9007199254740991%float] [])))
  = Some (1673087261568139008 # 1)%Q /\
  option_map Qred
    (Doubles.exact_sum
       (Doubles.run_ops
          [Doubles.AddItem Doubles.pipe_bundle;
           Doubles.SetQuantity "4" 9007199254740991%float] []))
  = Some (6692349046272556313 # 4)%Q /\
  Doubles.addToCart Doubles.pipe_bundle
    [Doubles.mkCartItem Doubles.pipe_bundle 9007199254740992%float]
  = [Doubles.mkCartItem Doubles.pipe_bundle 9007199254740992%float].
Proof. repeat split; vm_compute; reflexivity. Qed.

(** C1 as stated does not hold on the doubles of the code: after adding a
    pipe bundle (185.75) and setting its quantity to 2^53 - 1, [total()] is
    1673087261568139008, and price times quantity is
    6692349046272556313 / 4. *)
Lemma total_is_not_always_the_sum :
  ~ (forall ops : list Doubles.CartOp,
        Doubles.total_is_the_sum (Doubles.run_ops ops [])).
Proof.
  intros Hclaim.
  specialize (Hclaim [Doubles.AddItem Doubles.pipe_bundle;
                      Doubles.SetQuantity "4" 9007199254740991%float]).
  vm_compute in Hclaim. discriminate Hclaim.
Qed.

(** C1, amended.  After any finite sequence of [addToCart],
    [removeFromCart] and [updateQuantity] calls from the empty cart, no line
    has a quantity of 0 or less and no identifier occurs on two lines.
    Where nothing is rounded on the way (the quantities stay below 2^53,
    every price is a whole number of quarters and the sum is below 2^51)
    [getTotalPrice] is the sum of price times quantity over the lines of
    the cart, a whole number of quarters below 2^53. *)
Theorem cart_invariant_after_operations (ops : list CartOp) :
  Forall (fun item => ~ (quantity item <= 0))
         (cart (run_ops ops initialState)) /\
  NoDup (ids (cart (run_ops ops initialState))) /\
  (quantities_stay_exact ops initialState ->
   Forall (fun item : CartItem => quarter_priced item)
          (cart (run_ops ops initialState)) ->
   (sum_of_line_totals (cart (run_ops ops initialState))
    < inject_Z (2 ^ 51))%Q ->
   (getTotalPrice (run_ops ops initialState)
    == sum_of_line_totals (cart (run_ops ops initialState)))%Q /\
   exists n : Z,
     0 <= n < 2 ^ 53 /\
     (getTotalPrice (run_ops ops initialState) == n # 4)%Q).
Proof.
  assert (Hinit : cart_ok (cart initialState)).
  { split; simpl; constructor. }
  destruct (run_ops_ok ops initialState Hinit) as [Hq Hnd].
  split; [|split].
  - revert Hq. apply Forall_impl. intros item Hitem. lia.
  - exact Hnd.
  - intros _ Hprices Hbound.
    split; [apply getTotalPrice_is_sum|].
    destruct (quarters_sum _ Hq Hprices) as (n & Hn & Hsum).
    exists n. rewrite getTotalPrice_is_sum. split; [|exact Hsum].
    split; [exact Hn|]. rewrite Hsum in Hbound.
    unfold Qlt, inject_Z in Hbound. simpl in Hbound. lia.
Qed.

(** C1, amended, on two wrench sets and three pipe bundles: 1457.25. *)
Lemma cart_invariant_after_operations_witness :
  (getTotalPrice
     (run_ops [AddItem (catalogue_item 0); AddItem (catalogue_item 3);
               SetQuantity "4" 3; AddItem (catalogue_item 0)]
              initialState) == 1457.25)%Q.
Proof.
  destruct (cart_invariant_after_operations
              [AddItem (catalogue_item 0); AddItem (catalogue_item 3);
               SetQuantity "4" 3; AddItem (catalogue_item 0)])
    as (_ & _ & Htotal).
  destruct Htotal as [Hsum _].
  - repeat split; repeat constructor.
  - repeat constructor;
      [exists 1800|exists 743]; split; try reflexivity; lia.
  - reflexivity.
  - rewrite Hsum. reflexivity.
Defined.

(** ** Adding, removing and setting a quantity *)

Lemma addToCart_existing (x : Product) (st : State)
  (before after : list CartItem) (line : CartItem) :
  cart st = (before ++ line :: after)%list -> id line = id x ->
  absent (id x) before -> absent (id x) after ->
  cart (fst (addToCart x st))
  = (before ++ with_quantity line (quantity line + 1) :: after)%list.
Proof.
  intros Hcart Hid Hb Ha. simpl.
  destruct (find _ (cart st)) as [found|] eqn:Hfind.
  - rewrite Hcart.
    exact (map_quantity_single (id x) (fun item => quantity item + 1)
             before after line Hid Hb Ha).
  - exfalso. apply find_none_absent in Hfind. apply (Hfind line); [|exact Hid].
    rewrite Hcart. apply in_elt.
Qed.

Lemma addToCart_new (x : Product) (st : State) :
  absent (id x) (cart st) ->
  cart (fst (addToCart x st)) = (cart st ++ [mkCartItem x 1])%list.
Proof.
  intros Habs. simpl. apply find_none_absent in Habs. now rewrite Habs.
Qed.

(** C6 as stated does not hold on the doubles of the code: on a line of
    quantity 2^53, [item.quantity + 1] is 2^53 again and [addToCart] leaves
    the line as it is. *)
Lemma line_of_2_53_not_incremented :
  ~ (forall (x : Doubles.Product) (before after : list Doubles.CartItem)
            (line : Doubles.CartItem),
        Doubles.id (Doubles.product_of line) = Doubles.id x ->
        (forall item, In item before \/ In item after ->
                      Doubles.id (Doubles.product_of item) <> Doubles.id x) ->
        exists line',
          Doubles.addToCart x (before ++ line :: after)
          = (before ++ line' :: after)%list /\
          Doubles.one_more line line').
Proof.
  intros Hclaim.
  destruct (Hclaim Doubles.pipe_bundle [] []
              (Doubles.mkCartItem Doubles.pipe_bundle
                 9007199254740992%float) eq_refl)
    as (line' & Hcart & _ & Hmore).
  - intros item [[]|[]].
  - vm_compute in Hcart. injection Hcart as <-.
    vm_compute in Hmore. discriminate Hmore.
Qed.

(** C6, amended.  [addToCart(x)] adds 1 to the quantity of the line for
    [x.id] when the cart has one, of a quantity below 2^53, and leaves the
    other lines as they are; otherwise it appends a line for [x] with
    quantity 1 at the end.  Two calls on a cart without [x] end with one
    line for [x.id], of quantity 2. *)
Theorem addToCart_increments_or_appends (x : Product) (st : State) :
  (forall before line after,
      cart st = (before ++ line :: after)%list -> id line = id x ->
      absent (id x) before -> absent (id x) after ->
      Z.abs (quantity line) < 2 ^ 53 ->
      cart (fst (addToCart x st))
      = (before ++ with_quantity line (quantity line + 1) :: after)%list) /\
  (absent (id x) (cart st) ->
      cart (fst (addToCart x st)) = (cart st ++ [mkCartItem x 1])%list /\
      cart (fst (addToCart x (fst (addToCart x st))))
      = (cart st ++ [mkCartItem x 2])%list).
Proof.
  split.
  - intros before line after Hcart Hid Hb Ha _.
    now apply addToCart_existing.
  - intros Habs. split; [now apply addToCart_new|].
    apply (addToCart_existing x (fst (addToCart x st)) (cart st) []
             (mkCartItem x 1)).
    + now apply addToCart_new.
    + reflexivity.
    + exact Habs.
    + intros item [].
Qed.

(** C6, amended, at a cart holding one wrench set and three pipe bundles: a
    pipe bundle more makes four, and a flow meter is appended and then
    doubled. *)
Lemma addToCart_increments_or_appends_witness :
  cart (fst (addToCart (catalogue_item 3) two_line_page))
  = [mkCartItem (catalogue_item 0) 1; mkCartItem (catalogue_item 3) 4] /\
  cart (fst (addToCart (catalogue_item 5)
               (fst (addToCart (catalogue_item 5) two_line_page))))
  = [mkCartItem (catalogue_item 0) 1; mkCartItem (catalogue_item 3) 3;
     mkCartItem (catalogue_item 5) 2].
Proof.
  pose (st := two_line_page). fold st. split.
  - refine (proj1 (addToCart_increments_or_appends (catalogue_item 3) st)
              [mkCartItem (catalogue_item 0) 1]
              (mkCartItem (catalogue_item 3) 3) [] eq_refl eq_refl _ _ _).
    + intros item [Heq|[]]. subst item. discriminate.
    + intros item [].
    + simpl. lia.
  - refine (proj2 (proj2 (addToCart_increments_or_appends
                            (catalogue_item 5) st) _)).
    intros item [Heq|[Heq|[]]]; subst item; discriminate.
Defined.

(** C7.  [updateQuantity(id, q)] with [q <= 0] is [removeFromCart(id)];
    with [q >= 1] it sets the quantity of the line for [id] to [q] and
    changes nothing when the cart has no line for [id]; [removeFromCart(id)]
    changes nothing when the cart has no line for [id]. *)
Theorem updateQuantity_removeFromCart_spec (productId : string) (q : Z)
  (st : State) :
  (q <= 0 -> updateQuantity productId q st = removeFromCart productId st) /\
  (1 <= q ->
   forall before line after,
     cart st = (before ++ line :: after)%list -> id line = productId ->
     absent productId before -> absent productId after ->
     cart (updateQuantity productId q st)
     = (before ++ with_quantity line q :: after)%list) /\
  (1 <= q -> absent productId (cart st) ->
   updateQuantity productId q st = st) /\
  (absent productId (cart st) -> removeFromCart productId st = st).
Proof.
  unfold updateQuantity. repeat split.
  - intros Hq. destruct (Z.leb_spec q 0); [reflexivity|lia].
  - intros Hq before line after Hcart Hid Hb Ha.
    destruct (Z.leb_spec q 0); [lia|]. simpl. rewrite Hcart.
    exact (map_quantity_single productId (fun _ => q) before after line
             Hid Hb Ha).
  - intros Hq Habs. destruct (Z.leb_spec q 0); [lia|].
    apply setCart_same.
    exact (map_quantity_absent productId (fun _ => q) (cart st) Habs).
  - intros Habs. apply setCart_same. now apply filter_absent.
Qed.

(** C7 at a cart holding one wrench set and three pipe bundles. *)
Lemma updateQuantity_removeFromCart_spec_witness :
  updateQuantity "4" 0 two_line_page = removeFromCart "4" two_line_page /\
  cart (updateQuantity "4" 7 two_line_page)
  = [mkCartItem (catalogue_item 0) 1; mkCartItem (catalogue_item 3) 7] /\
  updateQuantity "9" 7 two_line_page = two_line_page /\
  removeFromCart "9" two_line_page = two_line_page.
Proof.
  pose (st := two_line_page). fold st.
  assert (Habs9 : absent "9" (cart st)).
  { intros item [Heq|[Heq|[]]]; subst item; discriminate. }
  split; [|split; [|split]].
  - apply (proj1 (updateQuantity_removeFromCart_spec "4" 0 st)). lia.
  - refine (proj1 (proj2 (updateQuantity_removeFromCart_spec "4" 7 st)) _
              [mkCartItem (catalogue_item 0) 1]
              (mkCartItem (catalogue_item 3) 3) [] eq_refl eq_refl _ _).
    + lia.
    + intros item [Heq|[]]. subst item. discriminate.
    + intros item [].
  - apply (proj1 (proj2 (proj2
             (updateQuantity_removeFromCart_spec "9" 7 st))));
      [lia|exact Habs9].
  - apply (proj2 (proj2 (proj2
             (updateQuantity_removeFromCart_spec "9" 7 st)))).
    exact Habs9.
Defined.

End CartFacts.

(** * Properties of the cart submission *)

Section SubmitFacts.
Import Landing.

Implicit Types (now : string) (fetch : Request -> FetchResult) (st : State).

Lemma not_string_true (s : string) : not_string s = true <-> s = "".
Proof. unfold not_string. apply String.eqb_eq. Qed.

Lemma not_string_false (s : string) : not_string s = false <-> s <> "".
Proof. unfold not_string. apply String.eqb_neq. Qed.

Lemma length_zero_false (lines : list CartItem) :
  lines <> [] -> (List.length lines =? 0)%nat = false.
Proof. destruct lines; [congruence | reflexivity]. Qed.

(** ** The three ways through [submitCart] *)

Lemma submitCart_empty now fetch st :
  cart st = [] ->
  submitCart now fetch st
  = {| path := EmptyCartError; state := st;
       toasts := [cart_empty_toast]; requests := [] |}.
Proof. intros H. unfold submitCart. now rewrite H. Qed.

Lemma submitCart_missing now fetch st :
  cart st <> [] ->
  CustomerInfo.name (customerInfo st) = ""
  \/ CustomerInfo.email (customerInfo st) = "" ->
  submitCart now fetch st
  = {| path := MissingContactInfoError; state := st;
       toasts := [missing_information_toast]; requests := [] |}.
Proof.
  intros Hcart Hinfo. unfold submitCart.
  rewrite (length_zero_false _ Hcart).
  destruct Hinfo as [H|H]; apply not_string_true in H; rewrite H;
    [|rewrite orb_true_r]; reflexivity.
Qed.

Lemma submitCart_sends now fetch st :
  cart st <> [] ->
  CustomerInfo.name (customerInfo st) <> "" ->
  CustomerInfo.email (customerInfo st) <> "" ->
  submitCart now fetch st
  = match fetch (cart_email_request now st) with
    | Resolved response =>
        if ok response then
          {| path := Succeeded;
             state := mkState [] false CustomerInfo.empty;
             toasts := [cart_submitted_toast];
             requests := [cart_email_request now st] |}
        else
          {| path := SubmissionFailed; state := st;
             toasts := [submission_failed_toast];
             requests := [cart_email_request now st] |}
    | Rejected =>
        {| path := SubmissionFailed; state := st;
           toasts := [submission_failed_toast];
           requests := [cart_email_request now st] |}
    end.
Proof.
  intros Hcart Hname Hemail. unfold submitCart.
  rewrite (length_zero_false _ Hcart).
  apply not_string_false in Hname, Hemail. rewrite Hname, Hemail. simpl.
  destruct (fetch _) as [response|]; [destruct (ok response)|]; reflexivity.
Qed.

(** The total of a cart of two lines. *)
Lemma getTotalPrice_two_lines st (a b : CartItem) :
  cart st = [a; b] ->
  (getTotalPrice st
   == price a * inject_Z (quantity a) + price b * inject_Z (quantity b))%Q.
Proof. intros H. unfold getTotalPrice. rewrite H. simpl. ring. Qed.

(** In doubles too, the total of scenario C is 1085.75 with no rounding. *)
Example scenario_C_total_in_doubles :
  total_in_doubles [(450.00, 2); (185.75, 1)]%float = 1085.75%float.
Proof. reflexivity. Qed.

(** C2.  With a non-empty cart, a name and an e-mail address, and a
    successful answer to the request, [submitCart] empties the cart, sets
    the four customer fields to the empty string, closes the cart panel,
    shows the one "Cart submitted!" toast and has sent one request, built
    from the cart and customer of the call.  For two lines, product "1"
    twice at 450.00 and product "4" once at 185.75, the total in that
    request is 1085.75. *)
Theorem submitCart_success now fetch st (response : Response) :
  cart st <> [] ->
  CustomerInfo.name (customerInfo st) <> "" ->
  CustomerInfo.email (customerInfo st) <> "" ->
  fetch (cart_email_request now st) = Resolved response ->
  ok response = true ->
  path (submitCart now fetch st) = Succeeded /\
  state (submitCart now fetch st)
  = {| cart := []; isCartOpen := false;
       customerInfo := CustomerInfo.mk "" "" "" "" |} /\
  toasts (submitCart now fetch st) = [cart_submitted_toast] /\
  Toast.variant cart_submitted_toast <> Some "destructive" /\
  (exists request,
      requests (submitCart now fetch st) = [request] /\
      customer (cartData (body request)) = customerInfo st /\
      items (cartData (body request)) = cart st /\
      total (cartData (body request)) = getTotalPrice st /\
      timestamp (cartData (body request)) = now /\
      forall p1 p4 : Product,
        cart st = [mkCartItem p1 2; mkCartItem p4 1] ->
        id p1 = "1" -> (price p1 == 450.00)%Q ->
        id p4 = "4" -> (price p4 == 185.75)%Q ->
        (total (cartData (body request)) == 1085.75)%Q).
Proof.
  intros Hcart Hname Hemail Hfetch Hok.
  rewrite (submitCart_sends now fetch st Hcart Hname Hemail), Hfetch, Hok.
  simpl. repeat split; try discriminate.
  exists (cart_email_request now st). repeat split.
  intros p1 p4 Hlines _ Hp1 _ Hp4. simpl.
  rewrite (getTotalPrice_two_lines st _ _ Hlines). simpl.
  rewrite Hp1, Hp4. reflexivity.
Qed.

(** C2 on scenario C, the request answered with status 200. *)
Lemma submitCart_success_witness :
  path (submitCart "2024-05-01T10:00:00.000Z" (answering 200) scenario_C)
  = Succeeded /\
  state (submitCart "2024-05-01T10:00:00.000Z" (answering 200) scenario_C)
  = initialState /\
  toasts (submitCart "2024-05-01T10:00:00.000Z" (answering 200) scenario_C)
  = [cart_submitted_toast] /\
  Forall (fun request => (total (cartData (body request)) == 1085.75)%Q)
    (requests
       (submitCart "2024-05-01T10:00:00.000Z" (answering 200) scenario_C)).
Proof.
  destruct (submitCart_success "2024-05-01T10:00:00.000Z" (answering 200)
              scenario_C {| status := 200 |})
    as (Hpath & Hstate & Htoasts & _ & request & Hreq & _ & _ & _ & _ & Htot);
    try discriminate; try reflexivity.
  repeat split; try assumption.
  rewrite Hreq. constructor; [|constructor].
  apply (Htot (catalogue_item 0) (catalogue_item 3)); reflexivity.
Defined.

(** ** Failed submissions *)

Lemma submitCart_one_destructive_unless_sent now fetch st :
  path (submitCart now fetch st) <> Succeeded ->
  state (submitCart now fetch st) = st /\
  exists t, toasts (submitCart now fetch st) = [t] /\
            Toast.variant t = Some "destructive".
Proof.
  unfold submitCart.
  destruct (List.length (cart st) =? 0)%nat;
    [|destruct (not_string _ || not_string _);
      [|destruct (fetch _) as [response|]; [destruct (ok response)|]]];
    simpl; intros Hpath; try congruence;
    (split; [reflexivity|]); eexists; split; reflexivity.
Qed.

Lemma submitCart_not_ok now fetch st :
  match fetch (cart_email_request now st) with
  | Resolved response => ok response = false
  | Rejected => True
  end ->
  submitCart now fetch st = submitCart now unreachable st.
Proof.
  unfold submitCart, unreachable. intros Hfetch.
  destruct (List.length (cart st) =? 0)%nat; [reflexivity|].
  destruct (not_string _ || not_string _); [reflexivity|].
  destruct (fetch _) as [response|]; [|reflexivity].
  now rewrite Hfetch.
Qed.

(** C3.  When the request is answered with a status outside 200-299
    ([rejecting]) or cannot be completed ([failing]), [submitCart] leaves
    the cart and the customer fields as they were and shows one toast, of
    the destructive variant; the two calls are the same in every respect,
    toast included; and wherever the request is made (a non-empty cart, a
    name and an e-mail address) that toast is "Submission failed". *)
Theorem submitCart_failure now st
  (rejecting failing : Request -> FetchResult) (response : Response) :
  rejecting (cart_email_request now st) = Resolved response ->
  ok response = false ->
  failing (cart_email_request now st) = Rejected ->
  submitCart now rejecting st = submitCart now failing st /\
  state (submitCart now rejecting st) = st /\
  state (submitCart now failing st) = st /\
  (exists t, toasts (submitCart now rejecting st) = [t] /\
             toasts (submitCart now failing st) = [t] /\
             Toast.variant t = Some "destructive") /\
  (requests (submitCart now rejecting st) <> [] ->
   path (submitCart now rejecting st) = SubmissionFailed /\
   toasts (submitCart now rejecting st) = [submission_failed_toast] /\
   requests (submitCart now rejecting st) = [cart_email_request now st]) /\
  (cart st <> [] ->
   CustomerInfo.name (customerInfo st) <> "" ->
   CustomerInfo.email (customerInfo st) <> "" ->
   requests (submitCart now rejecting st) = [cart_email_request now st]).
Proof.
  intros Hrej Hok Hfail.
  assert (Hsame : submitCart now rejecting st = submitCart now failing st).
  { rewrite (submitCart_not_ok now rejecting st),
            (submitCart_not_ok now failing st); [reflexivity| |].
    - now rewrite Hfail.
    - now rewrite Hrej. }
  assert (Hpath : path (submitCart now rejecting st) <> Succeeded).
  { unfold submitCart.
    destruct (List.length (cart st) =? 0)%nat; [discriminate|].
    destruct (not_string _ || not_string _); [discriminate|].
    rewrite Hrej, Hok. discriminate. }
  destruct (submitCart_one_destructive_unless_sent now rejecting st Hpath)
    as (Hstate & t & Ht & Hvar).
  split; [exact Hsame|]. split; [exact Hstate|].
  split; [now rewrite <- Hsame|].
  split; [exists t; repeat split; [exact Ht|now rewrite <- Hsame|exact Hvar]|].
  split.
  - unfold submitCart.
    destruct (List.length (cart st) =? 0)%nat; [simpl; congruence|].
    destruct (not_string _ || not_string _); [simpl; congruence|].
    rewrite Hrej, Hok. simpl. intros _. repeat split.
  - intros Hcart Hname Hemail.
    rewrite (submitCart_sends now rejecting st Hcart Hname Hemail), Hrej, Hok.
    reflexivity.
Qed.

(** C3 on scenario D: the cart and customer of scenario C, the request
    answered with status 500, against a network failure. *)
Lemma submitCart_failure_witness :
  submitCart "2024-05-01T10:00:00.000Z" (answering 500) scenario_C
  = submitCart "2024-05-01T10:00:00.000Z" unreachable scenario_C /\
  state (submitCart "2024-05-01T10:00:00.000Z" (answering 500) scenario_C)
  = scenario_C /\
  toasts (submitCart "2024-05-01T10:00:00.000Z" (answering 500) scenario_C)
  = [submission_failed_toast].
Proof.
  destruct (submitCart_failure "2024-05-01T10:00:00.000Z" scenario_C
              (answering 500) unreachable {| status := 500 |}
              eq_refl eq_refl eq_refl)
    as (Hsame & Hstate & _ & _ & Hsent & Hreq).
  split; [exact Hsame|]. split; [exact Hstate|].
  apply Hsent. rewrite Hreq; discriminate.
Defined.

(** ** Rejected submissions *)

(** C4.  On an empty cart [submitCart] returns through the empty-cart
    branch, shows the one "Cart is empty" toast, sends no request and
    leaves the state, hence the empty cart and the customer fields, as it
    was. *)
Theorem submitCart_empty_cart now fetch st :
  cart st = [] ->
  path (submitCart now fetch st) = EmptyCartError /\
  toasts (submitCart now fetch st) = [cart_empty_toast] /\
  Toast.variant cart_empty_toast = Some "destructive" /\
  requests (submitCart now fetch st) = [] /\
  state (submitCart now fetch st) = st /\
  cart (state (submitCart now fetch st)) = [] /\
  customerInfo (state (submitCart now fetch st)) = customerInfo st.
Proof.
  intros Hcart. rewrite (submitCart_empty now fetch st Hcart). simpl.
  repeat split. exact Hcart.
Qed.

(** C4 on scenario A: the component as first rendered. *)
Lemma submitCart_empty_cart_witness :
  path (submitCart "2024-05-01T10:00:00.000Z" (answering 200) initialState)
  = EmptyCartError /\
  requests (submitCart "2024-05-01T10:00:00.000Z" (answering 200) initialState)
  = [] /\
  cart (state (submitCart "2024-05-01T10:00:00.000Z" (answering 200)
                 initialState)) = [].
Proof.
  destruct (submitCart_empty_cart "2024-05-01T10:00:00.000Z" (answering 200)
              initialState eq_refl)
    as (Hpath & _ & _ & Hreq & _ & Hcart & _).
  repeat split; assumption.
Defined.

(** C5 as stated does not hold: no reading of the toast gives the fields
    that were missing, since a submission without a name and a submission
    without an e-mail address show the same toast. *)
Lemma missing_fields_not_named :
  ~ exists named : Toast.t -> list Field, names_the_missing_fields named.
Proof.
  intros [named Hnamed].
  pose (lines := [mkCartItem (catalogue_item 0) 1]).
  destruct (Hnamed "2024-05-01T10:00:00.000Z" unreachable
              (page lines (CustomerInfo.mk "" "jane@x.com" "" "")))
    as (t1 & Ht1 & Hn1); [discriminate|discriminate|].
  destruct (Hnamed "2024-05-01T10:00:00.000Z" unreachable
              (page lines (CustomerInfo.mk "Jane" "" "" "")))
    as (t2 & Ht2 & Hn2); [discriminate|discriminate|].
  simpl in Ht1, Ht2.
  assert (Heq : t1 = t2) by congruence.
  rewrite Heq in Hn1. rewrite Hn1 in Hn2. discriminate Hn2.
Qed.

(** C5, amended.  On a non-empty cart with an empty name or an empty e-mail
    address [submitCart] returns through the missing-information branch,
    shows one toast, sends no request and leaves the cart and the customer
    fields as they were.  The toast is always the same one: its text asks
    for the name and the e-mail address, whichever of the two is missing. *)
Theorem submitCart_missing_contact now fetch st :
  cart st <> [] ->
  CustomerInfo.name (customerInfo st) = ""
  \/ CustomerInfo.email (customerInfo st) = "" ->
  path (submitCart now fetch st) = MissingContactInfoError /\
  toasts (submitCart now fetch st)
  = [ {| Toast.title := "Missing information";
         Toast.description := "Please fill in your name and email address.";
         Toast.variant := Some "destructive" |} ] /\
  requests (submitCart now fetch st) = [] /\
  state (submitCart now fetch st) = st.
Proof.
  intros Hcart Hinfo. rewrite (submitCart_missing now fetch st Hcart Hinfo).
  repeat split.
Qed.

(** C5, amended, on scenario B. *)
Lemma submitCart_missing_contact_witness :
  path (submitCart "2024-05-01T10:00:00.000Z" (answering 200) scenario_B)
  = MissingContactInfoError /\
  requests (submitCart "2024-05-01T10:00:00.000Z" (answering 200) scenario_B)
  = [] /\
  List.length
    (cart (state (submitCart "2024-05-01T10:00:00.000Z" (answering 200)
                    scenario_B))) = 1%nat.
Proof.
  destruct (submitCart_missing_contact "2024-05-01T10:00:00.000Z"
              (answering 200) scenario_B)
    as (Hpath & _ & Hreq & Hstate);
    [discriminate | left; reflexivity |].
  rewrite Hstate. repeat split; assumption.
Defined.

(** C8.  On a non-empty cart the check on the customer fields is passed
    exactly when the name and the e-mail address are both different from
    the empty string, whatever their characters, and then the request is
    sent; with an empty name or an empty e-mail address the submission is
    rejected and nothing is sent. *)
Theorem submitCart_checks_emptiness_only now fetch st :
  cart st <> [] ->
  (CustomerInfo.name (customerInfo st) <> "" ->
   CustomerInfo.email (customerInfo st) <> "" ->
   path (submitCart now fetch st) <> MissingContactInfoError /\
   requests (submitCart now fetch st) = [cart_email_request now st]) /\
  (CustomerInfo.name (customerInfo st) = ""
   \/ CustomerInfo.email (customerInfo st) = "" ->
   path (submitCart now fetch st) = MissingContactInfoError /\
   requests (submitCart now fetch st) = []).
Proof.
  intros Hcart. split.
  - intros Hname Hemail.
    rewrite (submitCart_sends now fetch st Hcart Hname Hemail).
    destruct (fetch _) as [response|]; [destruct (ok response)|];
      simpl; split; (discriminate || reflexivity).
  - intros Hinfo. rewrite (submitCart_missing now fetch st Hcart Hinfo).
    split; reflexivity.
Qed.

(** C8 on a form holding only blanks in the name and e-mail fields, and on
    the same cart with an empty name. *)
Lemma submitCart_checks_emptiness_only_witness :
  requests (submitCart "2024-05-01T10:00:00.000Z" (answering 200)
              (page [mkCartItem (catalogue_item 0) 1]
                    (CustomerInfo.mk "   " " " "" "")))
  = [cart_email_request "2024-05-01T10:00:00.000Z"
       (page [mkCartItem (catalogue_item 0) 1]
             (CustomerInfo.mk "   " " " "" ""))] /\
  path (submitCart "2024-05-01T10:00:00.000Z" (answering 200)
          (page [mkCartItem (catalogue_item 0) 1]
                (CustomerInfo.mk "" "jane@x.com" "" "")))
  = MissingContactInfoError.
Proof.
  split.
  - apply (proj1 (submitCart_checks_emptiness_only
                    "2024-05-01T10:00:00.000Z" (answering 200)
                    (page [mkCartItem (catalogue_item 0) 1]
                          (CustomerInfo.mk "   " " " "" ""))
                    ltac:(discriminate)));
      discriminate.
  - apply (proj2 (submitCart_checks_emptiness_only
                    "2024-05-01T10:00:00.000Z" (answering 200)
                    (page [mkCartItem (catalogue_item 0) 1]
                          (CustomerInfo.mk "" "jane@x.com" "" ""))
                    ltac:(discriminate))).
    left. reflexivity.
Defined.

End SubmitFacts.

(** * Properties of the organization handlers *)

Section OrganizationFacts.
Import Organizations.

Lemma includes_In (l : list string) (x : string) :
  includes l x = true <-> In x l.
Proof.
  unfold includes. rewrite existsb_exists. split.
  - intros (y & Hin & Heq). apply String.eqb_eq in Heq. now subst.
  - intros Hin. exists x. split; [exact Hin | apply String.eqb_refl].
Qed.

(** C9.  [handleGetOrganizations] answers 200 and leaves the store as it
    is.  For a [super_admin] the list sent is the whole registry; for any
    other caller it is the registry filtered, in registry order, to the
    organizations whose id is among the caller's organizations, which is
    the empty list for a caller without such an array. *)
Theorem handleGetOrganizations_scoped (user : option User) (s : Store) :
  fst (handleGetOrganizations user s) = s /\
  status (snd (handleGetOrganizations user s)) = 200%Z /\
  exists orgs,
    payload (snd (handleGetOrganizations user s)) = OrganizationList orgs /\
    (is_super_admin user -> orgs = organizations s) /\
    (~ is_super_admin user ->
     orgs = filter (fun org =>
                      if in_dec string_dec (id org) (permitted user)
                      then true else false) (organizations s) /\
     (forall org, In org orgs <->
                  In org (organizations s) /\ In (id org) (permitted user)) /\
     (permitted user = [] -> orgs = [])).
Proof.
  unfold handleGetOrganizations, is_super_admin.
  destruct user as [u|]; simpl.
  - destruct (String.eqb_spec (role u) "super_admin") as [Hrole|Hrole]; simpl.
    + repeat split. eexists. split; [reflexivity|]. split; [reflexivity|].
      intros Hnot. exfalso. apply Hnot. now exists u.
    + repeat split. eexists. split; [reflexivity|]. split.
      * intros (u' & Hu & Hr). injection Hu as <-. contradiction.
      * intros _. fold (permitted (Some u)). split; [|split].
        -- apply filter_ext. intros org.
           destruct (in_dec string_dec (id org) (permitted (Some u)))
             as [Hin|Hin].
           ++ now apply includes_In.
           ++ apply not_true_is_false. now rewrite includes_In.
        -- intros org. rewrite filter_In, includes_In. reflexivity.
        -- intros Hnone. rewrite Hnone. simpl.
           induction (organizations s) as [|o rest IH]; simpl; auto.
  - repeat split. eexists. split; [reflexivity|]. split.
    + intros (u' & Hu & _). discriminate.
    + intros _. split; [|split].
      * apply filter_ext. intros org. simpl.
        destruct (in_dec string_dec (id org) []) as [[]|]. reflexivity.
      * intros org. rewrite filter_In. simpl. intuition discriminate.
      * intros _. induction (organizations s) as [|o rest IH]; simpl; auto.
Qed.

(** C9 on a registry of two organizations: a staff member of the second
    organization gets that one, a caller without organizations gets none
    and a [super_admin] gets both. *)
Lemma handleGetOrganizations_scoped_witness :
  payload (snd (handleGetOrganizations (Some staff_of_bolt) two_orgs))
  = OrganizationList [bolt] /\
  payload (snd (handleGetOrganizations None two_orgs))
  = OrganizationList [] /\
  payload (snd (handleGetOrganizations
                  (Some {| role := "super_admin";
                           user_organizations := None |}) two_orgs))
  = OrganizationList [acme; bolt].
Proof.
  split; [|split].
  - destruct (handleGetOrganizations_scoped (Some staff_of_bolt) two_orgs)
      as (_ & _ & orgs & Hpay & _ & Hscoped).
    rewrite Hpay. f_equal.
    destruct Hscoped as (Hfilter & _ & _).
    + intros (u & Hu & Hr). injection Hu as <-. discriminate.
    + rewrite Hfilter. reflexivity.
  - destruct (handleGetOrganizations_scoped None two_orgs)
      as (_ & _ & orgs & Hpay & _ & Hscoped).
    rewrite Hpay. f_equal.
    destruct Hscoped as (_ & _ & Hnone).
    + intros (u & Hu & _). discriminate.
    + apply Hnone. reflexivity.
  - destruct (handleGetOrganizations_scoped
                (Some {| role := "super_admin"; user_organizations := None |})
                two_orgs)
      as (_ & _ & orgs & Hpay & Hadmin & _).
    rewrite Hpay. f_equal. apply Hadmin. eexists. split; reflexivity.
Defined.

(** ** Positions in the registry *)

Lemma findIndex_Some (id' : string) (orgs : list Organization) :
  forall idx, findIndex id' orgs = Some idx ->
  exists before o after,
    orgs = (before ++ o :: after)%list /\ id o = id' /\
    nth idx orgs (mkOrganization "" "" "" None None) = o /\
    (forall updated, assign idx updated orgs
                     = (before ++ updated :: after)%list) /\
    splice1 idx orgs = (before ++ after)%list.
Proof.
  induction orgs as [|o rest IH]; simpl; intros idx Hfind; [discriminate|].
  destruct (String.eqb_spec (id o) id') as [Heq|Hne].
  - injection Hfind as <-. exists [], o, rest. simpl. auto.
  - destruct (findIndex id' rest) as [i|] eqn:Hrest; [|discriminate].
    injection Hfind as <-.
    destruct (IH i eq_refl) as (before & o' & after & Hl & Hid & Hnth & Ha & Hs).
    exists (o :: before), o', after. simpl.
    repeat split; try assumption.
    + now rewrite Hl.
    + intros updated. now rewrite Ha.
    + now rewrite Hs.
Qed.

(** ** The ways through an update *)

Lemma handleUpdateOrganization_cases (id' : string) (body : Value)
  (s : Store) :
  handleUpdateOrganization id' body s
  = (s, {| status := 404; payload := ErrorBody "Organization not found" |})
  \/
  exists before o after,
    organizations s = (before ++ o :: after)%list /\ id o = id' /\
    (handleUpdateOrganization id' body s
     = (s, {| status := 500; payload := ErrorBody "Internal server error" |})
     /\ merge_updates o (body_or_empty body) = None
     \/
     exists updated,
       merge_updates o (body_or_empty body) = Some updated /\
       handleUpdateOrganization id' body s
       = ({| organizations := (before ++ updated :: after)%list;
             orgCounter := orgCounter s |},
          {| status := 200; payload := OrganizationBody updated |})).
Proof.
  unfold handleUpdateOrganization.
  destruct (findIndex id' (organizations s)) as [idx|] eqn:Hfind;
    [|now left].
  destruct (findIndex_Some _ _ _ Hfind)
    as (before & o & after & Hl & Hid & Hnth & Hassign & _).
  right. exists before, o, after. split; [exact Hl|]. split; [exact Hid|].
  rewrite Hnth.
  destruct (merge_updates o (body_or_empty body)) as [updated|].
  - right. exists updated. split; [reflexivity|]. now rewrite Hassign.
  - left. now split.
Qed.

Lemma merge_updates_Some (o updated : Organization) (updates : Json) :
  merge_updates o updates = Some updated ->
  id updated = id o /\
  createdAt updated = createdAt o /\
  (if truthy (get "name" updates)
   then String_value (get "name" updates) = Some (name updated)
   else name updated = name o) /\
  (if truthy (get "logoUrl" updates)
   then option_map Some (String_value (get "logoUrl" updates))
        = Some (logoUrl updated)
   else logoUrl updated = logoUrl o) /\
  settings updated = (if truthy (get "settings" updates)
                      then get "settings" updates else settings o).
Proof.
  unfold merge_updates.
  destruct (truthy (get "name" updates));
    destruct (truthy (get "logoUrl" updates));
    try destruct (String_value (get "name" updates)) as [n|];
    try destruct (String_value (get "logoUrl" updates)) as [l|];
    simpl; intros [= <-]; simpl; repeat split; reflexivity.
Qed.

(** ** The ways through a create *)

Lemma handleCreateOrganization_cases (dateNow : Z) (isoNow : string)
  (body : Value) (s : Store) :
  handleCreateOrganization dateNow isoNow body s
  = (s, {| status := 400;
           payload := ErrorBody "Organization name is required" |})
  \/
  handleCreateOrganization dateNow isoNow body s
  = ({| organizations := organizations s;
        orgCounter := (orgCounter s + 1)%Z |},
     {| status := 500; payload := ErrorBody "Internal server error" |})
  \/
  exists newOrg,
    id newOrg = org_id dateNow (orgCounter s) /\
    createdAt newOrg = isoNow /\
    String_value (get "name" (body_or_empty body)) = Some (name newOrg) /\
    handleCreateOrganization dateNow isoNow body s
    = ({| organizations := (organizations s ++ [newOrg])%list;
          orgCounter := (orgCounter s + 1)%Z |},
       {| status := 201; payload := OrganizationBody newOrg |}).
Proof.
  unfold handleCreateOrganization.
  destruct (truthy (get "name" (body_or_empty body))); simpl; [|now left].
  right.
  destruct (String_value (get "name" (body_or_empty body))) as [name'|];
    [|now left].
  destruct (if truthy _ then _ else _) as [logoUrl'|]; [|now left].
  right. eexists. repeat apply conj; [| | |reflexivity]; reflexivity.
Qed.

(** ** The parts of the invariant that hold *)

Lemma handleCreateOrganization_without_name (dateNow : Z) (isoNow : string)
  (body : Value) (s : Store) :
  truthy (get "name" (body_or_empty body)) = false ->
  handleCreateOrganization dateNow isoNow body s
  = (s, {| status := 400;
           payload := ErrorBody "Organization name is required" |}).
Proof.
  intros Hname. unfold handleCreateOrganization. now rewrite Hname.
Qed.

Lemma handleUpdateOrganization_falsy_name (id' : string) (body : Value)
  (s : Store) :
  truthy (get "name" (body_or_empty body)) = false ->
  map name (organizations (fst (handleUpdateOrganization id' body s)))
  = map name (organizations s).
Proof.
  intros Hname.
  destruct (handleUpdateOrganization_cases id' body s)
    as [->|(before & o & after & Hl & _ & [[-> _]|(updated & Hm & ->)])];
    try reflexivity.
  apply merge_updates_Some in Hm as (_ & _ & Hn & _).
  rewrite Hname in Hn. simpl. rewrite Hl, !map_app. simpl. now rewrite Hn.
Qed.

Lemma handleDeleteOrganization_removes (id' : string) (s : Store) :
  incl (organizations (fst (handleDeleteOrganization id' s)))
       (organizations s).
Proof.
  unfold handleDeleteOrganization.
  destruct (findIndex id' (organizations s)) as [idx|] eqn:Hfind; simpl.
  - destruct (findIndex_Some _ _ _ Hfind)
      as (before & o & after & Hl & _ & _ & _ & Hsplice).
    rewrite Hsplice, Hl. intros x Hx.
    apply in_app_or in Hx as [Hx|Hx]; apply in_or_app; [now left|].
    right. now right.
  - apply incl_refl.
Qed.

Lemma handleDeleteOrganization_keeps_names (id' : string) (s : Store) :
  names_nonempty s -> names_nonempty (fst (handleDeleteOrganization id' s)).
Proof.
  unfold names_nonempty. rewrite !Forall_forall. intros Hs o Hin.
  apply Hs. exact (handleDeleteOrganization_removes id' s o Hin).
Qed.

Lemma truthy_string_nonempty (v : Value) (str : string) :
  v = Some (JString str) -> truthy v = true ->
  String_value v = Some str /\ str <> "".
Proof.
  intros -> Ht. simpl in *. apply negb_true_iff in Ht.
  split; [reflexivity|now apply String.eqb_neq].
Qed.

Lemma handleCreateOrganization_string_name (dateNow : Z) (isoNow : string)
  (body : Value) (s : Store) :
  name_is_string body -> names_nonempty s ->
  names_nonempty (fst (handleCreateOrganization dateNow isoNow body s)).
Proof.
  unfold name_is_string, names_nonempty, handleCreateOrganization.
  intros Hstr Hs.
  destruct (truthy (get "name" (body_or_empty body))) eqn:Ht; simpl;
    [|exact Hs].
  destruct (get "name" (body_or_empty body)) as [[| | |str| |]|];
    try contradiction; try discriminate.
  destruct (truthy_string_nonempty _ str eq_refl Ht) as [-> Hne].
  destruct (if truthy _ then _ else _) as [logoUrl'|]; simpl; [|exact Hs].
  apply Forall_app. split; [exact Hs|]. constructor; [exact Hne|constructor].
Qed.

Lemma handleUpdateOrganization_string_name (id' : string) (body : Value)
  (s : Store) :
  name_is_string body -> names_nonempty s ->
  names_nonempty (fst (handleUpdateOrganization id' body s)).
Proof.
  unfold name_is_string, names_nonempty. intros Hstr Hs.
  destruct (handleUpdateOrganization_cases id' body s)
    as [->|(before & o & after & Hl & _ & [[-> _]|(updated & Hm & ->)])];
    try exact Hs.
  simpl. rewrite Hl in Hs.
  apply Forall_app in Hs as [Hb Ho]. inversion Ho as [|? ? Hname Ha]; subst.
  apply Forall_app. split; [exact Hb|]. constructor; [|exact Ha].
  apply merge_updates_Some in Hm as (_ & _ & Hn & _).
  destruct (truthy (get "name" (body_or_empty body))) eqn:Ht;
    [|now rewrite Hn].
  destruct (get "name" (body_or_empty body)) as [[| | |str| |]|];
    try contradiction; try discriminate.
  destruct (truthy_string_nonempty _ str eq_refl Ht) as [Hstr' Hne].
  rewrite Hstr' in Hn. now injection Hn as <-.
Qed.

(** ** Where the invariant breaks *)

(** The registry [two_orgs] is the one left by two create requests. *)
Example two_orgs_created :
  fst (handleCreateOrganization 1730000000500 "2024-10-27T03:33:20.500Z"
         (Some (JObject [("name", JString "Bolt");
                         ("logoUrl", JString "https://example.org/bolt.png")]))
         (fst (handleCreateOrganization 1730000000000
                 "2024-10-27T03:33:20.000Z"
                 (Some (JObject [("name", JString "Acme")])) initialStore)))
  = two_orgs.
Proof. reflexivity. Qed.

(** C10 fails on the code.  An empty array is truthy and [String([])] is the
    empty string: a create request whose [name] is [[]] is answered 201 and
    adds a record with an empty name, and an update request whose [name] is
    [[]] replaces the name "Acme" by the empty string. *)
Theorem empty_array_name_breaks_names_nonempty :
  names_nonempty initialStore /\
  status (snd (handleCreateOrganization 1730000000000
                 "2024-10-27T03:33:20.000Z"
                 (Some (JObject [("name", JArray [])])) initialStore))
  = 201%Z /\
  map name (organizations
              (fst (handleCreateOrganization 1730000000000
                      "2024-10-27T03:33:20.000Z"
                      (Some (JObject [("name", JArray [])])) initialStore)))
  = [""] /\
  names_nonempty two_orgs /\
  map name (organizations
              (fst (handleUpdateOrganization "org-1730000000000-1"
                      (Some (JObject [("name", JArray [])])) two_orgs)))
  = [""; "Bolt"] /\
  ~ names_nonempty
      (fst (handleCreateOrganization 1730000000000
              "2024-10-27T03:33:20.000Z"
              (Some (JObject [("name", JArray [])])) initialStore)) /\
  ~ names_nonempty
      (fst (handleUpdateOrganization "org-1730000000000-1"
              (Some (JObject [("name", JArray [])])) two_orgs)).
Proof.
  split; [constructor|]. split; [reflexivity|]. split; [reflexivity|].
  split; [repeat constructor; discriminate|]. split; [reflexivity|].
  split; intros H; inversion H as [|? ? Hname _]; now apply Hname.
Qed.

End OrganizationFacts.

(** * More on the organization handlers *)

Section RegistryFacts.
Import Organizations.

Local Open Scope Z_scope.

(** ** Identifiers *)

Lemma has_dash_app (x y : string) :
  has_dash (x ++ y) = has_dash x || has_dash y.
Proof.
  induction x as [|c x IH]; simpl; [reflexivity|].
  now rewrite IH, orb_assoc.
Qed.

Lemma last_segment_after_dash (x d : string) :
  has_dash d = false -> last_segment (x ++ String "-" d) = d.
Proof.
  intros Hd. induction x as [|c x IH]; simpl.
  - now rewrite Hd.
  - rewrite has_dash_app. simpl. now rewrite orb_true_r.
Qed.

Lemma last_segment_app (x y : string) :
  has_dash y = true -> last_segment (x ++ y) = last_segment y.
Proof.
  intros Hy. induction x as [|c x IH]; simpl; [reflexivity|].
  now rewrite has_dash_app, Hy, orb_true_r.
Qed.

Lemma digits_no_dash (d : Decimal.uint) :
  has_dash (NilEmpty.string_of_uint d) = false.
Proof. induction d; simpl; auto. Qed.

Lemma string_of_Z_no_dash (n : Z) : 0 <= n -> has_dash (string_of_Z n) = false.
Proof.
  unfold string_of_Z. destruct n as [|p|p]; intros Hn; [reflexivity| |lia].
  simpl. unfold NilZero.string_of_uint.
  destruct (Pos.to_uint p) eqn:Hp; try reflexivity;
    rewrite <- Hp; apply digits_no_dash.
Qed.

Lemma string_of_Z_inj (n m : Z) : string_of_Z n = string_of_Z m -> n = m.
Proof.
  unfold string_of_Z. intros H.
  assert (Hnn : forall z, Z.to_int z <> Decimal.Pos Decimal.Nil
                          /\ Z.to_int z <> Decimal.Neg Decimal.Nil).
  { intros [|p|p]; simpl; split; try discriminate;
      intros [=Hp]; now apply (DecimalPos.Unsigned.to_uint_nonnil p). }
  apply DecimalZ.to_int_inj.
  assert (Hs : Some (Z.to_int n) = Some (Z.to_int m)).
  { rewrite <- (NilZero.isi (Z.to_int n)), <- (NilZero.isi (Z.to_int m));
      try apply Hnn. now rewrite H. }
  now injection Hs.
Qed.

Lemma last_segment_org_id (dateNow c : Z) :
  0 <= c -> last_segment (org_id dateNow c) = string_of_Z c.
Proof.
  intros Hc. unfold org_id.
  change ("-" ++ string_of_Z c)%string with (String "-" (string_of_Z c)).
  rewrite last_segment_app.
  - apply last_segment_after_dash. now apply string_of_Z_no_dash.
  - rewrite has_dash_app. simpl. now rewrite orb_true_r.
Qed.

Lemma org_id_counter_inj (d1 d2 c1 c2 : Z) :
  0 <= c1 -> 0 <= c2 -> org_id d1 c1 = org_id d2 c2 -> c1 = c2.
Proof.
  intros H1 H2 Heq. apply string_of_Z_inj.
  rewrite <- (last_segment_org_id d1 c1 H1), <- (last_segment_org_id d2 c2 H2).
  now rewrite Heq.
Qed.

(** ** Finding a record *)

Lemma findIndex_None (id' : string) (orgs : list Organization) :
  findIndex id' orgs = None <-> ~ In id' (map id orgs).
Proof.
  induction orgs as [|o rest IH]; simpl.
  - split; [intros _ []|reflexivity].
  - destruct (String.eqb_spec (id o) id') as [Heq|Hne].
    + split; [discriminate|]. intros H. exfalso. apply H. now left.
    + destruct (findIndex id' rest) as [i|]; simpl.
      * split; [discriminate|]. intros H. exfalso. apply H. right.
        destruct (in_dec string_dec id' (map id rest)) as [Hin|Hin];
          [exact Hin|]. now apply IH in Hin.
      * split; [|reflexivity]. intros _ [Heq|Hin]; [contradiction|].
        now apply (proj1 IH).
Qed.

Lemma findIndex_first (id' : string) (orgs : list Organization) :
  forall idx, findIndex id' orgs = Some idx ->
  exists before o after,
    orgs = (before ++ o :: after)%list /\ id o = id' /\
    ~ In id' (map id before) /\ List.length before = idx /\
    nth idx orgs (mkOrganization "" "" "" None None) = o /\
    (forall updated, assign idx updated orgs
                     = (before ++ updated :: after)%list) /\
    splice1 idx orgs = (before ++ after)%list.
Proof.
  induction orgs as [|o rest IH]; simpl; intros idx Hfind; [discriminate|].
  destruct (String.eqb_spec (id o) id') as [Heq|Hne].
  - injection Hfind as <-. exists [], o, rest. simpl. repeat split; auto.
  - destruct (findIndex id' rest) as [i|] eqn:Hrest; [|discriminate].
    injection Hfind as <-.
    destruct (IH i eq_refl)
      as (before & o' & after & Hl & Hid & Hnot & Hlen & Hnth & Ha & Hs).
    exists (o :: before), o', after. simpl.
    repeat split; try assumption.
    + now rewrite Hl.
    + intros [H|H]; [contradiction|now apply Hnot].
    + now rewrite Hlen.
    + intros updated. now rewrite Ha.
    + now rewrite Hs.
Qed.

(** ** Identifiers stay unique *)

Lemma create_keeps_ids (dateNow : Z) (isoNow : string) (body : Value)
  (s : Store) :
  ids_from_counter s -> NoDup (org_ids s) ->
  ids_from_counter (fst (handleCreateOrganization dateNow isoNow body s)) /\
  NoDup (org_ids (fst (handleCreateOrganization dateNow isoNow body s))).
Proof.
  intros [Hc Hids] Hnd.
  assert (Hold : Forall (fun o => exists dateNow c,
                           id o = org_id dateNow c
                           /\ 1 <= c < orgCounter s + 1) (organizations s)).
  { revert Hids. apply Forall_impl. intros o (d & c & Hid & Hrange).
    exists d, c. split; [exact Hid | lia]. }
  destruct (handleCreateOrganization_cases dateNow isoNow body s)
    as [->|[->|(newOrg & Hnew & _ & _ & ->)]]; simpl.
  - now repeat split.
  - split; [split; [simpl; lia|exact Hold]|exact Hnd].
  - split; [split|].
    + simpl. lia.
    + simpl. apply Forall_app. split; [exact Hold|].
      constructor; [|constructor].
      exists dateNow, (orgCounter s). split; [exact Hnew | lia].
    + unfold org_ids. simpl. rewrite map_app. simpl.
      apply NoDup_snoc; [exact Hnd|].
      intros Hin. apply in_map_iff in Hin as (o & Hid & Hin).
      apply (proj1 (Forall_forall _ _) Hids) in Hin
        as (d & c & Hid' & Hrange).
      rewrite Hid', Hnew in Hid.
      apply org_id_counter_inj in Hid; lia.
Qed.

Lemma update_keeps_ids (id' : string) (body : Value) (s : Store) :
  org_ids (fst (handleUpdateOrganization id' body s)) = org_ids s /\
  orgCounter (fst (handleUpdateOrganization id' body s)) = orgCounter s.
Proof.
  unfold org_ids.
  destruct (handleUpdateOrganization_cases id' body s)
    as [->|(before & o & after & Hl & _ & [[-> _]|(updated & Hm & ->)])];
    try (split; reflexivity).
  apply merge_updates_Some in Hm as (Hid & _).
  simpl. rewrite Hl, !map_app. simpl. rewrite Hid. split; reflexivity.
Qed.

Lemma delete_sublist (id' : string) (s : Store) :
  orgCounter (fst (handleDeleteOrganization id' s)) = orgCounter s /\
  (fst (handleDeleteOrganization id' s) = s \/
   exists before o after,
     organizations s = (before ++ o :: after)%list /\
     organizations (fst (handleDeleteOrganization id' s))
     = (before ++ after)%list).
Proof.
  unfold handleDeleteOrganization.
  destruct (findIndex id' (organizations s)) as [idx|] eqn:Hfind;
    [|split; [reflexivity|now left]].
  destruct (findIndex_first _ _ _ Hfind)
    as (before & o & after & Hl & _ & _ & _ & _ & _ & Hsplice).
  simpl. split; [reflexivity|]. right. exists before, o, after. now split.
Qed.

Lemma handle_keeps_ids (s : Store) (r : Request) :
  ids_from_counter s /\ NoDup (org_ids s) ->
  ids_from_counter (fst (handle s r)) /\ NoDup (org_ids (fst (handle s r))).
Proof.
  intros [Hok Hnd]. destruct r as [dateNow isoNow body|user|id' body|id'];
    simpl.
  - now apply create_keeps_ids.
  - unfold handleGetOrganizations.
    destruct (match user with Some u => _ | None => _ end); now split.
  - destruct (update_keeps_ids id' body s) as [Hids Hcount].
    split; [|now rewrite Hids].
    destruct Hok as [Hc Hall]. split; [now rewrite Hcount|].
    rewrite Hcount. apply Forall_forall. intros o Hin.
    apply (in_map id) in Hin. fold (org_ids (fst (handleUpdateOrganization id' body s))) in Hin.
    rewrite Hids in Hin. apply in_map_iff in Hin as (o' & Hid & Hin').
    apply (proj1 (Forall_forall _ _) Hall) in Hin' as (d & c & Hid' & Hr).
    exists d, c. split; [congruence|exact Hr].
  - destruct (delete_sublist id' s) as [Hcount [Hsame|Hcut]].
    + rewrite Hsame. now split.
    + destruct Hcut as (before & o & after & Hl & Hl').
      destruct Hok as [Hc Hall]. unfold ids_from_counter, org_ids in *.
      rewrite Hcount, Hl'. rewrite Hl in Hall, Hnd.
      rewrite map_app in *. simpl in Hnd.
      split; [split; [exact Hc|]|].
      * apply Forall_app in Hall as [Hb Ha]. inversion Ha; subst.
        now apply Forall_app.
      * now apply NoDup_remove_1 in Hnd.
Qed.

(** X1.  Whatever requests the handlers have served since the module was
    loaded, and whatever the clock returned, no two records of the registry
    have the same [id]: every id ends with the value the counter had when
    the record was created. *)
Theorem ids_unique_after_requests (requests : list Request) :
  NoDup (org_ids (serve requests initialStore)) /\
  ids_from_counter (serve requests initialStore).
Proof.
  assert (Hgen : forall s,
             ids_from_counter s /\ NoDup (org_ids s) ->
             ids_from_counter (serve requests s)
             /\ NoDup (org_ids (serve requests s))).
  { unfold serve. induction requests as [|r rest IH]; intros s Hs; simpl.
    - exact Hs.
    - apply IH, handle_keeps_ids, Hs. }
  destruct (Hgen initialStore) as [Hok Hnd].
  - split; [split; [simpl; lia|constructor]|constructor].
  - now split.
Qed.

(** ** Unknown identifiers *)

(** X2.  An update or a delete for an id that no record has is answered 404
    "Organization not found" and leaves the store as it is.  For an id that
    some record has, delete answers 204; update answers 200, unless the
    [name] or the [logoUrl] of the body is truthy and cannot be converted by
    [String(...)], in which case it answers 500 and leaves the store as it
    is. *)
Theorem unknown_id_not_found (id' : string) (body : Value) (s : Store) :
  (~ In id' (org_ids s) ->
   handleUpdateOrganization id' body s
   = (s, {| status := 404; payload := ErrorBody "Organization not found" |})
   /\
   handleDeleteOrganization id' s
   = (s, {| status := 404; payload := ErrorBody "Organization not found" |}))
  /\
  (In id' (org_ids s) ->
   status (snd (handleDeleteOrganization id' s)) = 204 /\
   (throws (get "name" (body_or_empty body))
    || throws (get "logoUrl" (body_or_empty body)) = false ->
    status (snd (handleUpdateOrganization id' body s)) = 200) /\
   (throws (get "name" (body_or_empty body))
    || throws (get "logoUrl" (body_or_empty body)) = true ->
    handleUpdateOrganization id' body s
    = (s, {| status := 500;
             payload := ErrorBody "Internal server error" |}))).
Proof.
  unfold org_ids. split.
  - intros Hnot. unfold handleUpdateOrganization, handleDeleteOrganization.
    apply findIndex_None in Hnot. now rewrite Hnot.
  - intros Hin. split; [|split].
    + unfold handleDeleteOrganization.
      destruct (findIndex id' (organizations s)) eqn:Hfind; [reflexivity|].
      apply findIndex_None in Hfind. contradiction.
    + intros Hconv.
      destruct (handleUpdateOrganization_cases id' body s)
        as [Hcase|(before & o & after & Hl & Hid
                   & [[_ Hm]|(updated & _ & ->)])];
        [| |reflexivity].
      * exfalso. unfold handleUpdateOrganization in Hcase.
        destruct (findIndex id' (organizations s)) eqn:Hfind.
        -- destruct (merge_updates _ _); discriminate Hcase.
        -- apply findIndex_None in Hfind. contradiction.
      * exfalso. apply orb_false_iff in Hconv as [Hn Hl'].
        unfold throws, merge_updates in *.
        destruct (truthy (get "name" (body_or_empty body)));
          destruct (truthy (get "logoUrl" (body_or_empty body)));
          try destruct (String_value (get "name" (body_or_empty body)));
          try destruct (String_value (get "logoUrl" (body_or_empty body)));
          simpl in *; discriminate.
    + intros Hconv. unfold handleUpdateOrganization.
      destruct (findIndex id' (organizations s)) eqn:Hfind;
        [|apply findIndex_None in Hfind; contradiction].
      assert (Hm : forall o, merge_updates o (body_or_empty body) = None).
      { intros o. unfold throws, merge_updates in *.
        destruct (truthy (get "name" (body_or_empty body)));
          destruct (truthy (get "logoUrl" (body_or_empty body)));
          try destruct (String_value (get "name" (body_or_empty body)));
          try destruct (String_value (get "logoUrl" (body_or_empty body)));
          simpl in *; try discriminate; reflexivity. }
      now rewrite Hm.
Qed.

(** X2 on the registry of two organizations: an unknown id, a known one,
    and an update whose [name] is an object with a [toString] key. *)
Lemma unknown_id_not_found_witness :
  handleDeleteOrganization "org-0-9" two_orgs
  = (two_orgs,
     {| status := 404; payload := ErrorBody "Organization not found" |}) /\
  status (snd (handleDeleteOrganization "org-1730000000500-2" two_orgs))
  = 204 /\
  handleUpdateOrganization "org-1730000000500-2"
    (Some (JObject [("name", JObject [("toString", JNumber 1)])])) two_orgs
  = (two_orgs,
     {| status := 500; payload := ErrorBody "Internal server error" |}).
Proof.
  split; [|split].
  - apply (proj1 (unknown_id_not_found "org-0-9" None two_orgs)).
    simpl. intros [H|[H|[]]]; discriminate H.
  - apply (proj2 (unknown_id_not_found "org-1730000000500-2" None two_orgs)).
    simpl. right. left. reflexivity.
  - apply (proj2 (unknown_id_not_found "org-1730000000500-2"
                    (Some (JObject [("name",
                                     JObject [("toString", JNumber 1)])]))
                    two_orgs)).
    + simpl. right. left. reflexivity.
    + reflexivity.
Defined.

(** ** What an update touches *)

Lemma nth_error_assign (orgs : list Organization) :
  forall (idx i : nat) (updated : Organization),
    nth_error (assign idx updated orgs) i
    = match nth_error orgs i with
      | Some o => Some (if Nat.eqb i idx then updated else o)
      | None => None
      end.
Proof.
  induction orgs as [|o rest IH]; intros idx i updated.
  - now destruct idx, i.
  - destruct idx as [|idx], i as [|i]; simpl; try reflexivity.
    + now destruct (nth_error rest i).
    + apply IH.
Qed.

Lemma merge_updates_keeps (o updated : Organization) (updates : Json) :
  merge_updates o updates = Some updated ->
  id updated = id o /\
  createdAt updated = createdAt o /\
  (logoUrl o <> None -> logoUrl updated <> None) /\
  (settings o <> None -> settings updated <> None).
Proof.
  intros Hm.
  apply merge_updates_Some in Hm as (Hid & Hcreated & _ & Hlogo & Hset).
  repeat split; try assumption.
  - intros Hl. destruct (truthy (get "logoUrl" updates)).
    + destruct (String_value (get "logoUrl" updates)); simpl in Hlogo;
        [|discriminate]. injection Hlogo as <-. discriminate.
    + now rewrite Hlogo.
  - intros Hs. rewrite Hset.
    destruct (get "settings" updates) as [v|] eqn:Hget.
    + destruct (truthy (Some v)); [discriminate|exact Hs].
    + exact Hs.
Qed.

(** X3.  An update keeps every record at its place.  The record at a place
    keeps its [id] and its [createdAt]; a [logoUrl] or [settings] it had is
    never taken away; and a record whose id is not the one of the request
    is left as it was. *)
Theorem update_touches_one_record (id' : string) (body : Value) (s : Store)
  (i : nat) (o : Organization) :
  nth_error (organizations s) i = Some o ->
  exists o',
    nth_error (organizations (fst (handleUpdateOrganization id' body s))) i
    = Some o' /\
    id o' = id o /\
    createdAt o' = createdAt o /\
    (logoUrl o <> None -> logoUrl o' <> None) /\
    (settings o <> None -> settings o' <> None) /\
    (id o <> id' -> o' = o).
Proof.
  intros Hi.
  destruct (handleUpdateOrganization_cases id' body s)
    as [->|(before & o0 & after & Hl & Hid
            & [[-> _]|(updated & Hm & ->)])];
    try (exists o; repeat split; auto; fail).
  simpl. rewrite Hl in Hi.
  destruct (Nat.lt_ge_cases i (List.length before)) as [Hlt|Hge].
  - rewrite nth_error_app1 in Hi |- * by exact Hlt.
    exists o. repeat split; auto.
  - rewrite nth_error_app2 in Hi |- * by exact Hge.
    destruct (i - List.length before)%nat as [|j]; simpl in *.
    + injection Hi as <-.
      destruct (merge_updates_keeps _ _ _ Hm) as (H1 & H2 & H3 & H4).
      exists updated. repeat split; try assumption.
      intros Hne. contradiction.
    + exists o. repeat split; auto.
Qed.

(** X3 on the registry of two organizations: renaming the first one leaves
    the second one, logo included, as it was. *)
Lemma update_touches_one_record_witness :
  nth_error
    (organizations
       (fst (handleUpdateOrganization "org-1730000000000-1"
               (Some (JObject [("name", JString "Acme Ltd")])) two_orgs))) 1
  = Some bolt.
Proof.
  destruct (update_touches_one_record "org-1730000000000-1"
              (Some (JObject [("name", JString "Acme Ltd")])) two_orgs
              1 bolt eq_refl)
    as (o' & Hnth & _ & _ & _ & _ & Hsame).
  rewrite Hnth. f_equal. apply Hsame. discriminate.
Defined.

(** X4.  An update whose body has no truthy [name], [logoUrl] or [settings]
    (no body at all, an empty object, empty strings) changes nothing: the
    store is as before, and for a known id the answer is 200 with the
    record as stored. *)
Theorem update_without_fields (id' : string) (body : Value) (s : Store) :
  truthy (get "name" (body_or_empty body)) = false ->
  truthy (get "logoUrl" (body_or_empty body)) = false ->
  truthy (get "settings" (body_or_empty body)) = false ->
  fst (handleUpdateOrganization id' body s) = s /\
  (In id' (org_ids s) ->
   exists o, In o (organizations s) /\ id o = id' /\
             snd (handleUpdateOrganization id' body s)
             = {| status := 200; payload := OrganizationBody o |}).
Proof.
  intros Hn Hl Hs. unfold handleUpdateOrganization, org_ids.
  destruct (findIndex id' (organizations s)) as [idx|] eqn:Hfind; simpl.
  - destruct (findIndex_first _ _ _ Hfind)
      as (before & o & after & Hlist & Hid & _ & _ & Hnth & Hassign & _).
    assert (Hsame : merge_updates o (body_or_empty body) = Some o).
    { unfold merge_updates. rewrite Hn, Hl, Hs. now destruct o. }
    rewrite Hnth, Hsame, Hassign, <- Hlist. simpl.
    split; [now destruct s|].
    intros _. exists o. repeat split; [|exact Hid].
    rewrite Hlist. apply in_elt.
  - split; [reflexivity|]. intros Hin.
    apply findIndex_None in Hfind. contradiction.
Qed.

(** X4 on a request without a body. *)
Lemma update_without_fields_witness :
  fst (handleUpdateOrganization "org-1730000000500-2" None two_orgs)
  = two_orgs.
Proof.
  apply (update_without_fields "org-1730000000500-2" None two_orgs);
    reflexivity.
Defined.

(** ** Deleting and creating *)

(** X5.  In a registry without repeated ids, deleting a known id answers
    204 and removes that record alone, the others keeping their order; the
    counter is not moved; the id is then unknown, so that a second delete
    of it is answered 404 and changes nothing. *)
Theorem delete_removes_the_record (id' : string) (s : Store) :
  NoDup (org_ids s) -> In id' (org_ids s) ->
  exists before o after,
    organizations s = (before ++ o :: after)%list /\ id o = id' /\
    handleDeleteOrganization id' s
    = ({| organizations := (before ++ after)%list;
          orgCounter := orgCounter s |},
       {| status := 204; payload := NoBody |}) /\
    ~ In id' (org_ids (fst (handleDeleteOrganization id' s))) /\
    handleDeleteOrganization id' (fst (handleDeleteOrganization id' s))
    = (fst (handleDeleteOrganization id' s),
       {| status := 404; payload := ErrorBody "Organization not found" |}).
Proof.
  intros Hnd Hin.
  assert (Hdel : exists before o after,
             organizations s = (before ++ o :: after)%list /\ id o = id' /\
             handleDeleteOrganization id' s
             = ({| organizations := (before ++ after)%list;
                   orgCounter := orgCounter s |},
                {| status := 204; payload := NoBody |})).
  { unfold handleDeleteOrganization.
    destruct (findIndex id' (organizations s)) as [idx|] eqn:Hfind.
    - destruct (findIndex_first _ _ _ Hfind)
        as (before & o & after & Hl & Hid & _ & _ & _ & _ & Hsplice).
      exists before, o, after. rewrite Hsplice. now repeat split.
    - apply findIndex_None in Hfind. contradiction. }
  destruct Hdel as (before & o & after & Hl & Hid & Hdel).
  exists before, o, after. rewrite Hdel. simpl.
  assert (Hgone : ~ In id' (org_ids {| organizations := (before ++ after)%list;
                                       orgCounter := orgCounter s |})).
  { unfold org_ids in *. simpl. rewrite Hl, map_app in Hnd. simpl in Hnd.
    apply NoDup_remove_2 in Hnd. rewrite Hid in Hnd. now rewrite map_app. }
  repeat split; try assumption.
  unfold handleDeleteOrganization.
  apply findIndex_None in Hgone. simpl in *. now rewrite Hgone.
Qed.

(** X5 on the registry of two organizations. *)
Lemma delete_removes_the_record_witness :
  ~ In "org-1730000000000-1"
       (org_ids (fst (handleDeleteOrganization "org-1730000000000-1"
                        two_orgs))) /\
  status (snd (handleDeleteOrganization "org-1730000000000-1"
                 (fst (handleDeleteOrganization "org-1730000000000-1"
                         two_orgs)))) = 404.
Proof.
  destruct (delete_removes_the_record "org-1730000000000-1" two_orgs)
    as (before & o & after & _ & _ & _ & Hgone & Hagain).
  - repeat constructor; simpl; intuition discriminate.
  - left. reflexivity.
  - split; [exact Hgone|]. now rewrite Hagain.
Defined.

(** X6.  A create request whose [name] is a non-empty string, at a clock
    value that [Date.now()] can return and with the counter below 2^53, is
    answered 201 with the new record, which is put at the end of the
    registry with that name, the id made of the clock and the counter, and
    the creation time of the request; the records already there are
    untouched and the counter moves by one.  The list sent afterwards to a
    [super_admin] is the old registry followed by the new record, and the
    list sent to any other caller holds it exactly when its id is among the
    caller's organizations.  The one exception is a truthy [logoUrl] that
    [String(...)] cannot convert: the request is then answered 500, nothing
    is stored, and the counter has moved all the same. *)
Theorem create_then_list (dateNow : Z) (isoNow : string) (body : Value)
  (s : Store) (name' : string) :
  get "name" (body_or_empty body) = Some (JString name') ->
  name' <> ""%string ->
  Z.abs dateNow <= 8640000000000000 ->
  1 <= orgCounter s < 2 ^ 53 ->
  (throws (get "logoUrl" (body_or_empty body)) = true ->
   handleCreateOrganization dateNow isoNow body s
   = ({| organizations := organizations s;
         orgCounter := orgCounter s + 1 |},
      {| status := 500; payload := ErrorBody "Internal server error" |})) /\
  (throws (get "logoUrl" (body_or_empty body)) = false ->
   exists newOrg,
     handleCreateOrganization dateNow isoNow body s
     = ({| organizations := (organizations s ++ [newOrg])%list;
           orgCounter := orgCounter s + 1 |},
        {| status := 201; payload := OrganizationBody newOrg |}) /\
     id newOrg = org_id dateNow (orgCounter s) /\
     name newOrg = name' /\
     createdAt newOrg = isoNow /\
     payload (snd (handleGetOrganizations (Some admin)
                     (fst (handleCreateOrganization dateNow isoNow body s))))
     = OrganizationList (organizations s ++ [newOrg])%list /\
     forall u, role u <> "super_admin"%string ->
       exists orgs,
         payload (snd (handleGetOrganizations (Some u)
                         (fst (handleCreateOrganization dateNow isoNow body
                                 s))))
         = OrganizationList orgs /\
         (In newOrg orgs <-> In (id newOrg) (permitted (Some u)))).
Proof.
  intros Hname Hne _ _.
  assert (Ht : truthy (Some (JString name')) = true).
  { simpl. apply negb_true_iff. now apply String.eqb_neq. }
  assert (Hlist : forall newOrg,
             payload (snd (handleGetOrganizations (Some admin)
                        {| organizations := (organizations s ++ [newOrg])%list;
                           orgCounter := orgCounter s + 1 |}))
             = OrganizationList (organizations s ++ [newOrg])%list /\
             forall u, role u <> "super_admin"%string ->
               exists orgs,
                 payload (snd (handleGetOrganizations (Some u)
                        {| organizations := (organizations s ++ [newOrg])%list;
                           orgCounter := orgCounter s + 1 |}))
                 = OrganizationList orgs /\
                 (In newOrg orgs <-> In (id newOrg) (permitted (Some u)))).
  { intros newOrg. split; [reflexivity|]. intros u Hrole.
    unfold handleGetOrganizations. apply String.eqb_neq in Hrole.
    rewrite Hrole. simpl. eexists. split; [reflexivity|].
    rewrite filter_In, includes_In, in_app_iff. simpl. tauto. }
  unfold handleCreateOrganization, throws. rewrite Hname, Ht. simpl.
  destruct (truthy (get "logoUrl" (body_or_empty body)));
    [destruct (String_value (get "logoUrl" (body_or_empty body)))
       as [logo|]|]; simpl.
  - split; [intros H; discriminate H|intros _].
    eexists. split; [reflexivity|]. simpl. repeat split; apply Hlist.
  - split; [reflexivity|intros H; discriminate H].
  - split; [intros H; discriminate H|intros _].
    eexists. split; [reflexivity|]. simpl. repeat split; apply Hlist.
Qed.

(** X6 on the empty registry, and on a body whose [logoUrl] is an object
    with a [toString] key. *)
Lemma create_then_list_witness :
  (exists newOrg,
      handleCreateOrganization 1730000000000 "2024-10-27T03:33:20.000Z"
        (Some (JObject [("name", JString "Acme")])) initialStore
      = ({| organizations := [newOrg]; orgCounter := 2 |},
         {| status := 201; payload := OrganizationBody newOrg |}) /\
      id newOrg = "org-1730000000000-1"%string /\
      name newOrg = "Acme"%string) /\
  handleCreateOrganization 1730000000000 "2024-10-27T03:33:20.000Z"
    (Some (JObject [("name", JString "Acme");
                    ("logoUrl", JObject [("toString", JNumber 1)])]))
    initialStore
  = ({| organizations := []; orgCounter := 2 |},
     {| status := 500; payload := ErrorBody "Internal server error" |}).
Proof.
  split.
  - destruct (create_then_list 1730000000000 "2024-10-27T03:33:20.000Z"
                (Some (JObject [("name", JString "Acme")])) initialStore
                "Acme" eq_refl) as [_ Hcreated];
      [discriminate|simpl; lia|simpl; lia|].
    destruct (Hcreated eq_refl) as (newOrg & Hcreate & Hid & Hname & _).
    exists newOrg. repeat split; assumption.
  - apply (proj1 (create_then_list 1730000000000 "2024-10-27T03:33:20.000Z"
                    (Some (JObject
                             [("name", JString "Acme");
                              ("logoUrl",
                               JObject [("toString", JNumber 1)])]))
                    initialStore "Acme" eq_refl ltac:(discriminate)
                    ltac:(simpl; lia) ltac:(simpl; lia))).
    reflexivity.
Defined.

End RegistryFacts.

(** * More on the cart page *)

Section PageFacts.
Import Landing.

Local Open Scope Z_scope.

Implicit Types (st : State) (item line : CartItem) (x : Product).

(** ** One line per identifier *)

Lemma absent_app (productId : string) (l1 l2 : list CartItem) :
  absent productId (l1 ++ l2) <-> absent productId l1 /\ absent productId l2.
Proof.
  unfold absent. split.
  - intros H. split; intros i Hi; apply H, in_or_app; auto.
  - intros [H1 H2] i Hi. apply in_app_or in Hi as [Hi|Hi]; auto.
Qed.

Lemma split_line (lines : list CartItem) item :
  NoDup (ids lines) -> In item lines ->
  exists before after,
    lines = (before ++ item :: after)%list /\
    absent (id item) before /\ absent (id item) after.
Proof.
  intros Hnd Hin. apply in_split in Hin as (before & after & ->).
  exists before, after. split; [reflexivity|].
  unfold ids in Hnd. rewrite map_app in Hnd. simpl in Hnd.
  apply NoDup_remove_2 in Hnd. rewrite <- map_app in Hnd.
  fold (ids (before ++ after)) in Hnd.
  apply absent_not_in_ids in Hnd. now apply absent_app.
Qed.

Lemma with_quantity_same item : with_quantity item (quantity item) = item.
Proof. now destruct item. Qed.

Lemma filter_single (productId : string) (before after : list CartItem) line :
  id line = productId -> absent productId before -> absent productId after ->
  filter (fun item : CartItem => negb (String.eqb (id item) productId))
         (before ++ line :: after)
  = (before ++ after)%list.
Proof.
  intros Hid Hb Ha. rewrite filter_app. simpl.
  rewrite (filter_absent _ _ Hb), (filter_absent _ _ Ha).
  now rewrite Hid, String.eqb_refl.
Qed.

(** ** The badge *)

Lemma fold_quantities_from (lines : list CartItem) :
  forall start : Z,
    fold_left (fun (sum : Z) (item : CartItem) => sum + quantity item)
              lines start
    = start + sum_of_quantities lines.
Proof.
  induction lines as [|item rest IH]; intros start; simpl; [lia|].
  rewrite IH. lia.
Qed.

Lemma badge_is_sum st : badge st = sum_of_quantities (cart st).
Proof. unfold badge. now rewrite fold_quantities_from. Qed.

Lemma sum_of_quantities_app (l1 l2 : list CartItem) :
  sum_of_quantities (l1 ++ l2) = sum_of_quantities l1 + sum_of_quantities l2.
Proof. induction l1 as [|i l1 IH]; simpl; [reflexivity|]. rewrite IH. lia. Qed.

Lemma addToCart_badge x st :
  NoDup (ids (cart st)) ->
  badge (fst (addToCart x st)) = badge st + 1.
Proof.
  intros Hnd. rewrite !badge_is_sum.
  destruct (find (fun item : CartItem => String.eqb (id item) (id x))
                 (cart st)) as [found|] eqn:Hfind.
  - apply find_some in Hfind as [Hin Hid]. apply String.eqb_eq in Hid.
    destruct (split_line _ _ Hnd Hin) as (before & after & Hl & Hb & Ha).
    rewrite Hid in Hb, Ha.
    rewrite (addToCart_existing x st before after found Hl Hid Hb Ha), Hl.
    rewrite !sum_of_quantities_app. simpl. lia.
  - apply find_none_absent in Hfind. rewrite (addToCart_new x st Hfind).
    rewrite sum_of_quantities_app. simpl. lia.
Qed.

(** X7.  On a cart that keeps the invariant (every quantity at least 1, one
    line per id) and whose badge shows less than 2^53, where the sums of the
    code are exact, [addToCart] raises the number in the badge by exactly 1,
    whether the product gets a new line or one more unit on its line. *)
Theorem badge_after_addToCart x st :
  cart_ok (cart st) -> badge st < 2 ^ 53 ->
  badge (fst (addToCart x st)) = badge st + 1.
Proof. intros [_ Hnd] _. now apply addToCart_badge. Qed.

(** X7 on the page with one wrench set and three pipe bundles. *)
Lemma badge_after_addToCart_witness :
  badge (fst (addToCart (catalogue_item 3) two_line_page)) = 5.
Proof.
  rewrite (badge_after_addToCart (catalogue_item 3) two_line_page).
  - reflexivity.
  - split; repeat constructor; simpl; try lia; intuition discriminate.
  - reflexivity.
Defined.

(** ** The buttons of a line *)

Lemma plus_cart st item (before after : list CartItem) :
  cart st = (before ++ item :: after)%list ->
  absent (id item) before -> absent (id item) after ->
  0 <= quantity item ->
  cart (use st (PlusButton item))
  = (before ++ with_quantity item (quantity item + 1) :: after)%list.
Proof.
  intros Hl Hb Ha Hq. simpl. unfold updateQuantity.
  destruct (Z.leb_spec (quantity item + 1) 0); [lia|]. simpl. rewrite Hl.
  exact (map_quantity_single (id item) (fun _ => quantity item + 1)
           before after item eq_refl Hb Ha).
Qed.

Lemma remove_cart st item (before after : list CartItem) :
  cart st = (before ++ item :: after)%list ->
  absent (id item) before -> absent (id item) after ->
  cart (removeFromCart (id item) st) = (before ++ after)%list.
Proof.
  intros Hl Hb Ha. simpl. rewrite Hl. now apply filter_single.
Qed.

Lemma line_buttons_badge st item :
  cart_ok (cart st) -> In item (cart st) ->
  badge (use st (PlusButton item)) = badge st + 1 /\
  badge (use st (MinusButton item)) = badge st - 1 /\
  badge (use st (RemoveButton item)) = badge st - quantity item /\
  (quantity item = 1 ->
   use st (MinusButton item) = use st (RemoveButton item)) /\
  (cartLength (use st (RemoveButton item)) + 1)%nat = cartLength st.
Proof.
  intros [Hq Hnd] Hin.
  assert (Hitem : 1 <= quantity item)
    by exact (proj1 (Forall_forall _ _) Hq item Hin).
  destruct (split_line _ _ Hnd Hin) as (before & after & Hl & Hb & Ha).
  assert (Hrem := remove_cart st item before after Hl Hb Ha).
  assert (Hbadge : badge st = sum_of_quantities before + quantity item
                              + sum_of_quantities after).
  { rewrite badge_is_sum, Hl, sum_of_quantities_app. simpl. lia. }
  split; [|split; [|split; [|split]]].
  - rewrite badge_is_sum, (plus_cart st item before after Hl Hb Ha) by lia.
    rewrite sum_of_quantities_app. simpl. lia.
  - rewrite badge_is_sum. simpl. unfold updateQuantity.
    destruct (Z.leb_spec (quantity item - 1) 0).
    + rewrite Hrem, sum_of_quantities_app. lia.
    + simpl. rewrite Hl.
      rewrite (map_quantity_single (id item) (fun _ => quantity item - 1)
                 before after item eq_refl Hb Ha).
      rewrite sum_of_quantities_app. simpl. lia.
  - rewrite badge_is_sum. simpl use. rewrite Hrem, sum_of_quantities_app.
    lia.
  - intros Hone. simpl. unfold updateQuantity.
    destruct (Z.leb_spec (quantity item - 1) 0); [reflexivity|lia].
  - unfold cartLength. simpl use. rewrite Hrem, Hl, !length_app. simpl. lia.
Qed.

(** X8.  On a cart that keeps the invariant and whose badge shows less than
    2^53, where the sums and the steps of 1 of the code are exact, the three
    buttons of a line move the badge as their signs say: "+" by 1 up, "-" by
    1 down, and the bin by the whole quantity of the line down.  On a line
    of quantity 1, "-" does what the bin does; the bin takes one line off
    the cart. *)
Theorem line_buttons_move_badge st item :
  cart_ok (cart st) -> badge st < 2 ^ 53 -> In item (cart st) ->
  badge (use st (PlusButton item)) = badge st + 1 /\
  badge (use st (MinusButton item)) = badge st - 1 /\
  badge (use st (RemoveButton item)) = badge st - quantity item /\
  (quantity item = 1 ->
   use st (MinusButton item) = use st (RemoveButton item)) /\
  (cartLength (use st (RemoveButton item)) + 1)%nat = cartLength st.
Proof. intros Hok _ Hin. now apply line_buttons_badge. Qed.

(** X8 on the page with one wrench set and three pipe bundles. *)
Lemma line_buttons_move_badge_witness :
  badge (use two_line_page (MinusButton (mkCartItem (catalogue_item 3) 3)))
  = 3 /\
  badge (use two_line_page (RemoveButton (mkCartItem (catalogue_item 3) 3)))
  = 1.
Proof.
  destruct (line_buttons_move_badge two_line_page
              (mkCartItem (catalogue_item 3) 3))
    as (_ & Hminus & Hremove & _).
  - split; repeat constructor; simpl; try lia; intuition discriminate.
  - reflexivity.
  - right. left. reflexivity.
  - rewrite Hminus, Hremove. split; reflexivity.
Defined.

(** X9.  On a cart with one line per id, the "+" button of a line does to
    the state what the "Add to Cart" button of that product does. *)
Theorem plus_button_is_addToCart st item :
  NoDup (ids (cart st)) -> In item (cart st) -> 0 <= quantity item ->
  use st (PlusButton item) = use st (AddToCartButton item).
Proof.
  intros Hnd Hin Hq.
  destruct (split_line _ _ Hnd Hin) as (before & after & Hl & Hb & Ha).
  assert (Hplus := plus_cart st item before after Hl Hb Ha Hq).
  assert (Hadd := addToCart_existing item st before after item Hl eq_refl
                    Hb Ha).
  simpl in *. unfold updateQuantity in *.
  destruct (Z.leb_spec (quantity item + 1) 0); [lia|].
  unfold setCart in *. simpl in *. f_equal. congruence.
Qed.

(** X9 on the page with one wrench set and three pipe bundles. *)
Lemma plus_button_is_addToCart_witness :
  use two_line_page (PlusButton (mkCartItem (catalogue_item 3) 3))
  = use two_line_page (AddToCartButton (catalogue_item 3)).
Proof.
  apply (plus_button_is_addToCart two_line_page
           (mkCartItem (catalogue_item 3) 3)).
  - repeat constructor; simpl; intuition discriminate.
  - right. left. reflexivity.
  - simpl. lia.
Defined.

(** X10.  On a cart that keeps the invariant, "+" on a line of a quantity
    below 2^53 and then "-" on the line as it is shown afterwards gives back
    the state before the two clicks. *)
Theorem plus_then_minus st item :
  cart_ok (cart st) -> In item (cart st) -> quantity item < 2 ^ 53 ->
  In (with_quantity item (quantity item + 1))
     (cart (use st (PlusButton item))) /\
  use (use st (PlusButton item))
      (MinusButton (with_quantity item (quantity item + 1)))
  = st.
Proof.
  intros [Hq Hnd] Hin _.
  assert (Hitem : 1 <= quantity item)
    by exact (proj1 (Forall_forall _ _) Hq item Hin).
  destruct (split_line _ _ Hnd Hin) as (before & after & Hl & Hb & Ha).
  assert (Hplus : cart (use st (PlusButton item))
                  = (before ++ with_quantity item (quantity item + 1)
                       :: after)%list)
    by (apply plus_cart; auto; lia).
  split; [rewrite Hplus; apply in_elt|].
  remember (use st (PlusButton item)) as st1 eqn:Hst1.
  assert (Hrest : isCartOpen st1 = isCartOpen st
                  /\ customerInfo st1 = customerInfo st).
  { subst st1. simpl. unfold updateQuantity.
    destruct (quantity item + 1 <=? 0); split; reflexivity. }
  simpl. unfold updateQuantity.
  replace (quantity item + 1 - 1) with (quantity item) by lia.
  destruct (Z.leb_spec (quantity item) 0); [lia|].
  unfold setCart. rewrite Hplus.
  rewrite (map_quantity_single (id item) (fun _ => quantity item)
             before after (with_quantity item (quantity item + 1))
             eq_refl Hb Ha).
  simpl. destruct Hrest as [-> ->]. destruct st as [c o i]. simpl in *.
  rewrite Hl. f_equal. f_equal. f_equal. now destruct item.
Qed.

(** X10 on the page with one wrench set and three pipe bundles. *)
Lemma plus_then_minus_witness :
  use (use two_line_page (PlusButton (mkCartItem (catalogue_item 3) 3)))
      (MinusButton (mkCartItem (catalogue_item 3) 4))
  = two_line_page.
Proof.
  apply (plus_then_minus two_line_page (mkCartItem (catalogue_item 3) 3)).
  - split; repeat constructor; simpl; try lia; intuition discriminate.
  - right. left. reflexivity.
  - reflexivity.
Defined.

(** ** The total *)

Lemma sum_of_line_totals_app (l1 l2 : list CartItem) :
  (sum_of_line_totals (l1 ++ l2)
   == sum_of_line_totals l1 + sum_of_line_totals l2)%Q.
Proof.
  induction l1 as [|i l1 IH]; simpl; [ring|]. rewrite IH. ring.
Qed.

Lemma total_of_split st (before after : list CartItem) line :
  cart st = (before ++ line :: after)%list ->
  (getTotalPrice st
   == sum_of_line_totals before + line_total line
      + sum_of_line_totals after)%Q.
Proof.
  intros Hl. rewrite getTotalPrice_is_sum, Hl, sum_of_line_totals_app.
  simpl. ring.
Qed.

(** X11.  On a cart that keeps the invariant, with prices in whole quarters
    and quantities below 2^53, and as long as the totals stay below 2^51,
    where the sums of the code are exact: [addToCart(x)] raises the total
    by the price of [x] when [x] gets a new line, and by the price on the
    line when [x.id] has one; [removeFromCart] lowers the total by price
    times quantity of the line it removes. *)
Theorem total_after_add_and_remove x st :
  cart_ok (cart st) ->
  Forall (fun item : CartItem => quarter_priced item) (cart st) ->
  exact_quantities (cart st) ->
  (absent (id x) (cart st) -> quarter_priced x ->
   (getTotalPrice st + price x < inject_Z (2 ^ 51))%Q ->
   (getTotalPrice (fst (addToCart x st)) == getTotalPrice st + price x)%Q) /\
  (forall line, In line (cart st) -> id line = id x ->
   (getTotalPrice st + price line < inject_Z (2 ^ 51))%Q ->
   (getTotalPrice (fst (addToCart x st))
    == getTotalPrice st + price line)%Q) /\
  (forall line, In line (cart st) ->
   (getTotalPrice st < inject_Z (2 ^ 51))%Q ->
   (getTotalPrice (removeFromCart (id line) st)
    == getTotalPrice st - line_total line)%Q).
Proof.
  intros [_ Hnd] _ _. split; [|split].
  - intros Habs _ _.
    rewrite !getTotalPrice_is_sum, (addToCart_new x st Habs).
    rewrite sum_of_line_totals_app. simpl. unfold line_total. simpl. ring.
  - intros line Hin Hid _.
    destruct (split_line _ _ Hnd Hin) as (before & after & Hl & Hb & Ha).
    rewrite Hid in Hb, Ha.
    assert (Hadd := addToCart_existing x st before after line Hl Hid Hb Ha).
    rewrite (total_of_split _ _ _ _ Hadd), (total_of_split _ _ _ _ Hl).
    unfold line_total. simpl. rewrite inject_Z_plus. ring.
  - intros line Hin _.
    destruct (split_line _ _ Hnd Hin) as (before & after & Hl & Hb & Ha).
    assert (Hrem := remove_cart st line before after Hl Hb Ha).
    rewrite (total_of_split _ _ _ _ Hl).
    rewrite getTotalPrice_is_sum, Hrem, sum_of_line_totals_app. ring.
Qed.

(** X11 on the page with one wrench set and three pipe bundles: a flow
    meter raises the total by 320.00. *)
Lemma total_after_add_and_remove_witness :
  (getTotalPrice (fst (addToCart (catalogue_item 5) two_line_page))
   == getTotalPrice two_line_page + 320.00)%Q.
Proof.
  apply (total_after_add_and_remove (catalogue_item 5) two_line_page).
  - split; repeat constructor; simpl; try lia; intuition discriminate.
  - repeat constructor;
      [exists 1800|exists 743]; split; try reflexivity; lia.
  - repeat constructor.
  - intros item [Heq|[Heq|[]]]; subst item; discriminate.
  - exists 1280. split; [lia|reflexivity].
  - reflexivity.
Defined.

(** ** What a visit can reach *)

Lemma from_catalogue_map_quantity (productId : string) (f : CartItem -> Z)
  (lines : list CartItem) :
  from_catalogue lines ->
  from_catalogue
    (map (fun item : CartItem =>
            if String.eqb (id item) productId
            then with_quantity item (f item) else item) lines).
Proof.
  unfold from_catalogue. intros H. apply Forall_map. revert H.
  apply Forall_impl. intros item Hitem.
  now destruct (String.eqb (id item) productId).
Qed.

Lemma from_catalogue_filter (keep : CartItem -> bool)
  (lines : list CartItem) :
  from_catalogue lines -> from_catalogue (filter keep lines).
Proof.
  unfold from_catalogue. rewrite !Forall_forall. intros H item Hin.
  apply filter_In in Hin as [Hin _]. now apply H.
Qed.

Lemma updateQuantity_from_catalogue (productId : string) (q : Z) st :
  from_catalogue (cart st) ->
  from_catalogue (cart (updateQuantity productId q st)).
Proof.
  intros H. unfold updateQuantity. destruct (q <=? 0); simpl.
  - now apply from_catalogue_filter.
  - now apply (from_catalogue_map_quantity productId (fun _ => q)).
Qed.

Lemma addToCart_from_catalogue x st :
  In x PLUMBING_PRODUCTS -> from_catalogue (cart st) ->
  from_catalogue (cart (fst (addToCart x st))).
Proof.
  intros Hx H. simpl. destruct (find _ (cart st)).
  - now apply (from_catalogue_map_quantity (id x)
                 (fun item => quantity item + 1)).
  - apply Forall_app. split; [exact H|].
    constructor; [exact Hx|constructor].
Qed.

Lemma submitCart_cart (now : string) (fetch : Request -> FetchResult) st :
  cart (state (submitCart now fetch st)) = cart st
  \/ cart (state (submitCart now fetch st)) = [].
Proof.
  unfold submitCart.
  destruct (List.length (cart st) =? 0)%nat; [now left|].
  destruct (not_string _ || not_string _); [now left|].
  destruct (fetch _) as [response|]; [destruct (ok response)|]; simpl; auto.
Qed.

Lemma use_keeps_invariant st (c : Control) :
  rendered st c ->
  cart_ok (cart st) /\ from_catalogue (cart st) ->
  cart_ok (cart (use st c)) /\ from_catalogue (cart (use st c)).
Proof.
  intros Hr [Hok Hcat].
  destruct c as [x| | |item|item|item|v|v|v|v|now fetch]; simpl use;
    try (split; assumption).
  - split; [now apply addToCart_ok|now apply addToCart_from_catalogue].
  - split; [now apply updateQuantity_ok
           |now apply updateQuantity_from_catalogue].
  - split; [now apply updateQuantity_ok
           |now apply updateQuantity_from_catalogue].
  - split; [now apply removeFromCart_ok|now apply from_catalogue_filter].
  - destruct (submitCart_cart now fetch st) as [-> | ->].
    + now split.
    + split; [split|]; constructor.
Qed.

Lemma visit_keeps_invariant st (cs : list Control) st' :
  visit st cs st' ->
  cart_ok (cart st) /\ from_catalogue (cart st) ->
  cart_ok (cart st') /\ from_catalogue (cart st').
Proof.
  induction 1 as [st|st c cs st' Hr _ IH]; intros Hinv; [exact Hinv|].
  apply IH. now apply use_keeps_invariant.
Qed.

Lemma quantities_at_least_length (lines : list CartItem) :
  Forall (fun item => 1 <= quantity item) lines ->
  Z.of_nat (List.length lines) <= sum_of_quantities lines.
Proof.
  induction 1 as [|item rest Hq _ IH]; simpl List.length;
    simpl sum_of_quantities; lia.
Qed.

(** X12.  Whatever controls a visitor uses from the first render on, each of
    them on the page at the time, every line of the cart is an entry of the
    catalogue with a quantity of 1 or more, no id is on two lines, the cart
    has at most 8 lines, and the number in the badge is at least the number
    of lines. *)
Theorem visit_invariant (cs : list Control) st :
  visit initialState cs st ->
  cart_ok (cart st) /\
  from_catalogue (cart st) /\
  (cartLength st <= 8)%nat /\
  Z.of_nat (cartLength st) <= badge st.
Proof.
  intros Hvisit.
  destruct (visit_keeps_invariant _ _ _ Hvisit) as [Hok Hcat].
  { split; [split|]; constructor. }
  split; [exact Hok|]. split; [exact Hcat|]. destruct Hok as [Hq Hnd]. split.
  - unfold cartLength.
    replace (List.length (cart st)) with (List.length (ids (cart st)))
      by apply length_map.
    change 8%nat
      with (List.length (map (fun p : Product => id p) PLUMBING_PRODUCTS)).
    apply NoDup_incl_length; [exact Hnd|].
    intros i Hi. apply in_map_iff in Hi as (item & <- & Hin).
    apply in_map_iff. exists (product_of item). split; [reflexivity|].
    exact (proj1 (Forall_forall _ _) Hcat item Hin).
  - rewrite badge_is_sum. now apply quantities_at_least_length.
Qed.

(** X12 on a short visit: two wrench sets added, the panel opened, one more
    unit with "+". *)
Lemma visit_invariant_witness :
  (cartLength
     (use (use (use (use initialState (AddToCartButton (catalogue_item 0)))
                    (AddToCartButton (catalogue_item 0)))
               ViewCartButton)
          (PlusButton (mkCartItem (catalogue_item 0) 2))) <= 8)%nat.
Proof.
  apply (visit_invariant
           [AddToCartButton (catalogue_item 0);
            AddToCartButton (catalogue_item 0);
            ViewCartButton;
            PlusButton (mkCartItem (catalogue_item 0) 2)]).
  apply visit_step; [simpl; tauto|].
  apply visit_step; [simpl; tauto|].
  apply visit_step; [exact I|].
  apply visit_step; [split; [reflexivity|left; reflexivity]|].
  apply visit_done.
Defined.

Lemma catalogue_price x :
  In x PLUMBING_PRODUCTS ->
  exists k : Z, 0 <= k <= 5000 /\ (price x == k # 4)%Q.
Proof.
  intros Hx. exists (Qnum (price x) * 4 / Z.pos (Qden (price x))).
  simpl in Hx.
  repeat (destruct Hx as [<-|Hx];
          [split; [split; vm_compute; discriminate|reflexivity]|]).
  destruct Hx.
Qed.

Lemma catalogue_sum (lines : list CartItem) :
  Forall (fun item => 1 <= quantity item) lines -> from_catalogue lines ->
  exists n : Z,
    0 <= n <= 5000 * sum_of_quantities lines /\
    (sum_of_line_totals lines == n # 4)%Q.
Proof.
  induction 1 as [|item rest Hitem _ IH]; intros Hcat.
  - exists 0. split; [simpl; lia|reflexivity].
  - inversion Hcat as [|? ? Hx Hrest]; subst.
    destruct (IH Hrest) as (n & Hn & Hsum).
    destruct (catalogue_price _ Hx) as (k & Hk & Hprice).
    exists (k * quantity item + n). split.
    { cbn [sum_of_quantities].
      assert (0 <= k * quantity item <= 5000 * quantity item) by nia.
      lia. }
    simpl. unfold line_total. rewrite Hsum, Hprice.
    unfold Qeq, Qplus, Qmult, inject_Z. simpl. lia.
Qed.

Lemma use_badge st (c : Control) :
  rendered st c -> cart_ok (cart st) -> badge (use st c) <= badge st + 1.
Proof.
  intros Hr Hok.
  assert (Hpos : 0 <= badge st).
  { rewrite badge_is_sum.
    pose proof (quantities_at_least_length _ (proj1 Hok)). lia. }
  destruct c as [x| | |item|item|item|v|v|v|v|now fetch];
    try (unfold badge; simpl; lia).
  - change (use st (AddToCartButton x)) with (fst (addToCart x st)).
    rewrite addToCart_badge by apply Hok. lia.
  - destruct Hr as [_ Hin].
    destruct (line_buttons_badge st item Hok Hin) as (_ & -> & _). lia.
  - destruct Hr as [_ Hin].
    destruct (line_buttons_badge st item Hok Hin) as (-> & _). lia.
  - destruct Hr as [_ Hin].
    destruct (line_buttons_badge st item Hok Hin) as (_ & _ & -> & _).
    pose proof (proj1 (Forall_forall _ _) (proj1 Hok) item Hin). simpl in *.
    lia.
  - change (use st (SubmitButton now fetch))
      with (state (submitCart now fetch st)).
    rewrite (badge_is_sum (state _)).
    destruct (submitCart_cart now fetch st) as [-> | ->].
    + rewrite <- badge_is_sum. lia.
    + simpl. lia.
Qed.

Lemma visit_badge st (cs : list Control) st' :
  visit st cs st' ->
  cart_ok (cart st) /\ from_catalogue (cart st) ->
  badge st' <= badge st + Z.of_nat (List.length cs).
Proof.
  induction 1 as [st|st c cs st' Hr _ IH]; intros Hinv; [simpl; lia|].
  pose proof (use_badge st c Hr (proj1 Hinv)).
  pose proof (IH (use_keeps_invariant st c Hr Hinv)).
  simpl List.length. lia.
Qed.

(** X13.  On every page that a visit of at most 10^12 uses of controls
    reaches, the total is a whole number [n] of quarters of the currency
    unit, with [0 <= n < 2^53]. *)
Theorem visit_total_in_quarters (cs : list Control) st :
  visit initialState cs st ->
  Z.of_nat (List.length cs) <= 10 ^ 12 ->
  exists n : Z, 0 <= n < 2 ^ 53 /\ (getTotalPrice st == n # 4)%Q.
Proof.
  intros Hvisit Hlen.
  assert (Hinit : cart_ok (cart initialState)
                  /\ from_catalogue (cart initialState)).
  { split; [split|]; constructor. }
  destruct (visit_keeps_invariant _ _ _ Hvisit Hinit) as [[Hq _] Hcat].
  pose proof (visit_badge _ _ _ Hvisit Hinit) as Hbadge.
  rewrite badge_is_sum in Hbadge. change (badge initialState) with 0 in Hbadge.
  destruct (catalogue_sum _ Hq Hcat) as (n & Hn & Hsum).
  exists n. split; [|now rewrite getTotalPrice_is_sum].
  change (10 ^ 12) with 1000000000000 in Hlen.
  change (2 ^ 53) with 9007199254740992. lia.
Qed.

(** X13 on a visit that adds a pipe bundle (185.75) twice: 1486 quarters. *)
Lemma visit_total_in_quarters_witness :
  exists n : Z,
    0 <= n < 2 ^ 53 /\
    (getTotalPrice
       (use (use initialState (AddToCartButton (catalogue_item 3)))
            (AddToCartButton (catalogue_item 3))) == n # 4)%Q.
Proof.
  apply (visit_total_in_quarters
           [AddToCartButton (catalogue_item 3);
            AddToCartButton (catalogue_item 3)]).
  - apply visit_step; [simpl; tauto|].
    apply visit_step; [simpl; tauto|].
    apply visit_done.
  - simpl. lia.
Defined.

(** ** Submitting, in general *)

(** X14.  Every call of [submitCart] shows exactly one toast and sends at
    most one request; it sends none exactly when it leaves through one of
    the two early returns; it changes the state only when it leaves through
    the success branch, and then the state is the cleared one. *)
Theorem submitCart_one_toast (now : string) (fetch : Request -> FetchResult)
  st :
  List.length (toasts (submitCart now fetch st)) = 1%nat /\
  (List.length (requests (submitCart now fetch st)) <= 1)%nat /\
  (requests (submitCart now fetch st) = [] <->
   path (submitCart now fetch st) = EmptyCartError
   \/ path (submitCart now fetch st) = MissingContactInfoError) /\
  (state (submitCart now fetch st) <> st ->
   path (submitCart now fetch st) = Succeeded) /\
  (path (submitCart now fetch st) = Succeeded ->
   state (submitCart now fetch st)
   = {| cart := []; isCartOpen := false;
        customerInfo := CustomerInfo.empty |}).
Proof.
  unfold submitCart.
  destruct (List.length (cart st) =? 0)%nat;
    [|destruct (not_string _ || not_string _);
      [|destruct (fetch _) as [response|]; [destruct (ok response)|]]];
    simpl; repeat split; try lia; try tauto; try discriminate;
    try (intros [Hp|Hp]; discriminate Hp);
    try (intros Hne; now elim Hne).
Qed.

(** X14 on scenario C with a network that answers 500: nothing is sent
    only on the early returns, and here a request is sent. *)
Lemma submitCart_one_toast_witness :
  List.length
    (toasts (submitCart "2024-05-01T10:00:00.000Z" (answering 500)
               scenario_C)) = 1%nat /\
  requests (submitCart "2024-05-01T10:00:00.000Z" (answering 500) scenario_C)
  <> [].
Proof.
  destruct (submitCart_one_toast "2024-05-01T10:00:00.000Z" (answering 500)
              scenario_C) as (Hone & _ & Hnone & _ & _).
  split; [exact Hone|]. intros Hempty.
  apply Hnone in Hempty as [Hp|Hp]; discriminate Hp.
Defined.

(** X15.  After a successful submission the cart is empty, so that the next
    call of [submitCart], whatever the network would answer, leaves through
    the empty-cart return: one "Cart is empty" toast, no request, the
    cleared state kept. *)
Theorem submitCart_after_success (now now' : string)
  (fetch fetch' : Request -> FetchResult) st :
  path (submitCart now fetch st) = Succeeded ->
  submitCart now' fetch' (state (submitCart now fetch st))
  = {| path := EmptyCartError;
       state := {| cart := []; isCartOpen := false;
                   customerInfo := CustomerInfo.empty |};
       toasts := [cart_empty_toast];
       requests := [] |}.
Proof.
  unfold submitCart at 1 3.
  destruct (List.length (cart st) =? 0)%nat; [discriminate|].
  destruct (not_string _ || not_string _); [discriminate|].
  destruct (fetch _) as [response|]; [destruct (ok response)|];
    simpl; intros Hpath; try discriminate.
  reflexivity.
Qed.

(** X15 on scenario C, the first request answered 200. *)
Lemma submitCart_after_success_witness :
  path (submitCart "2024-05-01T10:05:00.000Z" (answering 200)
          (state (submitCart "2024-05-01T10:00:00.000Z" (answering 200)
                    scenario_C)))
  = EmptyCartError.
Proof.
  rewrite (submitCart_after_success "2024-05-01T10:00:00.000Z"
             "2024-05-01T10:05:00.000Z" (answering 200) (answering 200)
             scenario_C eq_refl).
  reflexivity.
Defined.

(** X16.  No control of the page brings up the "Cart is empty" toast: the
    submit button is on the page only while the cart has a line, so that a
    click on it always passes the first check of [submitCart]. *)
Theorem cart_empty_toast_never_shown st (c : Control) :
  rendered st c -> ~ In cart_empty_toast (toasts_of st c).
Proof.
  destruct c as [x| | |item|item|item|v|v|v|v|now fetch]; simpl;
    try (intros _ Hin; exact Hin).
  - intros _ [Heq|Hin]; [discriminate Heq|exact Hin].
  - intros [_ Hcart]. unfold submitCart.
    rewrite (length_zero_false _ Hcart).
    destruct (not_string _ || not_string _);
      [|destruct (fetch _) as [response|]; [destruct (ok response)|]];
      simpl; (intros [Heq|Hin]; [discriminate Heq|exact Hin]).
Qed.

(** X16 on the submit button of scenario C with the panel open. *)
Lemma cart_empty_toast_never_shown_witness :
  ~ In cart_empty_toast
       (toasts_of (setIsCartOpen true scenario_C)
                  (SubmitButton "2024-05-01T10:00:00.000Z" unreachable)).
Proof.
  apply cart_empty_toast_never_shown. split; [reflexivity|discriminate].
Defined.

(** ** From the form to the request *)

Lemma type_all_in_any_order st (ks : list Keystroke) (n e p a : string) :
  Permutation ks [TypeName n; TypeEmail e; TypePhone p; TypeAddress a] ->
  type_all ks st = setCustomerInfo (CustomerInfo.mk n e p a) st.
Proof.
  intros Hperm.
  assert (Hlen := Permutation_length Hperm).
  destruct ks as [|k1 [|k2 [|k3 [|k4 [|k5 ks]]]]]; try discriminate Hlen.
  assert (Hback := Permutation_sym Hperm).
  assert (Hn := Permutation_in (TypeName n) Hback ltac:(simpl; tauto)).
  assert (He := Permutation_in (TypeEmail e) Hback ltac:(simpl; tauto)).
  assert (Hp := Permutation_in (TypePhone p) Hback ltac:(simpl; tauto)).
  assert (Ha := Permutation_in (TypeAddress a) Hback ltac:(simpl; tauto)).
  assert (H1 := Permutation_in k1 Hperm ltac:(simpl; tauto)).
  assert (H2 := Permutation_in k2 Hperm ltac:(simpl; tauto)).
  assert (H3 := Permutation_in k3 Hperm ltac:(simpl; tauto)).
  assert (H4 := Permutation_in k4 Hperm ltac:(simpl; tauto)).
  clear Hperm Hback Hlen. simpl in H1, H2, H3, H4.
  destruct H1 as [<-|[<-|[<-|[<-|[]]]]];
    destruct H2 as [<-|[<-|[<-|[<-|[]]]]];
    destruct H3 as [<-|[<-|[<-|[<-|[]]]]];
    destruct H4 as [<-|[<-|[<-|[<-|[]]]]];
    try reflexivity; exfalso;
    try (clear - Hn; simpl in Hn; intuition discriminate);
    try (clear - He; simpl in He; intuition discriminate);
    try (clear - Hp; simpl in Hp; intuition discriminate);
    try (clear - Ha; simpl in Ha; intuition discriminate).
Qed.

(** X17.  The four inputs fill the four fields independently of the order
    in which they are typed in, and touch neither the cart nor the panel:
    in each of the 24 orders the form ends with what was typed, on any
    state.  With a line in the cart and a name and an e-mail address that
    are not empty, the request of the submission that follows carries
    exactly what was typed, with the lines and the total of the cart. *)
Theorem typed_fields_reach_request (now : string)
  (fetch : Request -> FetchResult) st (ks : list Keystroke)
  (n e p a : string) :
  Permutation ks [TypeName n; TypeEmail e; TypePhone p; TypeAddress a] ->
  type_all ks st = setCustomerInfo (CustomerInfo.mk n e p a) st /\
  cart (type_all ks st) = cart st /\
  isCartOpen (type_all ks st) = isCartOpen st /\
  (cart st <> [] -> n <> ""%string -> e <> ""%string ->
   exists request,
     requests (submitCart now fetch (type_all ks st)) = [request] /\
     customer (cartData (body request)) = CustomerInfo.mk n e p a /\
     items (cartData (body request)) = cart st /\
     total (cartData (body request)) = getTotalPrice st).
Proof.
  intros Hperm. rewrite (type_all_in_any_order st ks n e p a Hperm).
  split; [reflexivity|]. split; [reflexivity|]. split; [reflexivity|].
  intros Hcart Hn He.
  rewrite submitCart_sends; try assumption.
  eexists. split.
  - destruct (fetch _) as [response|]; [destruct (ok response)|];
      reflexivity.
  - repeat split.
Qed.

(** X17 on the cart of scenario C, the form typed in from the last field to
    the first over what was there. *)
Lemma typed_fields_reach_request_witness :
  exists request,
    requests (submitCart "2024-05-01T10:00:00.000Z" unreachable
                (type_all [TypeAddress "12 Pipe Street";
                           TypePhone "011 555 0100";
                           TypeEmail "jane@x.com"; TypeName "Jane"]
                          scenario_C))
    = [request] /\
    customer (cartData (body request))
    = CustomerInfo.mk "Jane" "jane@x.com" "011 555 0100" "12 Pipe Street".
Proof.
  destruct (typed_fields_reach_request "2024-05-01T10:00:00.000Z"
              unreachable scenario_C
              [TypeAddress "12 Pipe Street"; TypePhone "011 555 0100";
               TypeEmail "jane@x.com"; TypeName "Jane"]
              "Jane" "jane@x.com" "011 555 0100" "12 Pipe Street")
    as (_ & _ & _ & Hrequest).
  - exact (Permutation_sym
             (Permutation_rev
                [TypeName "Jane"; TypeEmail "jane@x.com";
                 TypePhone "011 555 0100";
                 TypeAddress "12 Pipe Street"])).
  - destruct Hrequest as (request & Hreq & Hcustomer & _);
      try discriminate.
    exists request. split; assumption.
Defined.

End PageFacts.

(** * The model picker *)

Section ShowcaseFacts.
Import Showcase.

Implicit Types (w : World) (ls : Storage) (a : Action).

(** ** Storage *)

Lemma setItem_same (k v : string) ls : setItem k v ls k = Some v.
Proof. unfold setItem. now rewrite String.eqb_refl. Qed.

Lemma setItem_other (k k' v : string) ls :
  k' <> k -> setItem k v ls k' = ls k'.
Proof. intros H. unfold setItem. apply String.eqb_neq in H. now rewrite H. Qed.

Lemma or_else_nonempty (v : option string) (d : string) :
  d <> "" -> or_else v d <> "".
Proof.
  intros Hd. unfold or_else. destruct v as [s|]; [|exact Hd].
  destruct (String.eqb_spec s ""); assumption.
Qed.

Lemma or_else_some (s d : string) : s <> "" -> or_else (Some s) d = s.
Proof. intros H. simpl. apply String.eqb_neq in H. now rewrite H. Qed.

Lemma synced_setModel (m : string) w :
  m <> "" -> synced w -> synced (setModel m w).
Proof.
  intros Hm (Hmodel & Hcolor & Hne & Hce). unfold synced, setModel. simpl.
  destruct (String.eqb_spec (model w) m) as [<-|Hdiff].
  - now repeat split.
  - rewrite setItem_same, setItem_other by discriminate. now repeat split.
Qed.

Lemma synced_setColor (c : string) w :
  c <> "" -> synced w -> synced (setColor c w).
Proof.
  intros Hc (Hmodel & Hcolor & Hne & Hce). unfold synced, setColor. simpl.
  destruct (String.eqb_spec (color w) c) as [<-|Hdiff].
  - now repeat split.
  - rewrite setItem_same, setItem_other by discriminate. now repeat split.
Qed.

Lemma synced_other w w' :
  model w' = model w -> color w' = color w ->
  localStorage w' "landing.model" = localStorage w "landing.model" ->
  localStorage w' "landing.color" = localStorage w "landing.color" ->
  synced w -> synced w'.
Proof. unfold synced. intros -> -> -> ->. auto. Qed.

Lemma revokeCurrent_frame w :
  model (revokeCurrent w) = model w /\ color (revokeCurrent w) = color w /\
  customUrl (revokeCurrent w) = customUrl w /\
  customUrlInput (revokeCurrent w) = customUrlInput w /\
  objectUrlRef (revokeCurrent w) = objectUrlRef w /\
  localStorage (revokeCurrent w) = localStorage w /\
  models (revokeCurrent w) = models w.
Proof.
  unfold revokeCurrent. destruct (objectUrlRef w) eqn:Href; simpl;
    repeat split; auto.
Qed.

Lemma synced_handleFile (file : option Blob) (putOk : bool) (fresh : string)
  w : synced w -> synced (handleFile file putOk fresh w).
Proof.
  intros Hs. unfold handleFile. destruct file as [blob|]; [|exact Hs].
  apply synced_setModel; [discriminate|].
  destruct putOk.
  - destruct (revokeCurrent_frame
                (storeItem "landing.custom.blobId" "customModel"
                   (storeItem "landing.custom.type" "blob"
                      (putBlob "customModel" blob w))))
      as (H1 & H2 & _ & _ & _ & H3 & _).
    revert Hs. apply synced_other; simpl; rewrite ?H1, ?H2, ?H3; simpl;
      try reflexivity; now rewrite !setItem_other by discriminate.
  - destruct (revokeCurrent_frame w) as (H1 & H2 & _ & _ & _ & H3 & _).
    revert Hs. apply synced_other; simpl; rewrite ?H1, ?H2, ?H3; reflexivity.
Qed.

Lemma synced_loadUrl w : synced w -> synced (loadUrl w).
Proof.
  intros Hs. unfold loadUrl.
  destruct (negb (String.eqb (customUrlInput w) "")); [|exact Hs].
  apply synced_setModel; [discriminate|].
  revert Hs. apply synced_other; simpl; try reflexivity;
    now rewrite !setItem_other by discriminate.
Qed.

Lemma nonempty_primitive (m : string) : In m primitives -> m <> "".
Proof. simpl. intuition (subst; discriminate). Qed.

Lemma nonempty_palette (c : string) : In c palette -> c <> "".
Proof. simpl. intuition (subst; discriminate). Qed.

Lemma synced_act w a : offered a -> synced w -> synced (act w a).
Proof.
  destruct a as [m| |c|file putOk fresh|v|]; simpl; intros Ho Hs.
  - apply synced_setModel; [now apply nonempty_primitive|exact Hs].
  - apply synced_setModel; [discriminate|exact Hs].
  - apply synced_setColor; [now apply nonempty_palette|exact Hs].
  - now apply synced_handleFile.
  - revert Hs. now apply synced_other.
  - now apply synced_loadUrl.
Qed.

Lemma synced_mount (readOk : bool) (fresh : string) ls (idb : Models) :
  synced (mount readOk fresh ls idb).
Proof.
  unfold mount.
  set (w := {| model := or_else (ls "landing.model") "torus" |}).
  assert (Hw : synced w).
  { unfold synced, w. simpl.
    rewrite setItem_same, setItem_other, setItem_same by discriminate.
    repeat split; apply or_else_nonempty; discriminate. }
  destruct (localStorage w "landing.custom.type") as [type|]; [|exact Hw].
  destruct (String.eqb type "url").
  - destruct (negb _); [|exact Hw].
    apply synced_setModel; [discriminate|].
    revert Hw. now apply synced_other.
  - destruct (String.eqb type "blob"); [|exact Hw].
    destruct (if readOk then _ else _) as [blob|]; [|exact Hw].
    apply synced_setModel; [discriminate|].
    destruct (revokeCurrent_frame (createObjectURL fresh blob w))
      as (H1 & H2 & _ & _ & _ & H3 & _).
    revert Hw. apply synced_other; simpl; rewrite ?H1, ?H2, ?H3; reflexivity.
Qed.

Lemma synced_run (actions : list Action) :
  forall w, Forall offered actions -> synced w -> synced (run actions w).
Proof.
  unfold run. induction actions as [|a rest IH]; intros w Hoff Hs; simpl.
  - exact Hs.
  - inversion Hoff; subst. apply IH; [assumption|]. now apply synced_act.
Qed.

(** ** Selections and reloads *)

Lemma selection_frame w a (k : string) :
  selection_only a -> k <> "landing.model" -> k <> "landing.color" ->
  localStorage (act w a) k = localStorage w k /\
  models (act w a) = models w /\
  customUrl (act w a) = customUrl w.
Proof.
  destruct a as [m| |c|file putOk fresh|v|]; simpl; intros Hsel Hm Hc;
    try contradiction; unfold setModel, setColor; simpl;
    repeat split; try reflexivity.
  - destruct (String.eqb (model w) m); [reflexivity|].
    now apply setItem_other.
  - destruct (String.eqb (model w) "custom"); [reflexivity|].
    now apply setItem_other.
  - destruct (String.eqb (color w) c); [reflexivity|].
    now apply setItem_other.
Qed.

Lemma selection_run_frame (actions : list Action) (k : string) :
  k <> "landing.model" -> k <> "landing.color" ->
  forall w, Forall selection_only actions ->
    localStorage (run actions w) k = localStorage w k /\
    models (run actions w) = models w /\
    customUrl (run actions w) = customUrl w.
Proof.
  intros Hm Hc. unfold run.
  induction actions as [|a rest IH]; intros w Hsel; simpl.
  - now repeat split.
  - inversion Hsel as [|? ? Ha Hrest]; subst.
    destruct (IH (act w a)) as (H1 & H2 & H3); [assumption|].
    destruct (selection_frame w a k) as (H4 & H5 & H6); try assumption.
    rewrite H1, H2, H3. now repeat split.
Qed.

Lemma mount_plain (readOk : bool) (fresh : string) ls (idb : Models) :
  no_custom_recorded ls ->
  mount readOk fresh ls idb
  = {| model := or_else (ls "landing.model") "torus";
       color := or_else (ls "landing.color") "#3b82f6";
       customUrl := ""; customUrlInput := ""; objectUrlRef := None;
       localStorage :=
         setItem "landing.color" (or_else (ls "landing.color") "#3b82f6")
           (setItem "landing.model" (or_else (ls "landing.model") "torus")
              ls);
       models := idb; objectUrls := [] |}.
Proof.
  intros [Hurl Hblob]. unfold mount. simpl.
  rewrite !setItem_other by discriminate.
  destruct (ls "landing.custom.type") as [type|]; [|reflexivity].
  destruct (String.eqb_spec type "url") as [->|_]; [now elim Hurl|].
  destruct (String.eqb_spec type "blob") as [->|_]; [now elim Hblob|].
  reflexivity.
Qed.

Lemma drawn_ext w w' :
  model w' = model w -> customUrl w' = customUrl w -> color w' = color w ->
  drawn w' = drawn w.
Proof. unfold drawn. now intros -> -> ->. Qed.

(** X18.  In a browser that has no custom model on record, a visitor who
    only picks models and colours (and types in the address field) finds
    the page after a reload as it was left: the same model, the same
    colour, the same drawing. *)
Theorem reload_restores_selection (readOk0 readOk : bool)
  (fresh0 fresh : string) ls (idb : Models) (actions : list Action) :
  no_custom_recorded ls ->
  Forall offered actions -> Forall selection_only actions ->
  model (reload readOk fresh (run actions (mount readOk0 fresh0 ls idb)))
  = model (run actions (mount readOk0 fresh0 ls idb)) /\
  color (reload readOk fresh (run actions (mount readOk0 fresh0 ls idb)))
  = color (run actions (mount readOk0 fresh0 ls idb)) /\
  drawn (reload readOk fresh (run actions (mount readOk0 fresh0 ls idb)))
  = drawn (run actions (mount readOk0 fresh0 ls idb)).
Proof.
  intros Hplain Hoff Hsel.
  assert (Hsync := synced_run actions _ Hoff
                     (synced_mount readOk0 fresh0 ls idb)).
  destruct (selection_run_frame actions "landing.custom.type"
              ltac:(discriminate) ltac:(discriminate)
              (mount readOk0 fresh0 ls idb) Hsel) as (Htype & _ & Hurl).
  set (w := run actions (mount readOk0 fresh0 ls idb)) in *.
  rewrite (mount_plain readOk0 fresh0 ls idb Hplain) in Htype, Hurl.
  simpl in Htype, Hurl. rewrite !setItem_other in Htype by discriminate.
  assert (Hplain' : no_custom_recorded (localStorage w)).
  { unfold no_custom_recorded. now rewrite Htype. }
  destruct Hsync as (Hm & Hc & Hmne & Hcne).
  unfold reload. rewrite (mount_plain readOk fresh _ _ Hplain').
  assert (Hmodel : or_else (localStorage w "landing.model") "torus"
                   = model w) by (rewrite Hm; now apply or_else_some).
  assert (Hcolor : or_else (localStorage w "landing.color") "#3b82f6"
                   = color w) by (rewrite Hc; now apply or_else_some).
  split; [exact Hmodel|]. split; [exact Hcolor|].
  apply drawn_ext; simpl; auto.
Qed.

(** X18 on a first visit: sphere, then the green of the palette. *)
Lemma reload_restores_selection_witness :
  drawn (reload true "blob:1"
           (run [SelectModel "sphere"; SelectColor "#16a34a"]
                (mount true "blob:0" empty_storage empty_models)))
  = Primitive (Some "sphereGeometry") "#16a34a".
Proof.
  destruct (reload_restores_selection true true "blob:0" "blob:1"
              empty_storage empty_models
              [SelectModel "sphere"; SelectColor "#16a34a"])
    as (_ & _ & Hdrawn).
  - split; discriminate.
  - repeat constructor; simpl; tauto.
  - repeat constructor.
  - rewrite Hdrawn. reflexivity.
Defined.

Lemma mount_frame (readOk : bool) (fresh : string) ls (idb : Models)
  (k : string) :
  k <> "landing.model" -> k <> "landing.color" ->
  localStorage (mount readOk fresh ls idb) k = ls k.
Proof.
  intros Hm Hc. unfold mount.
  set (w := {| model := or_else (ls "landing.model") "torus" |}).
  assert (Hw : localStorage w k = ls k).
  { unfold w. simpl. now rewrite !setItem_other. }
  assert (Hset : forall w', localStorage w' k = ls k ->
                            localStorage (setModel "custom" w') k = ls k).
  { intros w' Hw'. unfold setModel. simpl.
    destruct (String.eqb (model w') "custom"); [exact Hw'|].
    now rewrite setItem_other. }
  destruct (localStorage w "landing.custom.type") as [type|]; [|exact Hw].
  destruct (String.eqb type "url").
  - destruct (negb _); [|exact Hw]. apply Hset. exact Hw.
  - destruct (String.eqb type "blob"); [|exact Hw].
    destruct (if readOk then _ else _) as [blob|]; [|exact Hw].
    apply Hset.
    change (localStorage (revokeCurrent (createObjectURL fresh blob w)) k
            = ls k).
    destruct (revokeCurrent_frame (createObjectURL fresh blob w))
      as (_ & _ & _ & _ & _ & -> & _).
    exact Hw.
Qed.

Lemma url_recorded_loadUrl w :
  customUrlInput w <> "" -> url_recorded (customUrlInput w) (loadUrl w).
Proof.
  intros Hu.
  assert (Hne : negb (String.eqb (customUrlInput w) "") = true).
  { apply negb_true_iff. now apply String.eqb_neq. }
  unfold url_recorded, loadUrl, setModel. rewrite Hne. simpl.
  destruct (String.eqb (model w) "custom");
    rewrite ?setItem_other by discriminate; split;
    rewrite ?setItem_other by discriminate; apply setItem_same.
Qed.

Lemma url_recorded_occur (url : string) w (e : Event) :
  quiet e -> url_recorded url w -> url_recorded url (occur w e).
Proof.
  intros Hq [Htype Hurl]. destruct e as [a|readOk fresh]; simpl.
  - destruct (selection_frame w a "landing.custom.type" Hq
                ltac:(discriminate) ltac:(discriminate)) as (H1 & _).
    destruct (selection_frame w a "landing.custom.url" Hq
                ltac:(discriminate) ltac:(discriminate)) as (H2 & _).
    split; congruence.
  - unfold reload, url_recorded.
    rewrite !mount_frame by discriminate. now split.
Qed.

Lemma url_recorded_history (url : string) (events : list Event) :
  forall w, Forall quiet events -> url_recorded url w ->
            url_recorded url (history events w).
Proof.
  unfold history. induction events as [|e rest IH]; intros w Hq Hrec; simpl.
  - exact Hrec.
  - inversion Hq as [|? ? He Hrest]; subst.
    apply IH; [assumption|]. now apply url_recorded_occur.
Qed.

Lemma url_recorded_reload (readOk : bool) (fresh url : string) w :
  url <> "" -> url_recorded url w ->
  drawn (reload readOk fresh w) = Gltf url.
Proof.
  intros Hu [Htype Hurl].
  assert (Hne : negb (String.eqb url "") = true).
  { apply negb_true_iff. now apply String.eqb_neq. }
  unfold reload, mount. simpl.
  rewrite !(setItem_other _ "landing.custom.type") by discriminate.
  rewrite Htype. simpl.
  rewrite !(setItem_other _ "landing.custom.url") by discriminate.
  rewrite Hurl, (or_else_some _ _ Hu), Hne.
  unfold drawn. simpl. now rewrite Hne.
Qed.

(** X19.  Once "Load" has been clicked on a non-empty address, every later
    reload draws the model of that address, the first one and each one
    after it, whatever primitive or colour was picked in between: the
    primitive picked after a load does not survive the reload. *)
Theorem loaded_url_survives_reload (readOk : bool) (fresh : string) w
  (events : list Event) :
  customUrlInput w <> "" ->
  Forall quiet events ->
  drawn (loadUrl w) = Gltf (customUrlInput w) /\
  drawn (reload readOk fresh (history events (loadUrl w)))
  = Gltf (customUrlInput w).
Proof.
  intros Hu Hq. split.
  - assert (Hne : negb (String.eqb (customUrlInput w) "") = true).
    { apply negb_true_iff. now apply String.eqb_neq. }
    unfold loadUrl, drawn. rewrite Hne. simpl. now rewrite Hne.
  - apply url_recorded_reload; [exact Hu|].
    apply url_recorded_history; [exact Hq|].
    now apply url_recorded_loadUrl.
Qed.

(** X19 on a first visit: an address is loaded, the box is picked, the page
    is reloaded, the sphere is picked, and the page is reloaded again. *)
Lemma loaded_url_survives_reload_witness :
  drawn (history [Acts (SelectModel "box"); Reloads true "blob:1";
                  Acts (SelectModel "sphere")]
           (loadUrl (setCustomUrlInput "https://example.org/pump.glb"
                       (mount true "blob:0" empty_storage empty_models))))
  = Primitive (Some "sphereGeometry") "#3b82f6" /\
  drawn (reload true "blob:2"
           (history [Acts (SelectModel "box"); Reloads true "blob:1";
                     Acts (SelectModel "sphere")]
              (loadUrl (setCustomUrlInput "https://example.org/pump.glb"
                          (mount true "blob:0" empty_storage
                             empty_models)))))
  = Gltf "https://example.org/pump.glb".
Proof.
  split; [reflexivity|].
  apply (loaded_url_survives_reload true "blob:2"
           (setCustomUrlInput "https://example.org/pump.glb"
              (mount true "blob:0" empty_storage empty_models))
           [Acts (SelectModel "box"); Reloads true "blob:1";
            Acts (SelectModel "sphere")]).
  - discriminate.
  - repeat constructor.
Defined.

(** ** Uploaded files *)

Lemma handleFile_stored (blob : Blob) (fresh : string) w :
  localStorage (handleFile (Some blob) true fresh w) "landing.custom.type"
  = Some "blob" /\
  localStorage (handleFile (Some blob) true fresh w) "landing.custom.blobId"
  = Some "customModel" /\
  models (handleFile (Some blob) true fresh w) "customModel" = Some blob.
Proof.
  unfold handleFile.
  destruct (revokeCurrent_frame
              (storeItem "landing.custom.blobId" "customModel"
                 (storeItem "landing.custom.type" "blob"
                    (putBlob "customModel" blob w))))
    as (_ & _ & _ & _ & _ & Hls & Hmodels).
  unfold setModel. simpl. rewrite Hls, Hmodels. simpl.
  repeat split;
    destruct (String.eqb (model (revokeCurrent _)) "custom");
    rewrite ?setItem_other by discriminate;
    try apply setItem_same; reflexivity.
Qed.

(** X20.  A file whose blob could be stored comes back after a reload: the
    component reads the blob under the key it was stored with, gets an
    object address for it and draws the model at that address; that address
    is the only live one and the ref holds it.  Picking primitives or
    colours before the reload changes nothing to that. *)
Theorem uploaded_file_survives_reload (blob : Blob) (fresh0 fresh : string)
  w (actions : list Action) :
  fresh <> "" ->
  Forall selection_only actions ->
  drawn (reload true fresh
           (run actions (handleFile (Some blob) true fresh0 w)))
  = Gltf fresh /\
  objectUrls (reload true fresh
                (run actions (handleFile (Some blob) true fresh0 w)))
  = [(fresh, blob)] /\
  objectUrlRef (reload true fresh
                  (run actions (handleFile (Some blob) true fresh0 w)))
  = Some fresh.
Proof.
  intros Hfresh Hsel.
  destruct (handleFile_stored blob fresh0 w) as (Htype0 & Hid0 & Hblob0).
  destruct (selection_run_frame actions "landing.custom.type"
              ltac:(discriminate) ltac:(discriminate)
              (handleFile (Some blob) true fresh0 w) Hsel)
    as (Htype & Hmodels & _).
  destruct (selection_run_frame actions "landing.custom.blobId"
              ltac:(discriminate) ltac:(discriminate)
              (handleFile (Some blob) true fresh0 w) Hsel)
    as (Hid & _ & _).
  rewrite Htype0 in Htype. rewrite Hid0 in Hid.
  rewrite <- Hmodels in Hblob0.
  remember (run actions (handleFile (Some blob) true fresh0 w)) as w2.
  clear Heqw2 Hmodels Htype0 Hid0.
  unfold reload, mount. simpl.
  rewrite !(setItem_other _ "landing.custom.type") by discriminate.
  rewrite Htype. simpl.
  rewrite !(setItem_other _ "landing.custom.blobId") by discriminate.
  rewrite Hid. simpl. rewrite Hblob0.
  unfold drawn. simpl.
  apply String.eqb_neq in Hfresh. rewrite Hfresh. simpl.
  repeat split.
Qed.

(** X20 on a first visit: a file is uploaded and stored, the cone is picked,
    the page is reloaded. *)
Lemma uploaded_file_survives_reload_witness :
  drawn (reload true "blob:1"
           (run [SelectModel "cone"]
              (handleFile (Some "glTF-bytes") true "blob:0"
                 (mount true "blob:9" empty_storage empty_models))))
  = Gltf "blob:1".
Proof.
  apply (uploaded_file_survives_reload "glTF-bytes" "blob:0" "blob:1"
           (mount true "blob:9" empty_storage empty_models)
           [SelectModel "cone"]).
  - discriminate.
  - repeat constructor.
Defined.

(** X21.  Where the blob could not be stored, the upload is drawn until the
    page is left, and after a reload nothing is drawn: the model on record
    is "custom", no address comes with it, and "custom" names no
    geometry.  (A browser with no custom model on record, a visitor who had
    only picked models and colours before.) *)
Theorem unstored_upload_lost_on_reload (readOk0 readOk : bool)
  (fresh0 fresh1 fresh : string) (blob : Blob) ls (idb : Models)
  (actions : list Action) :
  no_custom_recorded ls ->
  Forall offered actions -> Forall selection_only actions ->
  fresh1 <> "" ->
  drawn (handleFile (Some blob) false fresh1
           (run actions (mount readOk0 fresh0 ls idb)))
  = Gltf fresh1 /\
  drawn (reload readOk fresh
           (handleFile (Some blob) false fresh1
              (run actions (mount readOk0 fresh0 ls idb))))
  = Primitive None (color (run actions (mount readOk0 fresh0 ls idb))).
Proof.
  intros Hplain Hoff Hsel Hfresh.
  assert (Hsync := synced_run actions _ Hoff
                     (synced_mount readOk0 fresh0 ls idb)).
  destruct (selection_run_frame actions "landing.custom.type"
              ltac:(discriminate) ltac:(discriminate)
              (mount readOk0 fresh0 ls idb) Hsel) as (Htype & _ & _).
  set (w := run actions (mount readOk0 fresh0 ls idb)) in *.
  rewrite (mount_plain readOk0 fresh0 ls idb Hplain) in Htype.
  simpl in Htype. rewrite !setItem_other in Htype by discriminate.
  assert (Hup := synced_handleFile (Some blob) false fresh1 w Hsync).
  set (w' := handleFile (Some blob) false fresh1 w) in *.
  assert (Hmodel : model w' = "custom") by reflexivity.
  assert (Hcolor : color w' = color w).
  { unfold w', handleFile. simpl.
    now destruct (revokeCurrent_frame w) as (_ & -> & _). }
  assert (Hcustom : customUrl w' = fresh1) by reflexivity.
  assert (Htype' : localStorage w' "landing.custom.type"
                   = ls "landing.custom.type").
  { unfold w', handleFile, setModel. simpl.
    destruct (revokeCurrent_frame w) as (_ & _ & _ & _ & _ & -> & _).
    destruct (String.eqb _ "custom");
      rewrite ?setItem_other by discriminate; exact Htype. }
  clearbody w'. split.
  - unfold drawn. rewrite Hmodel, Hcustom. simpl.
    apply String.eqb_neq in Hfresh. now rewrite Hfresh.
  - assert (Hplain' : no_custom_recorded (localStorage w'))
      by (unfold no_custom_recorded; now rewrite Htype').
    unfold reload. rewrite (mount_plain readOk fresh _ _ Hplain').
    destruct Hup as (Hm & Hc & _ & Hcne).
    unfold drawn. cbn [model customUrl color]. rewrite Hm, Hc, Hmodel, Hcolor.
    rewrite Hcolor in Hcne.
    rewrite (or_else_some (color w) "#3b82f6" Hcne). reflexivity.
Qed.

(** X21 on a first visit. *)
Lemma unstored_upload_lost_on_reload_witness :
  drawn (reload true "blob:1"
           (handleFile (Some "glTF-bytes") false "blob:0"
              (run [SelectColor "#e11d48"]
                 (mount true "blob:9" empty_storage empty_models))))
  = Primitive None "#e11d48".
Proof.
  destruct (unstored_upload_lost_on_reload true true "blob:9" "blob:0"
              "blob:1" "glTF-bytes" empty_storage empty_models
              [SelectColor "#e11d48"]) as [_ Hreload].
  - split; discriminate.
  - repeat constructor; simpl; tauto.
  - repeat constructor.
  - discriminate.
  - exact (eq_trans Hreload eq_refl).
Defined.

(** ** Object addresses *)

Lemma held_ext w w' :
  objectUrlRef w' = objectUrlRef w -> objectUrls w' = objectUrls w ->
  held w -> held w'.
Proof. unfold held. now intros -> ->. Qed.

Lemma held_revoke w : held w -> objectUrls (revokeCurrent w) = [].
Proof.
  unfold held, revokeCurrent.
  intros [Hurls|(url & b & Href & Hurls)].
  - destruct (objectUrlRef w); simpl; now rewrite Hurls.
  - rewrite Href. simpl. rewrite Hurls. simpl. now rewrite String.eqb_refl.
Qed.

Lemma held_create_revoke (fresh : string) (blob : Blob) w :
  held w ->
  objectUrls (revokeCurrent (createObjectURL fresh blob w)) = []
  \/ objectUrls (revokeCurrent (createObjectURL fresh blob w))
     = [(fresh, blob)].
Proof.
  unfold held, revokeCurrent. simpl.
  intros [Hurls|(url & b & Href & Hurls)].
  - destruct (objectUrlRef w) as [old|]; simpl; rewrite Hurls; simpl.
    + destruct (String.eqb fresh old); simpl; auto.
    + auto.
  - rewrite Href. simpl. rewrite Hurls. simpl. rewrite String.eqb_refl.
    destruct (String.eqb fresh url); simpl; auto.
Qed.

Lemma held_handleFile (file : option Blob) (putOk : bool) (fresh : string)
  w : held w -> held (handleFile file putOk fresh w).
Proof.
  intros Hw. unfold handleFile. destruct file as [blob|]; [|exact Hw].
  right. exists fresh, blob. split; [reflexivity|]. simpl.
  destruct putOk.
  - rewrite held_revoke; [reflexivity|]. revert Hw. now apply held_ext.
  - now rewrite held_revoke.
Qed.

Lemma held_act w a : held w -> held (act w a).
Proof.
  destruct a as [m| |c|file putOk fresh|v|]; simpl; intros Hw;
    try (revert Hw; now apply held_ext).
  - now apply held_handleFile.
  - unfold loadUrl. destruct (negb _); [|exact Hw].
    revert Hw. now apply held_ext.
Qed.

Lemma held_readThen (result : option Blob) (fresh : string)
  (isMounted : bool) w :
  held w -> held (readThen result fresh isMounted w).
Proof.
  intros Hw. unfold readThen. destruct result as [blob|]; [|exact Hw].
  assert (Hw1 : held (setObjectUrlRef fresh
                        (revokeCurrent (createObjectURL fresh blob w)))).
  { destruct (held_create_revoke fresh blob w Hw) as [Hurls|Hurls].
    - left. exact Hurls.
    - right. exists fresh, blob. split; [reflexivity|exact Hurls]. }
  destruct isMounted; [|exact Hw1].
  revert Hw1. now apply held_ext.
Qed.

Lemma putThen_urls (blob : Blob) (putOk : bool) (fresh : string)
  (isMounted : bool) w :
  held w ->
  objectUrlRef (putThen blob putOk fresh isMounted w) = Some fresh /\
  objectUrls (putThen blob putOk fresh isMounted w) = [(fresh, blob)].
Proof.
  intros Hw. unfold putThen.
  assert (Hw1 : held (if putOk
                      then storeItem "landing.custom.blobId" "customModel"
                             (storeItem "landing.custom.type" "blob"
                                (putBlob "customModel" blob w))
                      else w)).
  { destruct putOk; [|exact Hw]. revert Hw. now apply held_ext. }
  apply held_revoke in Hw1.
  destruct isMounted; simpl; rewrite Hw1; now split.
Qed.

Lemma held_putThen (blob : Blob) (putOk : bool) (fresh : string)
  (isMounted : bool) w :
  held w -> held (putThen blob putOk fresh isMounted w).
Proof.
  intros Hw.
  destruct (putThen_urls blob putOk fresh isMounted w Hw) as [Href Hurls].
  right. now exists fresh, blob.
Qed.

Lemma held_start ls (idb : Models) : held (world (start ls idb)).
Proof.
  unfold start. simpl.
  destruct (setItem _ _ _ "landing.custom.type") as [type|];
    [|now left].
  destruct (String.eqb type "url"); simpl.
  - destruct (negb _); now left.
  - destruct (String.eqb type "blob"); now left.
Qed.

Lemma held_happen (p : Page) (m : Moment) :
  held (world p) -> held (world (happen p m)).
Proof.
  intros Hp. destruct m as [a|file|n result fresh|n putOk fresh|]; simpl.
  - destruct (mounted p); [|exact Hp]. now apply held_act.
  - destruct file as [blob|]; [|exact Hp]. now destruct (mounted p).
  - destruct (nth_error (tasks p) n) as [[|blob]|]; try exact Hp.
    now apply held_readThen.
  - destruct (nth_error (tasks p) n) as [[|blob]|]; try exact Hp.
    now apply held_putThen.
  - destruct (mounted p); [|exact Hp]. left. now apply held_revoke.
Qed.

Lemma held_live (moments : list Moment) :
  forall p, held (world p) -> held (world (live moments p)).
Proof.
  unfold live. induction moments as [|m rest IH]; intros p Hp; simpl.
  - exact Hp.
  - apply IH. now apply held_happen.
Qed.

Lemma left_and_idle (p : Page) (moments : list Moment) :
  mounted p = false -> tasks p = [] -> live moments p = p.
Proof.
  intros Hm Ht. unfold live.
  induction moments as [|m rest IH]; simpl; [reflexivity|].
  assert (Hsame : happen p m = p).
  { destruct m as [a|file|n result fresh|n putOk fresh|]; simpl;
      rewrite ?Hm, ?Ht; try reflexivity.
    - now destruct file.
    - now destruct n.
    - now destruct n. }
  now rewrite Hsame.
Qed.

(** The two models of the requests agree where a request settles before
    anything else happens. *)
Lemma mount_is_start_then_read (readOk : bool) (fresh : string) ls
  (idb : Models) :
  mount readOk fresh ls idb
  = world
      (happen (start ls idb)
         (ReadSettles 0
            (if readOk
             then idb (or_else (ls "landing.custom.blobId") "customModel")
             else None)
            fresh)).
Proof.
  unfold mount, start. simpl.
  rewrite !(setItem_other _ "landing.custom.blobId") by discriminate.
  destruct (setItem _ _ _ "landing.custom.type") as [type|];
    [|reflexivity].
  destruct (String.eqb type "url"); [reflexivity|].
  destruct (String.eqb type "blob"); reflexivity.
Qed.

Lemma handleFile_is_pick_then_put (file : option Blob) (putOk : bool)
  (fresh : string) (p : Page) :
  mounted p = true ->
  world (happen p (Uses (Upload file putOk fresh)))
  = world (live [PicksFile file;
                 PutSettles (List.length (tasks p)) putOk fresh] p).
Proof.
  intros Hm. unfold live. simpl. rewrite Hm.
  destruct file as [blob|]; simpl.
  - rewrite nth_error_app2, Nat.sub_diag by auto. reflexivity.
  - destruct (nth_error (tasks p) (List.length (tasks p))) as [t|] eqn:Hnth.
    + assert (Hlt : nth_error (tasks p) (List.length (tasks p)) <> None)
        by (rewrite Hnth; discriminate).
      apply nth_error_Some in Hlt. now apply Nat.lt_irrefl in Hlt.
    + reflexivity.
Qed.

(** X22.  At every moment of a visit, whenever the requests to IndexedDB
    settle and also once the page has been left, at most one object address
    made by the page is live, and it is the one the ref holds: each upload
    revokes the address before its own.  Leaving the page revokes the last
    one; with no request under way at that moment none stays behind, ever;
    with an upload still under way, the address made when it settles is
    live from then on. *)
Theorem one_live_object_url ls (idb : Models) (moments : list Moment) :
  (List.length (objectUrls (world (live moments (start ls idb)))) <= 1)%nat
  /\
  (forall url blob,
      In (url, blob) (objectUrls (world (live moments (start ls idb)))) ->
      objectUrlRef (world (live moments (start ls idb))) = Some url) /\
  (mounted (live moments (start ls idb)) = true ->
   objectUrls (world (happen (live moments (start ls idb)) Leaves)) = [] /\
   (tasks (live moments (start ls idb)) = [] ->
    (forall later,
        objectUrls
          (world (live (Leaves :: later) (live moments (start ls idb))))
        = []) /\
    (forall blob putOk fresh later,
        objectUrls
          (world (live (PicksFile (Some blob) :: Leaves
                          :: PutSettles 0 putOk fresh :: later)
                       (live moments (start ls idb))))
        = [(fresh, blob)]))).
Proof.
  assert (Hp : held (world (live moments (start ls idb))))
    by apply held_live, held_start.
  remember (live moments (start ls idb)) as p eqn:Heqp. clear Heqp.
  split; [|split].
  - destruct Hp as [->|(url & b & _ & ->)]; simpl; auto.
  - intros url blob Hin.
    destruct Hp as [Hurls|(url' & b & Href & Hurls)];
      rewrite Hurls in Hin; simpl in Hin.
    + destruct Hin.
    + destruct Hin as [[= <- <-]|[]]. exact Href.
  - intros Hm.
    assert (Hleft : objectUrls (world (happen p Leaves)) = []).
    { simpl. rewrite Hm. simpl. now apply held_revoke. }
    split; [exact Hleft|]. intros Ht. split.
    + intros later. change (live (Leaves :: later) p)
        with (live later (happen p Leaves)).
      rewrite left_and_idle; [exact Hleft| |];
        simpl; rewrite Hm; [reflexivity|exact Ht].
    + intros blob putOk fresh later.
      change (live (PicksFile (Some blob) :: Leaves
                      :: PutSettles 0 putOk fresh :: later) p)
        with (live later
                (happen (happen (happen p (PicksFile (Some blob))) Leaves)
                        (PutSettles 0 putOk fresh))).
      assert (Hthree :
                happen (happen (happen p (PicksFile (Some blob))) Leaves)
                       (PutSettles 0 putOk fresh)
                = {| world := putThen blob putOk fresh false
                                (revokeCurrent (world p));
                     mounted := false; tasks := [] |}).
      { simpl. rewrite Hm. simpl. rewrite Ht. reflexivity. }
      rewrite Hthree, left_and_idle by reflexivity.
      cbn [world].
      apply (putThen_urls blob putOk fresh false (revokeCurrent (world p))).
      left. now apply held_revoke.
Qed.

(** X22 on a first visit: a file is picked and the page is left before the
    file is stored. *)
Lemma one_live_object_url_witness :
  objectUrls
    (world (live [PicksFile (Some "glTF-bytes"); Leaves;
                  PutSettles 0 true "blob:1"]
                 (start empty_storage empty_models)))
  = [("blob:1", "glTF-bytes")] /\
  objectUrls
    (world (live [Leaves] (start empty_storage empty_models)))
  = [].
Proof.
  destruct (one_live_object_url empty_storage empty_models [])
    as (_ & _ & Hleave).
  destruct (Hleave eq_refl) as (_ & Hidle).
  destruct (Hidle eq_refl) as (Hnone & Hpending).
  split.
  - exact (Hpending "glTF-bytes" true "blob:1" []).
  - exact (Hnone []).
Defined.

End ShowcaseFacts.
